(** * FormulaEvaluator: a shallow embedding of src/Engine/FormulaEvaluator.ts

    The evaluator is a two-stack infix evaluator over string tokens.  Its
    numbers are ECMAScript Numbers, that is IEEE 754 binary64 values, which
    are exactly Rocq's primitive floats (round to nearest, ties to even).
    The file has three layers:

    - [JS]: the pieces of the ECMAScript runtime the source calls
      ([Number(token)], [isNaN], [===], [||], arithmetic on a popped operand
      that may be [undefined]);
    - the collaborators the source imports but does not define
      ([ErrorMessages], [Cell], [SheetMemory]), taken as parameters;
    - the class [FormulaEvaluator] itself, method by method. *)

From Stdlib Require Import ZArith String Ascii List Bool Lia.
From Stdlib Require Import PrimFloat SpecFloat FloatOps.
Import ListNotations.

Local Open Scope string_scope.
Local Open Scope list_scope.

(* ================================================================== *)
(** ** The ECMAScript runtime used by the source *)

Module JS.

(** A value read from an array position or popped from an array: a Number,
    or [undefined] ([None]) when the array had nothing there. *)
Definition operand := option float.

(** ToNumber on such a value: [undefined] becomes NaN. *)
Definition toNumber (x : operand) : float :=
  match x with
  | Some v => v
  | None => nan
  end.

Definition add (x y : operand) : float := (toNumber x + toNumber y)%float.
Definition sub (x y : operand) : float := (toNumber x - toNumber y)%float.
Definition mul (x y : operand) : float := (toNumber x * toNumber y)%float.
Definition div (x y : operand) : float := (toNumber x / toNumber y)%float.

(** [x === 0]: false for [undefined]; IEEE equality otherwise, so both
    zeros compare equal to 0 and NaN does not. *)
Definition strictEqualsZero (x : operand) : bool :=
  match x with
  | Some v => PrimFloat.eqb v zero
  | None => false
  end.

Definition isNaN (v : float) : bool := PrimFloat.is_nan v.

(** ToBoolean of a Number: 0, -0 and NaN are falsy. *)
Definition truthy (v : float) : bool :=
  negb (PrimFloat.eqb v zero || PrimFloat.is_nan v).

(** [x || 0] *)
Definition orZero (x : operand) : float :=
  match x with
  | Some v => if truthy v then v else zero
  | None => zero
  end.

(** ToBoolean of a string: only the empty string is falsy. *)
Definition truthyString (s : string) : bool :=
  match s with
  | EmptyString => false
  | String _ _ => true
  end.

(** *** [Number(token)] on a string: StringToNumber (ECMA-262 7.1.4.1.1)

    A token is a Rocq [string]; each character stands for the code unit
    with the same number (0..255).  The value of a decimal literal is the
    Number nearest to it (ties to even) whatever its number of digits, as
    engines compute it. *)

Definition code (c : ascii) : Z := Z.of_N (N_of_ascii c).

(** StrWhiteSpaceChar among the code units below 256: TAB, LF, VT, FF, CR,
    SP and NBSP. *)
Definition isStrWhiteSpaceChar (c : ascii) : bool :=
  let n := code c in
  ((9 <=? n) && (n <=? 13) || (n =? 32) || (n =? 160))%Z.

Fixpoint chars (s : string) : list ascii :=
  match s with
  | EmptyString => []
  | String c rest => c :: chars rest
  end.

Fixpoint dropWhiteSpace (l : list ascii) : list ascii :=
  match l with
  | c :: rest => if isStrWhiteSpaceChar c then dropWhiteSpace rest else l
  | [] => []
  end.

Definition trim (l : list ascii) : list ascii :=
  rev (dropWhiteSpace (rev (dropWhiteSpace l))).

(** The value of [c] as a digit in the given radix, if it is one. *)
Definition digitValue (radix : Z) (c : ascii) : option Z :=
  let n := code c in
  let v :=
    (if (48 <=? n) && (n <=? 57) then n - 48           (* 0-9 *)
     else if (97 <=? n) && (n <=? 102) then n - 87     (* a-f *)
     else if (65 <=? n) && (n <=? 70) then n - 55      (* A-F *)
     else radix)%Z in
  if (v <? radix)%Z then Some v else None.

(** Reads the longest run of digits: its value so far, how many digits
    were read, and what follows. *)
Fixpoint digits (radix : Z) (l : list ascii) (acc : Z) (count : Z)
  : Z * Z * list ascii :=
  match l with
  | c :: rest =>
      match digitValue radix c with
      | Some d => digits radix rest (acc * radix + d)%Z (count + 1)%Z
      | None => (acc, count, l)
      end
  | [] => (acc, count, [])
  end.

(** The Number nearest to [num / den] for positive [num] and [den]
    (ties to even): the quotient is taken with at least 64 significant
    bits and the remainder gives the rounding location. *)
Definition nearestRatio (num den : Z) : float :=
  let s := Z.max 0 (Z.log2 den - Z.log2 num + 64) in
  let n := Z.shiftl num s in
  let q := (n / den)%Z in
  let r := (n mod den)%Z in
  let loc :=
    if (r =? 0)%Z then loc_Exact else loc_Inexact (Z.compare (2 * r) den) in
  SF2Prim (binary_round_aux prec emax false q (- s) loc).

(** The Number for the mathematical value [m * 10 ^ e], [m >= 0] written
    with [n] digits.  Values below 1e-330 round to 0 and values from 1e310
    on round to Infinity, whatever the digits are. *)
Definition decimalValue (m n e : Z) : float :=
  if (m =? 0)%Z then zero
  else if (n + e <=? -330)%Z then zero
  else if (310 <=? e)%Z then infinity
  else if (0 <=? e)%Z then SF2Prim (binary_normalize prec emax (m * 10 ^ e) 0 false)
  else nearestRatio m (10 ^ (- e)).

(** ExponentPart_opt followed by the end of the string: the exponent. *)
Definition exponentPart (l : list ascii) : option Z :=
  match l with
  | [] => Some 0%Z
  | c :: rest =>
      if (code c =? 101)%Z || (code c =? 69)%Z then           (* e E *)
        let '(negative, rest) :=
          match rest with
          | s :: rest' =>
              if (code s =? 43)%Z then (false, rest')          (* + *)
              else if (code s =? 45)%Z then (true, rest')      (* - *)
              else (false, rest)
          | [] => (false, rest)
          end in
        match digits 10 rest 0 0 with
        | (v, count, []) =>
            if (count =? 0)%Z then None
            else Some (if negative then (- v)%Z else v)
        | _ => None
        end
      else None
  end.

(** StrUnsignedDecimalLiteral *)
Definition unsignedDecimalLiteral (l : list ascii) : float :=
  if list_eq_dec ascii_dec l (chars "Infinity") then infinity
  else
    let '(intValue, intCount, rest) := digits 10 l 0 0 in
    let '(value, fracCount, rest) :=
      match rest with
      | c :: rest' =>
          if (code c =? 46)%Z then digits 10 rest' intValue 0  (* . *)
          else (intValue, 0%Z, rest)
      | [] => (intValue, 0%Z, rest)
      end in
    if (intCount + fracCount =? 0)%Z then nan
    else
      match exponentPart rest with
      | Some e => decimalValue value (intCount + fracCount) (e - fracCount)
      | None => nan
      end.

(** NonDecimalIntegerLiteral: the digits after [0x], [0o] or [0b]. *)
Definition nonDecimalIntegerLiteral (radix : Z) (l : list ascii) : float :=
  match digits radix l 0 0 with
  | (v, count, []) =>
      if (count =? 0)%Z then nan
      else SF2Prim (binary_normalize prec emax v 0 false)
  | _ => nan
  end.

Definition radixPrefix (c : ascii) : option Z :=
  let n := code c in
  if (n =? 120)%Z || (n =? 88)%Z then Some 16%Z        (* x X *)
  else if (n =? 111)%Z || (n =? 79)%Z then Some 8%Z    (* o O *)
  else if (n =? 98)%Z || (n =? 66)%Z then Some 2%Z     (* b B *)
  else None.

(** StrNumericLiteral *)
Definition numericLiteral (l : list ascii) : float :=
  match l with
  | [] => zero
  | c :: rest =>
      if (code c =? 43)%Z then unsignedDecimalLiteral rest
      else if (code c =? 45)%Z then (- unsignedDecimalLiteral rest)%float
      else
        match (code c =? 48)%Z, rest with
        | true, p :: rest' =>
            match radixPrefix p with
            | Some radix => nonDecimalIntegerLiteral radix rest'
            | None => unsignedDecimalLiteral l
            end
        | _, _ => unsignedDecimalLiteral l
        end
  end.

Definition Number (token : string) : float :=
  numericLiteral (trim (chars token)).

End JS.

(* ================================================================== *)
(** ** The collaborators the source imports *)

(** [ErrorMessages] of GlobalDefinitions: the source only selects among
    its entries, so the table is a parameter of the development. *)
Record ErrorMessagesT : Type := {
  emptyFormula : string;
  missingParentheses : string;
  invalidFormula : string;
  divideByZero : string;
  invalidOperator : string;
  invalidCell : string
}.

(** What the evaluator reads of a [Cell]: the results of its three getters. *)
Record Cell : Type := {
  getFormula : list string;
  getError : string;
  getValue : float
}.

Record SheetMemory : Type := {
  getCellByLabel : string -> Cell
}.

(* ================================================================== *)
(** ** Completions *)

(** How a call of a method that may throw ends. *)
Inductive outcome (A : Type) : Type :=
| Ok (a : A)
| Throw (message : string).     (* throw new Error(message) *)
Arguments Ok {A} a.
Arguments Throw {A} message.

(** How one turn of the [for] loop of [evaluateExpression] ends: it falls
    through to the next turn with the two stacks, returns from the method,
    or throws. *)
Inductive completion : Type :=
| Continue (values : list float) (operators : list string)
| Return (v : float)
| Raise (message : string).

(** The two arrays are used as stacks ([push], [pop], [a[a.length - 1]]):
    they are lists whose head is the last element of the array. *)
Definition peek {A : Type} (stack : list A) : option A :=
  match stack with
  | top :: _ => Some top
  | [] => None
  end.

Definition pop {A : Type} (stack : list A) : option A * list A :=
  match stack with
  | top :: rest => (Some top, rest)
  | [] => (None, [])
  end.

Definition push {A : Type} (a : A) (stack : list A) : list A := a :: stack.

(** [tokens[tokens.length - 1]]: [undefined] on the empty array. *)
Fixpoint lastToken (tokens : list string) : option string :=
  match tokens with
  | [] => None
  | [token] => Some token
  | _ :: rest => lastToken rest
  end.

(* ================================================================== *)
(** ** class FormulaEvaluator *)

Record FormulaEvaluator : Type := {
  _sheetMemory : SheetMemory;
  _errorMessage : string;
  _result : float
}.

(** [this._errorMessage = message] and [this._result = v] *)
Definition setErrorMessage (this : FormulaEvaluator) (message : string) :=
  {| _sheetMemory := _sheetMemory this;
     _errorMessage := message;
     _result := _result this |}.

Definition setResult (this : FormulaEvaluator) (v : float) :=
  {| _sheetMemory := _sheetMemory this;
     _errorMessage := _errorMessage this;
     _result := v |}.

Definition constructor (memory : SheetMemory) : FormulaEvaluator :=
  {| _sheetMemory := memory; _errorMessage := ""; _result := zero |}.

(** The getters [error] and [result]. *)
Definition error (this : FormulaEvaluator) : string := _errorMessage this.
Definition result (this : FormulaEvaluator) : float := _result this.

(** [["+", "-", "*", "/"].includes(token)] *)
Definition isOperator (token : string) : bool :=
  existsb (String.eqb token) ["+"; "-"; "*"; "/"].

(** [isOperator] on a position that may hold [undefined]. *)
Definition isOperatorAt (token : option string) : bool :=
  match token with
  | Some t => isOperator t
  | None => false
  end.

Definition getOperatorPrecedence (operator : string) : nat :=
  if (operator =? "+") || (operator =? "-") then 1
  else if (operator =? "*") || (operator =? "/") then 2
  else 0.

Definition isNumber (token : string) : bool :=
  negb (JS.isNaN (JS.Number token)).

Section Evaluator.

Variable ErrorMessages : ErrorMessagesT.
(** The static [Cell.isValidCellLabel]. *)
Variable isValidCellLabel : string -> bool.

Definition isCellReference (token : string) : bool :=
  isValidCellLabel token.

Definition getCellValue (this : FormulaEvaluator) (token : string)
  : float * string :=
  let cell := getCellByLabel (_sheetMemory this) token in
  let formula := getFormula cell in
  let error := getError cell in
  if JS.truthyString error && negb (error =? emptyFormula ErrorMessages) then
    (zero, error)
  else if (List.length formula =? 0)%nat then
    (zero, invalidCell ErrorMessages)
  else
    (getValue cell, "").

(** [applyOperator] works on the array it is given; here it returns the
    array after the call. *)
Definition applyOperator (this : FormulaEvaluator) (operator : string)
  (values : list float) : FormulaEvaluator * outcome (list float) :=
  let '(operand2, values) := pop values in
  let '(operand1, values) := pop values in
  if operator =? "+" then
    (this, Ok (push (JS.add operand1 operand2) values))
  else if operator =? "-" then
    (this, Ok (push (JS.sub operand1 operand2) values))
  else if operator =? "*" then
    (this, Ok (push (JS.mul operand1 operand2) values))
  else if operator =? "/" then
    if JS.strictEqualsZero operand2 then
      (setErrorMessage (setResult this infinity) (divideByZero ErrorMessages),
       Throw "Division by zero")
    else
      (this, Ok (push (JS.div operand1 operand2) values))
  else
    (setErrorMessage this (invalidOperator ErrorMessages),
     Throw "Invalid operator").

(** The [while] loop of the [")"] branch: applies the operators above
    the nearest ["("]. *)
Fixpoint applyUntilOpenParen (this : FormulaEvaluator)
  (operators : list string) (values : list float)
  : FormulaEvaluator * outcome (list string * list float) :=
  match operators with
  | [] => (this, Ok (operators, values))
  | top :: rest =>
      if negb (top =? "(") then
        match applyOperator this top values with
        | (this', Ok values') => applyUntilOpenParen this' rest values'
        | (this', Throw message) => (this', Throw message)
        end
      else (this, Ok (operators, values))
  end.

(** The [while] loop of the operator branch: applies the pending
    operators whose precedence is at least that of [token]. *)
Fixpoint applyWhilePrecedence (this : FormulaEvaluator) (token : string)
  (operators : list string) (values : list float)
  : FormulaEvaluator * outcome (list string * list float) :=
  match operators with
  | [] => (this, Ok (operators, values))
  | top :: rest =>
      if (getOperatorPrecedence token <=? getOperatorPrecedence top)%nat then
        match applyOperator this top values with
        | (this', Ok values') => applyWhilePrecedence this' token rest values'
        | (this', Throw message) => (this', Throw message)
        end
      else (this, Ok (operators, values))
  end.

(** The final [while] loop: applies every operator left. *)
Fixpoint applyRemaining (this : FormulaEvaluator)
  (operators : list string) (values : list float)
  : FormulaEvaluator * outcome (list float) :=
  match operators with
  | [] => (this, Ok values)
  | top :: rest =>
      match applyOperator this top values with
      | (this', Ok values') => applyRemaining this' rest values'
      | (this', Throw message) => (this', Throw message)
      end
  end.

(** [i < tokens.length - 1 && p(tokens[i + 1])]: [next] is the token after
    the current one, if there is one. *)
Definition nextIs (p : string -> bool) (next : option string) : bool :=
  match next with
  | Some t => p t
  | None => false
  end.

(** One turn of the [for] loop, on [token = tokens[i]]. *)
Definition scanToken (this : FormulaEvaluator) (token : string)
  (next : option string) (values : list float) (operators : list string)
  : FormulaEvaluator * completion :=
  if isNumber token then
    let values := push (JS.Number token) values in
    if nextIs (fun t => t =? "(") next then
      (setErrorMessage this (invalidFormula ErrorMessages),
       Return (JS.Number token))
    else (this, Continue values operators)
  else if isCellReference token then
    let '(value, error) := getCellValue this token in
    if JS.truthyString error then
      (setErrorMessage this error, Raise "Invalid cell reference")
    else (this, Continue (push value values) operators)
  else if token =? "(" then
    (this, Continue values (push token operators))
  else if token =? ")" then
    match applyUntilOpenParen this operators values with
    | (this', Ok (operators', values')) =>
        (this', Continue values' (snd (pop operators')))
    | (this', Throw message) => (this', Raise message)
    end
  else if isOperator token then
    if nextIs isOperator next then
      (setErrorMessage this (invalidFormula ErrorMessages),
       Return (JS.orZero (peek values)))
    else
      match applyWhilePrecedence this token operators values with
      | (this', Ok (operators', values')) =>
          (this', Continue values' (push token operators'))
      | (this', Throw message) => (this', Raise message)
      end
  else (this, Continue values operators).

(** The [for] loop over [tokens], from the turn whose token is the head of
    [tokens]; [after] is the token that follows the last of [tokens]
    ([None] for the whole formula, whose last token has no successor). *)
Fixpoint scan (this : FormulaEvaluator) (tokens : list string)
  (after : option string) (values : list float) (operators : list string)
  : FormulaEvaluator * completion :=
  match tokens with
  | [] => (this, Continue values operators)
  | token :: rest =>
      let next := match rest with [] => after | t :: _ => Some t end in
      match scanToken this token next values operators with
      | (this', Continue values' operators') =>
          scan this' rest after values' operators'
      | stop => stop
      end
  end.

Definition evaluateExpression (this : FormulaEvaluator)
  (tokens : list string) : FormulaEvaluator * outcome float :=
  match scan this tokens None [] [] with
  | (this, Return v) => (this, Ok v)
  | (this, Raise message) => (this, Throw message)
  | (this, Continue values operators) =>
      if isOperatorAt (lastToken tokens) then
        (setErrorMessage this (invalidFormula ErrorMessages),
         Ok (JS.orZero (peek values)))
      else if (0 <? List.length operators)%nat
              && (negb (isOperatorAt (peek operators))
                  || (List.length values <? 2)%nat) then
        (setErrorMessage this (invalidFormula ErrorMessages),
         Throw "Invalid formula")
      else
        match applyRemaining this operators values with
        | (this', Ok values') => (this', Ok (JS.orZero (fst (pop values'))))
        | (this', Throw message) => (this', Throw message)
        end
  end.

(** [formula[i] === s] *)
Definition tokenAtIs (formula : list string) (i : nat) (s : string) : bool :=
  match nth_error formula i with
  | Some t => t =? s
  | None => false
  end.

Definition evaluate (this : FormulaEvaluator) (formula : list string)
  : FormulaEvaluator :=
  let this := setErrorMessage this "" in
  if (List.length formula =? 0)%nat then
    setErrorMessage this (emptyFormula ErrorMessages)
  else if (List.length formula =? 2)%nat
          && tokenAtIs formula 0 "(" && tokenAtIs formula 1 ")" then
    setErrorMessage this (missingParentheses ErrorMessages)
  else
    let lastCharacter := lastToken formula in
    let this :=
      if isOperatorAt lastCharacter
         && negb (match lastCharacter with
                  | Some t => t =? ")"
                  | None => false
                  end)
      then setErrorMessage this (invalidFormula ErrorMessages)
      else this in
    match evaluateExpression this formula with
    | (this', Ok result) => setResult this' result
    | (this', Throw _) =>
        if negb (JS.truthyString (_errorMessage this')) then
          setErrorMessage this' (invalidFormula ErrorMessages)
        else this'
    end.

End Evaluator.

(* ================================================================== *)
(** ** Sample collaborators, for running the evaluator on concrete input *)

Definition sampleMessages : ErrorMessagesT :=
  {| emptyFormula := "#EMPTY!";
     missingParentheses := "#ERR:parentheses";
     invalidFormula := "#ERR:formula";
     divideByZero := "#DIV/0!";
     invalidOperator := "#ERR:operator";
     invalidCell := "#REF!" |}.

(** Labels of one capital letter and one digit: [A1], [B2], ... *)
Definition sampleIsValidCellLabel (label : string) : bool :=
  match label with
  | String column (String row EmptyString) =>
      ((65 <=? JS.code column) && (JS.code column <=? 90)
       && (48 <=? JS.code row) && (JS.code row <=? 57))%Z
  | _ => false
  end.

(** A sheet where [A1] holds the formula [5], [B2] carries a stored error
    and every other cell is empty. *)
Definition sampleMemory : SheetMemory :=
  {| getCellByLabel := fun label =>
       if label =? "A1" then
         {| getFormula := ["5"]; getError := ""; getValue := 5%float |}
       else if label =? "B2" then
         {| getFormula := ["B2"]; getError := "#CIRC"; getValue := zero |}
       else
         {| getFormula := []; getError := "#EMPTY!"; getValue := zero |} |}.

Definition sampleEvaluator : FormulaEvaluator := constructor sampleMemory.

(** No parenthesis or operator is a cell label: the assumption on
    [Cell.isValidCellLabel] under which the symbols reach their own branches
    of the scan. *)
Definition symbolsAreNotLabels (isValidCellLabel : string -> bool) : Prop :=
  forall t, In t ["("; ")"; "+"; "-"; "*"; "/"] -> isValidCellLabel t = false.

(** The four [throw] statements of the class, each with the assignments
    that precede it: [thrown ErrorMessages this message this'] relates the
    evaluator before and after. *)
Inductive thrown (ErrorMessages : ErrorMessagesT) (this : FormulaEvaluator)
  : string -> FormulaEvaluator -> Prop :=
| thrown_division :
    thrown ErrorMessages this "Division by zero"
      (setErrorMessage (setResult this infinity) (divideByZero ErrorMessages))
| thrown_operator :
    thrown ErrorMessages this "Invalid operator"
      (setErrorMessage this (invalidOperator ErrorMessages))
| thrown_cell (e : string) :
    JS.truthyString e = true ->
    thrown ErrorMessages this "Invalid cell reference" (setErrorMessage this e)
| thrown_formula :
    thrown ErrorMessages this "Invalid formula"
      (setErrorMessage this (invalidFormula ErrorMessages)).

(** The evaluator as [evaluate] hands it to [evaluateExpression]: the
    error message is reset, then set again if the last token is an
    operator. *)
Definition checked (ErrorMessages : ErrorMessagesT) (this : FormulaEvaluator)
  (formula : list string) : FormulaEvaluator :=
  if isOperatorAt (lastToken formula)
  then setErrorMessage this (invalidFormula ErrorMessages)
  else setErrorMessage this "".

(* ================================================================== *)
(** ** The calls of [applyOperator] made by an evaluation *)

(** [loopApplies ErrorMessages continue this operators values operator vs]:
    a [while] loop whose test on the top of the operator stack is
    [continue], started on [operators] and [values], reaches the call
    [applyOperator(operator, vs)], the calls before it having returned. *)
Inductive loopApplies (ErrorMessages : ErrorMessagesT)
  (continue : string -> bool) (this : FormulaEvaluator)
  : list string -> list float -> string -> list float -> Prop :=
| applies_top (top : string) (rest : list string) (values : list float) :
    continue top = true ->
    loopApplies ErrorMessages continue this (top :: rest) values top values
| applies_next (top : string) (rest : list string) (values values' : list float)
    (operator : string) (vs : list float) :
    continue top = true ->
    snd (applyOperator ErrorMessages this top values) = Ok values' ->
    loopApplies ErrorMessages continue this rest values' operator vs ->
    loopApplies ErrorMessages continue this (top :: rest) values operator vs.

(** [applies ... this formula operator vs]: the evaluation of [formula]
    reaches the call [applyOperator(operator, vs)], at one of its three
    places: in the turn of a closing parenthesis, in the turn of an
    operator that is not followed by an operator, or in the final loop
    once the scan and the two checks after it are passed. *)
Inductive applies (ErrorMessages : ErrorMessagesT)
  (isValidCellLabel : string -> bool) (this : FormulaEvaluator)
  (formula : list string) (operator : string) (vs : list float) : Prop :=
| applies_closing (pre post : list string)
    (values : list float) (operators : list string) :
    formula = pre ++ ")" :: post ->
    snd (scan ErrorMessages isValidCellLabel this pre (Some ")") [] [])
    = Continue values operators ->
    isCellReference isValidCellLabel ")" = false ->
    loopApplies ErrorMessages (fun top => negb (top =? "("))
      this operators values operator vs ->
    applies ErrorMessages isValidCellLabel this formula operator vs
| applies_reducing (pre : list string) (token : string) (post : list string)
    (values : list float) (operators : list string) :
    formula = pre ++ token :: post ->
    snd (scan ErrorMessages isValidCellLabel this pre (Some token) [] [])
    = Continue values operators ->
    isCellReference isValidCellLabel token = false ->
    isOperator token = true ->
    nextIs isOperator (peek post) = false ->
    loopApplies ErrorMessages
      (fun top => (getOperatorPrecedence token <=? getOperatorPrecedence top)%nat)
      this operators values operator vs ->
    applies ErrorMessages isValidCellLabel this formula operator vs
| applies_remaining (values : list float) (operators : list string) :
    snd (scan ErrorMessages isValidCellLabel this formula None [] [])
    = Continue values operators ->
    isOperatorAt (lastToken formula) = false ->
    (0 <? List.length operators)%nat
    && (negb (isOperatorAt (peek operators))
        || (List.length values <? 2)%nat) = false ->
    loopApplies ErrorMessages (fun _ => true) this operators values operator vs ->
    applies ErrorMessages isValidCellLabel this formula operator vs.

(* ================================================================== *)
(** ** Arithmetic formulas and their usual reading *)

(** The usual grammar of arithmetic: a sum of terms, a term a product of
    factors, a factor a number token or a sum in parentheses; [+ -] and
    [* /] associate to the left and [* /] bind tighter. *)
Inductive sum : Type :=
| Term (t : term)
| Add (s : sum) (t : term)
| Sub (s : sum) (t : term)
with term : Type :=
| Factor (f : factor)
| Mul (t : term) (f : factor)
| Div (t : term) (f : factor)
with factor : Type :=
| Literal (token : string)
| Parenthesized (s : sum).

Scheme sum_mutual := Induction for sum Sort Prop
  with term_mutual := Induction for term Sort Prop
  with factor_mutual := Induction for factor Sort Prop.

(** The token sequence that writes a formula. *)
Fixpoint tokensOfSum (s : sum) : list string :=
  match s with
  | Term t => tokensOfTerm t
  | Add s t => tokensOfSum s ++ "+" :: tokensOfTerm t
  | Sub s t => tokensOfSum s ++ "-" :: tokensOfTerm t
  end
with tokensOfTerm (t : term) : list string :=
  match t with
  | Factor f => tokensOfFactor f
  | Mul t f => tokensOfTerm t ++ "*" :: tokensOfFactor f
  | Div t f => tokensOfTerm t ++ "/" :: tokensOfFactor f
  end
with tokensOfFactor (f : factor) : list string :=
  match f with
  | Literal token => [token]
  | Parenthesized s => "(" :: tokensOfSum s ++ [")"]
  end.

(** Every literal of the formula is a token that [isNumber] accepts. *)
Fixpoint literalsOfSum (s : sum) : bool :=
  match s with
  | Term t => literalsOfTerm t
  | Add s t | Sub s t => literalsOfSum s && literalsOfTerm t
  end
with literalsOfTerm (t : term) : bool :=
  match t with
  | Factor f => literalsOfFactor f
  | Mul t f | Div t f => literalsOfTerm t && literalsOfFactor f
  end
with literalsOfFactor (f : factor) : bool :=
  match f with
  | Literal token => isNumber token
  | Parenthesized s => literalsOfSum s
  end.

Definition lift2 (f : float -> float -> float) (x y : option float)
  : option float :=
  match x, y with
  | Some a, Some b => Some (f a b)
  | _, _ => None
  end.

(** The value of a formula in Number arithmetic; [None] when a division
    has a divisor equal to 0. *)
Fixpoint valueOfSum (s : sum) : option float :=
  match s with
  | Term t => valueOfTerm t
  | Add s t => lift2 PrimFloat.add (valueOfSum s) (valueOfTerm t)
  | Sub s t => lift2 PrimFloat.sub (valueOfSum s) (valueOfTerm t)
  end
with valueOfTerm (t : term) : option float :=
  match t with
  | Factor f => valueOfFactor f
  | Mul t f => lift2 PrimFloat.mul (valueOfTerm t) (valueOfFactor f)
  | Div t f =>
      match valueOfTerm t, valueOfFactor f with
      | Some a, Some b =>
          if PrimFloat.eqb b zero then None else Some (a / b)%float
      | _, _ => None
      end
  end
with valueOfFactor (f : factor) : option float :=
  match f with
  | Literal token => Some (JS.Number token)
  | Parenthesized s => valueOfSum s
  end.

(** [8 - 3 - 2 / ( 0.5 - 1 )] *)
Definition sampleFormula : sum :=
  Sub (Sub (Term (Factor (Literal "8"))) (Factor (Literal "3")))
      (Div (Factor (Literal "2"))
           (Parenthesized (Sub (Term (Factor (Literal "0.5")))
                               (Factor (Literal "1"))))).

(** The operators that a turn of the scan leaves waiting above the
    operator stack it started from, with the values stacked for them:
    all of precedence [p] or more, and applying them one after the other
    gives the value [v] on top of the values [values0] it started from. *)
Definition pending (ErrorMessages : ErrorMessagesT) (p : nat)
  (values0 : list float) (v : float)
  (values : list float) (waiting : list string) : Prop :=
  Forall (fun o => isOperator o = true
                   /\ (p <= getOperatorPrecedence o)%nat) waiting
  /\ (forall this, applyRemaining ErrorMessages this waiting values
                   = (this, Ok (v :: values0)))
  /\ List.length values = (List.length waiting + S (List.length values0))%nat.

(** The operator stack under a formula lets the formula's own operators
    of precedence [p] wait: its top, if any, has a lower precedence. *)
Definition stopsBelow (p : nat) (operators : list string) : Prop :=
  match operators with
  | [] => True
  | top :: _ => (getOperatorPrecedence top < p)%nat
  end.

(** What the scan of a formula of precedence [p] and value [v] does, from
    any stacks whose operator stack lets operators of precedence [p] wait
    and before any token but an opening parenthesis. *)
Definition scans (ErrorMessages : ErrorMessagesT)
  (isValidCellLabel : string -> bool)
  (p : nat) (tokens : list string) (v : float) : Prop :=
  forall this after values operators,
    nextIs (fun t => t =? "(") after = false ->
    stopsBelow p operators ->
    exists values' waiting,
      scan ErrorMessages isValidCellLabel this tokens after values operators
      = (this, Continue values' (waiting ++ operators))
      /\ pending ErrorMessages p values v values' waiting.

(* ================================================================== *)
(** ** What a call writes to the evaluator *)

(** The assignments a call makes to the fields: none, the error message,
    or the result sentinel and the error message of a division by zero. *)
Inductive update : Type :=
| Keep
| SetError (message : string)
| SetInfinity (message : string).

Definition applyUpdate (u : update) (this : FormulaEvaluator)
  : FormulaEvaluator :=
  match u with
  | Keep => this
  | SetError message => setErrorMessage this message
  | SetInfinity message => setErrorMessage (setResult this infinity) message
  end.

(** The fields after [evaluate]: the memory as it was, the error
    [message], and the result [stored] when the call has written one. *)
Definition evaluated (this : FormulaEvaluator) (message : string)
  (stored : option float) : FormulaEvaluator :=
  {| _sheetMemory := _sheetMemory this;
     _errorMessage := message;
     _result := match stored with
                | Some v => v
                | None => _result this
                end |}.

(** The operator stack of an evaluation of [formula] holds operators and
    opening parentheses only, and a parenthesis only if [formula] has one. *)
Definition stacked (formula : list string) (operators : list string) : Prop :=
  Forall (fun o => isOperator o = true \/ (o = "(" /\ In "(" formula))
    operators.

(** What a formula of value [r] leaves waiting ([None]: a division of the
    formula has a divisor equal to 0): applying the waiting operators
    gives the value on top of [values0], or ends in the division by zero. *)
Definition waits (ErrorMessages : ErrorMessagesT) (p : nat)
  (values0 : list float) (r : option float)
  (values : list float) (waiting : list string) : Prop :=
  Forall (fun o => isOperator o = true
                   /\ (p <= getOperatorPrecedence o)%nat) waiting
  /\ (forall this,
         snd (applyRemaining ErrorMessages this waiting values)
         = match r with
           | Some v => Ok (v :: values0)
           | None => Throw "Division by zero"
           end)
  /\ List.length values = (List.length waiting + S (List.length values0))%nat.

(** The scan of a formula of precedence [p] and value [r]: it ends in the
    division by zero, or goes through and leaves the formula waiting. *)
Definition scansTo (ErrorMessages : ErrorMessagesT)
  (isValidCellLabel : string -> bool)
  (p : nat) (tokens : list string) (r : option float) : Prop :=
  forall this after values operators,
    nextIs (fun t => t =? "(") after = false ->
    stopsBelow p operators ->
    (r = None
     /\ snd (scan ErrorMessages isValidCellLabel this tokens after values operators)
        = Raise "Division by zero")
    \/ exists values' waiting,
         snd (scan ErrorMessages isValidCellLabel this tokens after values operators)
         = Continue values' (waiting ++ operators)
         /\ waits ErrorMessages p values r values' waiting.

(* ================================================================== *)
(** ** Token classification *)

Lemma isOperator_cases (t : string) :
  isOperator t = true -> t = "+" \/ t = "-" \/ t = "*" \/ t = "/".
Proof.
  unfold isOperator. simpl.
  rewrite orb_false_r, !orb_true_iff, !String.eqb_eq. tauto.
Qed.

Lemma isOperator_not_number (t : string) :
  isOperator t = true -> isNumber t = false.
Proof.
  intros H.
  destruct (isOperator_cases t H) as [-> | [-> | [-> | ->]]];
    vm_compute; reflexivity.
Qed.

Lemma isNumber_not_operator (t : string) :
  isNumber t = true -> isOperator t = false.
Proof.
  intros H. destruct (isOperator t) eqn:Hop; [ | reflexivity ].
  rewrite (isOperator_not_number t Hop) in H. discriminate.
Qed.

Lemma isOperator_not_paren (t : string) :
  isOperator t = true -> (t =? "(") = false /\ (t =? ")") = false.
Proof.
  intros H.
  destruct (isOperator_cases t H) as [-> | [-> | [-> | ->]]];
    split; reflexivity.
Qed.

Lemma symbols_sample : symbolsAreNotLabels sampleIsValidCellLabel.
Proof.
  intros t Ht. simpl in Ht.
  repeat (destruct Ht as [<- | Ht]; [ reflexivity | ]).
  contradiction.
Qed.

Lemma operator_not_label (isValidCellLabel : string -> bool) (t : string) :
  symbolsAreNotLabels isValidCellLabel ->
  isOperator t = true -> isValidCellLabel t = false.
Proof.
  intros Hsym H. apply Hsym.
  destruct (isOperator_cases t H) as [-> | [-> | [-> | ->]]];
    simpl; tauto.
Qed.

(* ================================================================== *)
(** ** What a call does to the evaluator's fields *)

Section Effects.

Variable ErrorMessages : ErrorMessagesT.
Variable isValidCellLabel : string -> bool.

Lemma applyOperator_effect this operator values :
  match applyOperator ErrorMessages this operator values with
  | (this', Ok _) => this' = this
  | (this', Throw m) => thrown ErrorMessages this m this'
  end.
Proof.
  unfold applyOperator.
  destruct (pop values) as [operand2 values1].
  destruct (pop values1) as [operand1 values2].
  destruct (operator =? "+"); [ reflexivity | ].
  destruct (operator =? "-"); [ reflexivity | ].
  destruct (operator =? "*"); [ reflexivity | ].
  destruct (operator =? "/"); [ | constructor ].
  destruct (JS.strictEqualsZero operand2); [ constructor | reflexivity ].
Qed.

(** The completion of [applyOperator] does not depend on the fields. *)
Lemma applyOperator_outcome this1 this2 operator values :
  snd (applyOperator ErrorMessages this1 operator values)
  = snd (applyOperator ErrorMessages this2 operator values).
Proof.
  unfold applyOperator.
  destruct (pop values) as [operand2 values1].
  destruct (pop values1) as [operand1 values2].
  destruct (operator =? "+"); [ reflexivity | ].
  destruct (operator =? "-"); [ reflexivity | ].
  destruct (operator =? "*"); [ reflexivity | ].
  destruct (operator =? "/"); [ | reflexivity ].
  destruct (JS.strictEqualsZero operand2); reflexivity.
Qed.

Ltac step_applyOperator this top values :=
  let H := fresh "Heffect" in
  pose proof (applyOperator_effect this top values) as H;
  destruct (applyOperator ErrorMessages this top values) as [? [? | ?]];
  [ subst | exact H ].

Lemma applyUntilOpenParen_effect this operators values :
  match applyUntilOpenParen ErrorMessages this operators values with
  | (this', Ok _) => this' = this
  | (this', Throw m) => thrown ErrorMessages this m this'
  end.
Proof.
  revert values.
  induction operators as [ | top rest IH ]; intros values; simpl.
  - reflexivity.
  - destruct (top =? "("); simpl; [ reflexivity | ].
    step_applyOperator this top values. apply IH.
Qed.

Lemma applyWhilePrecedence_effect this token operators values :
  match applyWhilePrecedence ErrorMessages this token operators values with
  | (this', Ok _) => this' = this
  | (this', Throw m) => thrown ErrorMessages this m this'
  end.
Proof.
  revert values.
  induction operators as [ | top rest IH ]; intros values; simpl.
  - reflexivity.
  - destruct (getOperatorPrecedence token <=? getOperatorPrecedence top)%nat;
      [ | reflexivity ].
    step_applyOperator this top values. apply IH.
Qed.

Lemma applyRemaining_effect this operators values :
  match applyRemaining ErrorMessages this operators values with
  | (this', Ok _) => this' = this
  | (this', Throw m) => thrown ErrorMessages this m this'
  end.
Proof.
  revert values.
  induction operators as [ | top rest IH ]; intros values; simpl.
  - reflexivity.
  - step_applyOperator this top values. apply IH.
Qed.

Ltac same_applyOperator this1 this2 top values :=
  let H := fresh "Hsame" in
  pose proof (applyOperator_outcome this1 this2 top values) as H;
  destruct (applyOperator ErrorMessages this1 top values) as [? [? | ?]];
  destruct (applyOperator ErrorMessages this2 top values) as [? [? | ?]];
  simpl in H; try discriminate H; injection H as ->.

Lemma applyUntilOpenParen_outcome this1 this2 operators values :
  snd (applyUntilOpenParen ErrorMessages this1 operators values)
  = snd (applyUntilOpenParen ErrorMessages this2 operators values).
Proof.
  revert this1 this2 values.
  induction operators as [ | top rest IH ]; intros this1 this2 values; simpl.
  - reflexivity.
  - destruct (top =? "("); simpl; [ reflexivity | ].
    same_applyOperator this1 this2 top values; [ apply IH | reflexivity ].
Qed.

Lemma applyWhilePrecedence_outcome this1 this2 token operators values :
  snd (applyWhilePrecedence ErrorMessages this1 token operators values)
  = snd (applyWhilePrecedence ErrorMessages this2 token operators values).
Proof.
  revert this1 this2 values.
  induction operators as [ | top rest IH ]; intros this1 this2 values; simpl.
  - reflexivity.
  - destruct (getOperatorPrecedence token <=? getOperatorPrecedence top)%nat;
      [ | reflexivity ].
    same_applyOperator this1 this2 top values; [ apply IH | reflexivity ].
Qed.

Lemma applyRemaining_outcome this1 this2 operators values :
  snd (applyRemaining ErrorMessages this1 operators values)
  = snd (applyRemaining ErrorMessages this2 operators values).
Proof.
  revert this1 this2 values.
  induction operators as [ | top rest IH ]; intros this1 this2 values; simpl.
  - reflexivity.
  - same_applyOperator this1 this2 top values; [ apply IH | reflexivity ].
Qed.

Lemma getCellValue_memory this1 this2 token :
  _sheetMemory this1 = _sheetMemory this2 ->
  getCellValue ErrorMessages this1 token = getCellValue ErrorMessages this2 token.
Proof. unfold getCellValue. intros ->. reflexivity. Qed.

Lemma scanToken_effect this token next values operators :
  match scanToken ErrorMessages isValidCellLabel this token next values operators with
  | (this', Continue _ _) => this' = this
  | (this', Return _) => this' = setErrorMessage this (invalidFormula ErrorMessages)
  | (this', Raise m) => thrown ErrorMessages this m this'
  end.
Proof.
  unfold scanToken.
  destruct (isNumber token).
  { destruct (nextIs _ next); reflexivity. }
  destruct (isCellReference isValidCellLabel token).
  { destruct (getCellValue ErrorMessages this token) as [value e].
    destruct (JS.truthyString e) eqn:He; [ | reflexivity ].
    constructor. exact He. }
  destruct (token =? "("); [ reflexivity | ].
  destruct (token =? ")").
  { pose proof (applyUntilOpenParen_effect this operators values) as H.
    destruct (applyUntilOpenParen ErrorMessages this operators values)
      as [this' [[operators' values'] | m]]; exact H. }
  destruct (isOperator token); [ | reflexivity ].
  destruct (nextIs isOperator next); [ reflexivity | ].
  pose proof (applyWhilePrecedence_effect this token operators values) as H.
  destruct (applyWhilePrecedence ErrorMessages this token operators values)
    as [this' [[operators' values'] | m]]; exact H.
Qed.

Lemma scanToken_outcome this1 this2 token next values operators :
  _sheetMemory this1 = _sheetMemory this2 ->
  snd (scanToken ErrorMessages isValidCellLabel this1 token next values operators)
  = snd (scanToken ErrorMessages isValidCellLabel this2 token next values operators).
Proof.
  intros Hmem. unfold scanToken.
  destruct (isNumber token).
  { destruct (nextIs _ next); reflexivity. }
  destruct (isCellReference isValidCellLabel token).
  { rewrite (getCellValue_memory this1 this2 token Hmem).
    destruct (getCellValue ErrorMessages this2 token) as [value e].
    destruct (JS.truthyString e); reflexivity. }
  destruct (token =? "("); [ reflexivity | ].
  destruct (token =? ")").
  { pose proof (applyUntilOpenParen_outcome this1 this2 operators values) as H.
    destruct (applyUntilOpenParen ErrorMessages this1 operators values)
      as [? [[? ?] | ?]];
    destruct (applyUntilOpenParen ErrorMessages this2 operators values)
      as [? [[? ?] | ?]];
    simpl in H; try discriminate H; injection H; intros; subst; reflexivity. }
  destruct (isOperator token); [ | reflexivity ].
  destruct (nextIs isOperator next); [ reflexivity | ].
  pose proof (applyWhilePrecedence_outcome this1 this2 token operators values) as H.
  destruct (applyWhilePrecedence ErrorMessages this1 token operators values)
    as [? [[? ?] | ?]];
  destruct (applyWhilePrecedence ErrorMessages this2 token operators values)
    as [? [[? ?] | ?]];
  simpl in H; try discriminate H; injection H; intros; subst; reflexivity.
Qed.

Lemma scan_effect this tokens after values operators :
  match scan ErrorMessages isValidCellLabel this tokens after values operators with
  | (this', Continue _ _) => this' = this
  | (this', Return _) => this' = setErrorMessage this (invalidFormula ErrorMessages)
  | (this', Raise m) => thrown ErrorMessages this m this'
  end.
Proof.
  revert values operators.
  induction tokens as [ | token rest IH ]; intros values operators; simpl.
  - reflexivity.
  - set (next := match rest with [] => after | t :: _ => Some t end).
    pose proof (scanToken_effect this token next values operators) as H.
    destruct (scanToken ErrorMessages isValidCellLabel this token next values operators)
      as [this' [values' operators' | v | m]]; [ subst; apply IH | exact H | exact H ].
Qed.

Lemma scan_outcome this1 this2 tokens after values operators :
  _sheetMemory this1 = _sheetMemory this2 ->
  snd (scan ErrorMessages isValidCellLabel this1 tokens after values operators)
  = snd (scan ErrorMessages isValidCellLabel this2 tokens after values operators).
Proof.
  intros Hmem. revert values operators.
  induction tokens as [ | token rest IH ]; intros values operators; simpl.
  - reflexivity.
  - set (next := match rest with [] => after | t :: _ => Some t end).
    pose proof (scanToken_outcome this1 this2 token next values operators Hmem) as H.
    pose proof (scanToken_effect this1 token next values operators) as H1.
    pose proof (scanToken_effect this2 token next values operators) as H2.
    destruct (scanToken ErrorMessages isValidCellLabel this1 token next values operators)
      as [this1' [values1 operators1 | v1 | m1]];
    destruct (scanToken ErrorMessages isValidCellLabel this2 token next values operators)
      as [this2' [values2 operators2 | v2 | m2]];
    simpl in H; try discriminate H; try exact H.
    injection H as -> ->. subst. apply IH.
Qed.

(** The loop over [pre ++ rest] is the loop over [pre], whose last token
    looks ahead at the head of [rest], followed by the loop over [rest]. *)
Lemma scan_app this pre rest after values operators :
  scan ErrorMessages isValidCellLabel this (pre ++ rest) after values operators
  = match scan ErrorMessages isValidCellLabel this pre
            (match rest with [] => after | t :: _ => Some t end)
            values operators with
    | (this', Continue values' operators') =>
        scan ErrorMessages isValidCellLabel this' rest after values' operators'
    | stop => stop
    end.
Proof.
  revert this values operators.
  induction pre as [ | token pre' IH ]; intros this values operators.
  - reflexivity.
  - simpl.
    replace (match pre' ++ rest with [] => after | t :: _ => Some t end)
      with (match pre' with
            | [] => match rest with [] => after | t :: _ => Some t end
            | t :: _ => Some t
            end)
      by (destruct pre'; reflexivity).
    destruct (scanToken ErrorMessages isValidCellLabel this token _ values operators)
      as [this' [values' operators' | v | m]]; [ apply IH | reflexivity | reflexivity ].
Qed.

Lemma evaluateExpression_effect this tokens :
  match evaluateExpression ErrorMessages isValidCellLabel this tokens with
  | (this', Ok _) =>
      this' = this \/ this' = setErrorMessage this (invalidFormula ErrorMessages)
  | (this', Throw m) => thrown ErrorMessages this m this'
  end.
Proof.
  unfold evaluateExpression.
  pose proof (scan_effect this tokens None [] []) as H.
  destruct (scan ErrorMessages isValidCellLabel this tokens None [] [])
    as [this' [values operators | v | m]]; [ subst | right; exact H | exact H ].
  destruct (isOperatorAt (lastToken tokens)); [ right; reflexivity | ].
  destruct ((0 <? List.length operators)%nat && _); [ constructor | ].
  pose proof (applyRemaining_effect this operators values) as H.
  destruct (applyRemaining ErrorMessages this operators values)
    as [this' [values' | m]]; [ left; exact H | exact H ].
Qed.

Lemma evaluateExpression_outcome this1 this2 tokens :
  _sheetMemory this1 = _sheetMemory this2 ->
  snd (evaluateExpression ErrorMessages isValidCellLabel this1 tokens)
  = snd (evaluateExpression ErrorMessages isValidCellLabel this2 tokens).
Proof.
  intros Hmem. unfold evaluateExpression.
  pose proof (scan_outcome this1 this2 tokens None [] [] Hmem) as H.
  destruct (scan ErrorMessages isValidCellLabel this1 tokens None [] [])
    as [this1' [values1 operators1 | v1 | m1]];
  destruct (scan ErrorMessages isValidCellLabel this2 tokens None [] [])
    as [this2' [values2 operators2 | v2 | m2]];
  simpl in H; try discriminate H;
    try (injection H; intros; subst; reflexivity).
  injection H as -> ->.
  destruct (isOperatorAt (lastToken tokens)); [ reflexivity | ].
  destruct ((0 <? List.length operators2)%nat && _); [ reflexivity | ].
  pose proof (applyRemaining_outcome this1' this2' operators2 values2) as H.
  destruct (applyRemaining ErrorMessages this1' operators2 values2) as [? [? | ?]];
  destruct (applyRemaining ErrorMessages this2' operators2 values2) as [? [? | ?]];
  simpl in H; try discriminate H; injection H as ->; reflexivity.
Qed.

(** *** The part of [evaluate] before the [try] *)

Lemma checked_memory this formula :
  _sheetMemory (checked ErrorMessages this formula) = _sheetMemory this.
Proof. unfold checked. destruct (isOperatorAt _); reflexivity. Qed.

Lemma checked_result this formula :
  _result (checked ErrorMessages this formula) = _result this.
Proof. unfold checked. destruct (isOperatorAt _); reflexivity. Qed.

Lemma onlyParentheses_iff (formula : list string) :
  (List.length formula =? 2)%nat
  && tokenAtIs formula 0 "(" && tokenAtIs formula 1 ")" = true
  <-> formula = ["("; ")"].
Proof.
  split.
  - destruct formula as [ | a [ | b [ | c rest ] ] ]; simpl;
      try discriminate.
    unfold tokenAtIs; simpl.
    rewrite andb_true_iff, !String.eqb_eq. intros [-> ->]. reflexivity.
  - intros ->. reflexivity.
Qed.

Lemma evaluate_empty this :
  evaluate ErrorMessages isValidCellLabel this []
  = setErrorMessage this (emptyFormula ErrorMessages).
Proof. reflexivity. Qed.

Lemma evaluate_onlyParentheses this :
  evaluate ErrorMessages isValidCellLabel this ["("; ")"]
  = setErrorMessage this (missingParentheses ErrorMessages).
Proof. reflexivity. Qed.

Lemma evaluate_general this formula :
  formula <> [] -> formula <> ["("; ")"] ->
  evaluate ErrorMessages isValidCellLabel this formula
  = match evaluateExpression ErrorMessages isValidCellLabel
            (checked ErrorMessages this formula) formula with
    | (this', Ok result) => setResult this' result
    | (this', Throw _) =>
        if negb (JS.truthyString (_errorMessage this')) then
          setErrorMessage this' (invalidFormula ErrorMessages)
        else this'
    end.
Proof.
  intros Hne Hparen. unfold evaluate.
  destruct (List.length formula =? 0)%nat eqn:Hlen.
  { destruct formula; [ contradiction | discriminate ]. }
  destruct ((List.length formula =? 2)%nat && _ && _) eqn:Hp.
  { apply onlyParentheses_iff in Hp. contradiction. }
  unfold checked.
  replace (isOperatorAt (lastToken formula)
           && negb match lastToken formula with
                   | Some t => t =? ")"
                   | None => false
                   end)
    with (isOperatorAt (lastToken formula)).
  { destruct (isOperatorAt (lastToken formula)); reflexivity. }
  destruct (lastToken formula) as [t | ]; simpl; [ | reflexivity ].
  destruct (isOperator t) eqn:Hop; [ | reflexivity ].
  destruct (isOperator_not_paren t Hop) as [_ ->]. reflexivity.
Qed.

(** A prefix the loop gets through leaves the evaluator as it was,
    whatever its fields hold. *)
Lemma scan_reaches this this0 pre after values0 operators0 values operators :
  snd (scan ErrorMessages isValidCellLabel this pre after values0 operators0)
  = Continue values operators ->
  _sheetMemory this0 = _sheetMemory this ->
  scan ErrorMessages isValidCellLabel this0 pre after values0 operators0
  = (this0, Continue values operators).
Proof.
  intros Hscan Hmem.
  rewrite (scan_outcome this this0) in Hscan by (symmetry; exact Hmem).
  pose proof (scan_effect this0 pre after
                values0 operators0) as Heffect.
  destruct (scan ErrorMessages isValidCellLabel this0 pre after values0 operators0)
    as [this' c]. simpl in Hscan. subst c. subst this'. reflexivity.
Qed.

End Effects.

(* ================================================================== *)
(** ** The label test is consulted on non-numeric tokens only *)

Section Labels.

Variable ErrorMessages : ErrorMessagesT.
Variables isValidCellLabel isValidCellLabel' : string -> bool.

Lemma scanToken_ext this token next values operators :
  (isNumber token = false -> isValidCellLabel token = isValidCellLabel' token) ->
  scanToken ErrorMessages isValidCellLabel this token next values operators
  = scanToken ErrorMessages isValidCellLabel' this token next values operators.
Proof.
  intros H. unfold scanToken, isCellReference.
  destruct (isNumber token); [ reflexivity | ].
  rewrite (H eq_refl). reflexivity.
Qed.

Lemma scan_ext this tokens after values operators :
  (forall t, In t tokens -> isNumber t = false ->
             isValidCellLabel t = isValidCellLabel' t) ->
  scan ErrorMessages isValidCellLabel this tokens after values operators
  = scan ErrorMessages isValidCellLabel' this tokens after values operators.
Proof.
  revert this values operators.
  induction tokens as [ | token rest IH ]; intros this values operators H.
  - reflexivity.
  - simpl. rewrite (scanToken_ext this token _ values operators).
    + destruct (scanToken ErrorMessages isValidCellLabel' this token _ values operators)
        as [this' [values' operators' | v | m]]; try reflexivity.
      apply IH. intros t Ht. apply H. right. exact Ht.
    + apply H. left. reflexivity.
Qed.

Lemma evaluate_ext this formula :
  (forall t, In t formula -> isNumber t = false ->
             isValidCellLabel t = isValidCellLabel' t) ->
  evaluate ErrorMessages isValidCellLabel this formula
  = evaluate ErrorMessages isValidCellLabel' this formula.
Proof.
  intros H. unfold evaluate, evaluateExpression.
  rewrite !(scan_ext _ formula None [] [] H). reflexivity.
Qed.

End Labels.

(** Discharges the side condition of [evaluate_ext] for a concrete formula
    made of number tokens and symbols. *)
Ltac labels_agree Hsym :=
  let t := fresh "t" in
  let Hin := fresh "Hin" in
  let Hnum := fresh "Hnum" in
  intros t Hin Hnum; simpl in Hin;
  repeat (destruct Hin as [<- | Hin];
          [ first [ apply Hsym; simpl; tauto
                  | vm_compute in Hnum; discriminate Hnum ] | ]);
  contradiction.

(* ================================================================== *)
(** ** One turn of the loop, branch by branch *)

Section Turns.

Variable ErrorMessages : ErrorMessagesT.
Variable isValidCellLabel : string -> bool.

Lemma scanToken_number this token next values operators :
  isNumber token = true ->
  nextIs (fun t => t =? "(") next = false ->
  scanToken ErrorMessages isValidCellLabel this token next values operators
  = (this, Continue (JS.Number token :: values) operators).
Proof.
  intros Hnum Hnext. unfold scanToken. rewrite Hnum, Hnext. reflexivity.
Qed.

Lemma scanToken_number_paren this token values operators :
  isNumber token = true ->
  scanToken ErrorMessages isValidCellLabel this token (Some "(") values operators
  = (setErrorMessage this (invalidFormula ErrorMessages),
     Return (JS.Number token)).
Proof.
  intros Hnum. unfold scanToken. rewrite Hnum. reflexivity.
Qed.

Lemma scanToken_operator_unlabelled this token next values operators :
  isCellReference isValidCellLabel token = false ->
  isOperator token = true ->
  scanToken ErrorMessages isValidCellLabel this token next values operators
  = if nextIs isOperator next then
      (setErrorMessage this (invalidFormula ErrorMessages),
       Return (JS.orZero (peek values)))
    else
      match applyWhilePrecedence ErrorMessages this token operators values with
      | (this', Ok (operators', values')) =>
          (this', Continue values' (push token operators'))
      | (this', Throw message) => (this', Raise message)
      end.
Proof.
  intros Hlabel Hop. unfold scanToken.
  rewrite (isOperator_not_number token Hop), Hlabel.
  destruct (isOperator_not_paren token Hop) as [-> ->].
  rewrite Hop. reflexivity.
Qed.

Lemma scanToken_operator this token next values operators :
  symbolsAreNotLabels isValidCellLabel ->
  isOperator token = true ->
  scanToken ErrorMessages isValidCellLabel this token next values operators
  = if nextIs isOperator next then
      (setErrorMessage this (invalidFormula ErrorMessages),
       Return (JS.orZero (peek values)))
    else
      match applyWhilePrecedence ErrorMessages this token operators values with
      | (this', Ok (operators', values')) =>
          (this', Continue values' (push token operators'))
      | (this', Throw message) => (this', Raise message)
      end.
Proof.
  intros Hsym Hop. apply scanToken_operator_unlabelled; [ | exact Hop ].
  exact (operator_not_label isValidCellLabel token Hsym Hop).
Qed.

Lemma scanToken_closeParen_unlabelled this next values operators :
  isCellReference isValidCellLabel ")" = false ->
  scanToken ErrorMessages isValidCellLabel this ")" next values operators
  = match applyUntilOpenParen ErrorMessages this operators values with
    | (this', Ok (operators', values')) =>
        (this', Continue values' (snd (pop operators')))
    | (this', Throw message) => (this', Raise message)
    end.
Proof.
  intros Hlabel. unfold scanToken.
  replace (isNumber ")") with false by (vm_compute; reflexivity).
  rewrite Hlabel. reflexivity.
Qed.

Lemma scanToken_closeParen this next values operators :
  symbolsAreNotLabels isValidCellLabel ->
  scanToken ErrorMessages isValidCellLabel this ")" next values operators
  = match applyUntilOpenParen ErrorMessages this operators values with
    | (this', Ok (operators', values')) =>
        (this', Continue values' (snd (pop operators')))
    | (this', Throw message) => (this', Raise message)
    end.
Proof.
  intros Hsym. apply scanToken_closeParen_unlabelled.
  apply Hsym. simpl. tauto.
Qed.

Lemma scanToken_skipped this token next values operators :
  isNumber token = false ->
  isValidCellLabel token = false ->
  ~ In token ["("; ")"; "+"; "-"; "*"; "/"] ->
  scanToken ErrorMessages isValidCellLabel this token next values operators
  = (this, Continue values operators).
Proof.
  intros Hnum Hlabel Hsymbol. unfold scanToken, isCellReference.
  rewrite Hnum, Hlabel.
  destruct (token =? "(") eqn:Hopen.
  { apply String.eqb_eq in Hopen. subst. exfalso. apply Hsymbol. simpl. tauto. }
  destruct (token =? ")") eqn:Hclose.
  { apply String.eqb_eq in Hclose. subst. exfalso. apply Hsymbol. simpl. tauto. }
  destruct (isOperator token) eqn:Hop; [ | reflexivity ].
  exfalso. apply Hsymbol.
  destruct (isOperator_cases token Hop) as [-> | [-> | [-> | ->]]];
    simpl; tauto.
Qed.

Lemma scanToken_cell_error this token next values operators :
  isNumber token = false ->
  isValidCellLabel token = true ->
  JS.truthyString (getError (getCellByLabel (_sheetMemory this) token)) = true ->
  getError (getCellByLabel (_sheetMemory this) token) <> emptyFormula ErrorMessages ->
  scanToken ErrorMessages isValidCellLabel this token next values operators
  = (setErrorMessage this (getError (getCellByLabel (_sheetMemory this) token)),
     Raise "Invalid cell reference").
Proof.
  intros Hnum Hlabel Hstored Hempty.
  unfold scanToken, isCellReference, getCellValue.
  rewrite Hnum, Hlabel, Hstored.
  apply String.eqb_neq in Hempty. rewrite Hempty. simpl.
  rewrite Hstored. reflexivity.
Qed.

End Turns.

(* ================================================================== *)
(** ** Well-formed formulas *)

Section Arithmetic.

Variable ErrorMessages : ErrorMessagesT.
Variable isValidCellLabel : string -> bool.

Lemma lastToken_app (l : list string) (x : string) (l' : list string) :
  lastToken (l ++ x :: l') = lastToken (x :: l').
Proof.
  induction l as [ | a l IH ]; [ reflexivity | ].
  change ((a :: l) ++ x :: l') with (a :: (l ++ x :: l')).
  destruct (l ++ x :: l') as [ | b rest ] eqn:Heq.
  - destruct l; discriminate Heq.
  - rewrite <- IH. reflexivity.
Qed.

Lemma lastToken_cons (x y : string) (l : list string) :
  lastToken (x :: y :: l) = lastToken (y :: l).
Proof. reflexivity. Qed.

(** A formula starts with a number or an opening parenthesis, and ends
    with a number or a closing parenthesis. *)
Lemma tokensOfFactor_head f :
  literalsOfFactor f = true ->
  exists first rest, tokensOfFactor f = first :: rest /\ isOperator first = false.
Proof.
  destruct f as [ token | s ]; simpl; intros H.
  - exists token, []. split; [ reflexivity | apply isNumber_not_operator; exact H ].
  - exists "(", (tokensOfSum s ++ [")"]). split; reflexivity.
Qed.

Lemma tokensOfTerm_head t :
  literalsOfTerm t = true ->
  exists first rest, tokensOfTerm t = first :: rest /\ isOperator first = false.
Proof.
  induction t as [ f | t IH f | t IH f ]; simpl; intros H.
  - apply tokensOfFactor_head. exact H.
  - apply andb_true_iff in H. destruct (IH (proj1 H)) as (first & rest & -> & Hop).
    exists first, (rest ++ "*" :: tokensOfFactor f). split; [ reflexivity | exact Hop ].
  - apply andb_true_iff in H. destruct (IH (proj1 H)) as (first & rest & -> & Hop).
    exists first, (rest ++ "/" :: tokensOfFactor f). split; [ reflexivity | exact Hop ].
Qed.

Lemma tokensOfSum_head s :
  literalsOfSum s = true ->
  exists first rest, tokensOfSum s = first :: rest /\ isOperator first = false.
Proof.
  induction s as [ t | s IH t | s IH t ]; simpl; intros H.
  - apply tokensOfTerm_head. exact H.
  - apply andb_true_iff in H. destruct (IH (proj1 H)) as (first & rest & -> & Hop).
    exists first, (rest ++ "+" :: tokensOfTerm t). split; [ reflexivity | exact Hop ].
  - apply andb_true_iff in H. destruct (IH (proj1 H)) as (first & rest & -> & Hop).
    exists first, (rest ++ "-" :: tokensOfTerm t). split; [ reflexivity | exact Hop ].
Qed.

Lemma tokensOfFactor_last f :
  literalsOfFactor f = true ->
  isOperatorAt (lastToken (tokensOfFactor f)) = false.
Proof.
  destruct f as [ token | s ]; simpl tokensOfFactor; intros H.
  - apply isNumber_not_operator. exact H.
  - change ("(" :: tokensOfSum s ++ [")"]) with (["("] ++ tokensOfSum s ++ [")"]).
    rewrite app_assoc, lastToken_app. reflexivity.
Qed.

Lemma tokensOfTerm_last t :
  literalsOfTerm t = true ->
  isOperatorAt (lastToken (tokensOfTerm t)) = false.
Proof.
  destruct t as [ f | t f | t f ]; simpl; intros H.
  - apply tokensOfFactor_last. exact H.
  - apply andb_true_iff in H. destruct H as [_ H].
    destruct (tokensOfFactor_head f H) as (first & rest & Heq & _).
    rewrite lastToken_app, Heq, lastToken_cons, <- Heq.
    apply tokensOfFactor_last. exact H.
  - apply andb_true_iff in H. destruct H as [_ H].
    destruct (tokensOfFactor_head f H) as (first & rest & Heq & _).
    rewrite lastToken_app, Heq, lastToken_cons, <- Heq.
    apply tokensOfFactor_last. exact H.
Qed.

Lemma tokensOfSum_last s :
  literalsOfSum s = true ->
  isOperatorAt (lastToken (tokensOfSum s)) = false.
Proof.
  destruct s as [ t | s t | s t ]; simpl; intros H.
  - apply tokensOfTerm_last. exact H.
  - apply andb_true_iff in H. destruct H as [_ H].
    destruct (tokensOfTerm_head t H) as (first & rest & Heq & _).
    rewrite lastToken_app, Heq, lastToken_cons, <- Heq.
    apply tokensOfTerm_last. exact H.
  - apply andb_true_iff in H. destruct H as [_ H].
    destruct (tokensOfTerm_head t H) as (first & rest & Heq & _).
    rewrite lastToken_app, Heq, lastToken_cons, <- Heq.
    apply tokensOfTerm_last. exact H.
Qed.

(** *** The waiting operators are the ones the reduction loops apply *)

Lemma applyRemaining_app this waiting1 waiting2 values :
  applyRemaining ErrorMessages this (waiting1 ++ waiting2) values
  = match applyRemaining ErrorMessages this waiting1 values with
    | (this', Ok values') => applyRemaining ErrorMessages this' waiting2 values'
    | (this', Throw message) => (this', Throw message)
    end.
Proof.
  revert this values.
  induction waiting1 as [ | o waiting1 IH ]; intros this values; simpl.
  - reflexivity.
  - destruct (applyOperator ErrorMessages this o values) as [this' [values' | m]];
      [ apply IH | reflexivity ].
Qed.

Lemma applyWhilePrecedence_waiting this token waiting operators values r :
  Forall (fun o => isOperator o = true
                   /\ (getOperatorPrecedence token <= getOperatorPrecedence o)%nat)
    waiting ->
  stopsBelow (getOperatorPrecedence token) operators ->
  applyRemaining ErrorMessages this waiting values = (this, Ok r) ->
  applyWhilePrecedence ErrorMessages this token (waiting ++ operators) values
  = (this, Ok (operators, r)).
Proof.
  intros Hall Hstop. revert values.
  induction Hall as [ | o waiting [_ Ho] Hall IH ]; intros values Hremaining.
  - simpl in *. injection Hremaining as ->.
    destruct operators as [ | top rest ]; [ reflexivity | ].
    simpl in *. apply Nat.leb_gt in Hstop. rewrite Hstop. reflexivity.
  - simpl in *. apply Nat.leb_le in Ho. rewrite Ho.
    pose proof (applyOperator_effect ErrorMessages this o values) as Heffect.
    destruct (applyOperator ErrorMessages this o values) as [this' [values' | m]].
    + subst this'. apply IH. exact Hremaining.
    + discriminate Hremaining.
Qed.

Lemma applyUntilOpenParen_waiting this (p : nat) waiting operators values r :
  Forall (fun o => isOperator o = true
                   /\ (p <= getOperatorPrecedence o)%nat) waiting ->
  applyRemaining ErrorMessages this waiting values = (this, Ok r) ->
  applyUntilOpenParen ErrorMessages this (waiting ++ "(" :: operators) values
  = (this, Ok ("(" :: operators, r)).
Proof.
  intros Hall. revert values.
  induction Hall as [ | o waiting [Ho _] Hall IH ]; intros values Hremaining.
  - simpl in *. injection Hremaining as ->. reflexivity.
  - cbn [app applyUntilOpenParen applyRemaining] in *.
    destruct (isOperator_not_paren o Ho) as [-> _]. cbn [negb].
    pose proof (applyOperator_effect ErrorMessages this o values) as Heffect.
    destruct (applyOperator ErrorMessages this o values) as [this' [values' | m]].
    + subst this'. apply IH. exact Hremaining.
    + discriminate Hremaining.
Qed.

Lemma scanToken_openParen this next values operators :
  symbolsAreNotLabels isValidCellLabel ->
  scanToken ErrorMessages isValidCellLabel this "(" next values operators
  = (this, Continue values ("(" :: operators)).
Proof.
  intros Hsym. unfold scanToken, isCellReference.
  replace (isNumber "(") with false by (vm_compute; reflexivity).
  rewrite (Hsym "(") by (simpl; tauto). reflexivity.
Qed.

(** [left op right]: when [op] arrives the operators waiting for [left]
    are applied, [op] is pushed, and [right] is scanned above it. *)
Lemma scans_binary (p : nat) (left right : list string) (op : string)
  (x y r : float) :
  symbolsAreNotLabels isValidCellLabel ->
  isOperator op = true ->
  getOperatorPrecedence op = p ->
  scans ErrorMessages isValidCellLabel p left x ->
  scans ErrorMessages isValidCellLabel (S p) right y ->
  (exists first rest, right = first :: rest /\ isOperator first = false) ->
  (forall this values,
      applyOperator ErrorMessages this op (y :: x :: values)
      = (this, Ok (r :: values))) ->
  scans ErrorMessages isValidCellLabel p (left ++ op :: right) r.
Proof.
  intros Hsym Hop Hprec Hleft Hright (first & rest & Hhead & Hfirst) Happly.
  intros this after values operators Hafter Hstop.
  destruct (Hleft this (Some op) values operators) as
    (values1 & waiting1 & Hscan1 & Hall1 & Hreduce1 & Hlength1).
  { cbn [nextIs]. apply (isOperator_not_paren op Hop). }
  { exact Hstop. }
  destruct (Hright this after (x :: values) (op :: operators) Hafter) as
    (values2 & waiting2 & Hscan2 & Hall2 & Hreduce2 & Hlength2).
  { cbn [stopsBelow]. rewrite Hprec. apply Nat.lt_succ_diag_r. }
  assert (Hnext : nextIs isOperator
                    (match right with [] => after | t :: _ => Some t end)
                  = false).
  { rewrite Hhead. exact Hfirst. }
  exists values2, (waiting2 ++ [op]).
  split.
  - rewrite scan_app, Hscan1. cbn [scan].
    rewrite (scanToken_operator _ _ this op _ _ _ Hsym Hop), Hnext.
    rewrite (applyWhilePrecedence_waiting this op waiting1 operators values1
               (x :: values)).
    + unfold push. rewrite Hscan2, <- app_assoc. reflexivity.
    + rewrite Hprec. exact Hall1.
    + rewrite Hprec. exact Hstop.
    + apply Hreduce1.
  - split; [ | split ].
    + apply Forall_app. split.
      * eapply Forall_impl; [ | exact Hall2 ].
        intros o [Ho Hle]. split; [ exact Ho | ].
        apply Nat.le_trans with (S p); [ apply Nat.le_succ_diag_r | exact Hle ].
      * constructor; [ | constructor ]. split; [ exact Hop | ].
        rewrite Hprec. apply Nat.le_refl.
    + intros this0. rewrite applyRemaining_app, Hreduce2.
      cbn [applyRemaining]. rewrite Happly. reflexivity.
    + rewrite Hlength2, length_app. simpl. lia.
Qed.

Lemma scans_weaken (p q : nat) (tokens : list string) (v : float) :
  (p <= q)%nat ->
  scans ErrorMessages isValidCellLabel q tokens v ->
  scans ErrorMessages isValidCellLabel p tokens v.
Proof.
  intros Hle Hscans this after values operators Hafter Hstop.
  destruct (Hscans this after values operators Hafter) as
    (values' & waiting & Hscan & Hall & Hreduce & Hlength).
  { destruct operators as [ | top rest ]; simpl in *; [ exact I | lia ]. }
  exists values', waiting. split; [ exact Hscan | ].
  split; [ | split; assumption ].
  eapply Forall_impl; [ | exact Hall ].
  intros o [Ho Hq]. split; [ exact Ho | lia ].
Qed.

Lemma lift2_Some f a b v :
  lift2 f a b = Some v -> exists x y, a = Some x /\ b = Some y /\ v = f x y.
Proof.
  destruct a as [x | ], b as [y | ]; simpl; try discriminate.
  intros [= <-]. exists x, y. repeat split.
Qed.

(** The scan of a formula leaves its value on the value stack, with the
    operators of its last additions or multiplications still waiting. *)
Lemma scans_formula :
  symbolsAreNotLabels isValidCellLabel ->
  forall s, literalsOfSum s = true ->
            forall v, valueOfSum s = Some v ->
                      scans ErrorMessages isValidCellLabel 1 (tokensOfSum s) v.
Proof.
  intros Hsym.
  apply (sum_mutual
    (fun s => literalsOfSum s = true ->
              forall v, valueOfSum s = Some v ->
                scans ErrorMessages isValidCellLabel 1 (tokensOfSum s) v)
    (fun t => literalsOfTerm t = true ->
              forall v, valueOfTerm t = Some v ->
                scans ErrorMessages isValidCellLabel 2 (tokensOfTerm t) v)
    (fun f => literalsOfFactor f = true ->
              forall v, valueOfFactor f = Some v ->
                scans ErrorMessages isValidCellLabel 3 (tokensOfFactor f) v)).
  - (* Term *)
    intros t IHt Hlit v Hv. apply scans_weaken with 2; [ lia | ].
    apply IHt; assumption.
  - (* Add *)
    intros s IHs t IHt Hlit v Hv. simpl in *.
    apply andb_true_iff in Hlit. destruct Hlit as [Hs Ht].
    apply lift2_Some in Hv. destruct Hv as (x & y & Hx & Hy & ->).
    apply scans_binary with x y; auto.
    + apply tokensOfTerm_head. exact Ht.
  - (* Sub *)
    intros s IHs t IHt Hlit v Hv. simpl in *.
    apply andb_true_iff in Hlit. destruct Hlit as [Hs Ht].
    apply lift2_Some in Hv. destruct Hv as (x & y & Hx & Hy & ->).
    apply scans_binary with x y; auto.
    + apply tokensOfTerm_head. exact Ht.
  - (* Factor *)
    intros f IHf Hlit v Hv. apply scans_weaken with 3; [ lia | ].
    apply IHf; assumption.
  - (* Mul *)
    intros t IHt f IHf Hlit v Hv. simpl in *.
    apply andb_true_iff in Hlit. destruct Hlit as [Ht Hf].
    apply lift2_Some in Hv. destruct Hv as (x & y & Hx & Hy & ->).
    apply scans_binary with x y; auto.
    + apply tokensOfFactor_head. exact Hf.
  - (* Div *)
    intros t IHt f IHf Hlit v Hv. simpl in *.
    apply andb_true_iff in Hlit. destruct Hlit as [Ht Hf].
    destruct (valueOfTerm t) as [x | ]; [ | discriminate Hv ].
    destruct (valueOfFactor f) as [y | ]; [ | discriminate Hv ].
    destruct (PrimFloat.eqb y zero) eqn:Hzero; [ discriminate Hv | ].
    injection Hv as <-.
    apply scans_binary with x y; auto.
    + apply tokensOfFactor_head. exact Hf.
    + intros this values. unfold applyOperator. cbn [pop String.eqb Ascii.eqb Bool.eqb].
      cbn [JS.strictEqualsZero]. rewrite Hzero. reflexivity.
  - (* Literal *)
    intros token Hlit v Hv. simpl in *. injection Hv as <-.
    intros this after values operators Hafter _.
    exists (JS.Number token :: values), []. split.
    + cbn [scan]. rewrite scanToken_number by assumption. reflexivity.
    + split; [ constructor | ]. split; [ reflexivity | simpl; lia ].
  - (* Parenthesized *)
    intros s IHs Hlit v Hv. simpl in *.
    intros this after values operators _ _.
    destruct (IHs Hlit v Hv this (Some ")") values ("(" :: operators)) as
      (values1 & waiting1 & Hscan1 & Hall1 & Hreduce1 & Hlength1).
    { reflexivity. }
    { change (0 < 1)%nat. lia. }
    exists (v :: values), []. split.
    + cbn [scan].
      rewrite (scanToken_openParen this _ values operators Hsym).
      rewrite scan_app, Hscan1. cbn [scan].
      rewrite (scanToken_closeParen _ _ this after _ _ Hsym).
      rewrite (applyUntilOpenParen_waiting this 1 waiting1 operators values1
                 (v :: values) Hall1 (Hreduce1 this)).
      reflexivity.
    + split; [ constructor | ]. split; [ reflexivity | simpl; lia ].
Qed.

(** [evaluate] on the tokens of a formula whose value is defined. *)
Lemma evaluate_formula this (s : sum) (v : float) :
  symbolsAreNotLabels isValidCellLabel ->
  literalsOfSum s = true ->
  valueOfSum s = Some v ->
  evaluate ErrorMessages isValidCellLabel this (tokensOfSum s)
  = setResult (setErrorMessage this "") (JS.orZero (Some v)).
Proof.
  intros Hsym Hlit Hv.
  set (formula := tokensOfSum s).
  destruct (scans_formula Hsym s Hlit v Hv
              (checked ErrorMessages this formula) None [] [] eq_refl I)
    as (values & waiting & Hscan & Hall & Hreduce & Hlength).
  fold formula in Hscan. rewrite app_nil_r in Hscan.
  assert (Hne : formula <> []).
  { destruct (tokensOfSum_head s Hlit) as (first & rest & Heq & _).
    unfold formula. rewrite Heq. discriminate. }
  assert (Hparen : formula <> ["("; ")"]).
  { intros Heq. rewrite Heq in Hscan. cbn [scan] in Hscan.
    rewrite (scanToken_openParen _ _ _ _ Hsym) in Hscan.
    rewrite (scanToken_closeParen _ _ _ _ _ _ Hsym) in Hscan.
    cbn in Hscan. injection Hscan as <- <-. simpl in Hlength. lia. }
  rewrite (evaluate_general _ _ this formula Hne Hparen).
  unfold evaluateExpression. rewrite Hscan.
  assert (Hlast : isOperatorAt (lastToken formula) = false)
    by (apply tokensOfSum_last; exact Hlit).
  rewrite Hlast.
  assert (Hcomplete :
            (0 <? List.length waiting)%nat
            && (negb (isOperatorAt (peek waiting))
                || (List.length values <? 2)%nat) = false).
  { destruct waiting as [ | o waiting' ]; [ reflexivity | ].
    inversion Hall as [ | ? ? [Ho _] ? ]; subst.
    cbn [peek isOperatorAt]. rewrite Ho.
    assert (Hsize : (List.length values <? 2)%nat = false)
      by (apply Nat.ltb_ge; simpl in Hlength; lia).
    rewrite Hsize. reflexivity. }
  rewrite Hcomplete, Hreduce. unfold checked. rewrite Hlast. reflexivity.
Qed.

(** C1.  On well-formed arithmetic, [evaluate] computes the result of the
    usual precedence rules and leaves the error empty.  For every formula
    of the grammar of sums, products and parentheses over number tokens
    whose value is defined (no division has a divisor equal to 0), the
    error is empty and the result is that value, 0 standing for a value
    that is 0 or NaN as the final [values.pop() || 0] has it.  In
    particular [2 * 3 + 4] gives 10 (the product is formed before the sum)
    and [( 2 + 3 ) * 4] gives 20 (the parentheses are reduced first).  The
    symbols are assumed not to be cell labels. *)
Theorem evaluate_precedence (this : FormulaEvaluator) :
  symbolsAreNotLabels isValidCellLabel ->
  (forall (s : sum) (v : float),
      literalsOfSum s = true ->
      valueOfSum s = Some v ->
      result (evaluate ErrorMessages isValidCellLabel this (tokensOfSum s))
      = JS.orZero (Some v)
      /\ error (evaluate ErrorMessages isValidCellLabel this (tokensOfSum s))
         = "")
  /\ result (evaluate ErrorMessages isValidCellLabel this
               ["2"; "*"; "3"; "+"; "4"]) = 10%float
  /\ error (evaluate ErrorMessages isValidCellLabel this
              ["2"; "*"; "3"; "+"; "4"]) = ""
  /\ result (evaluate ErrorMessages isValidCellLabel this
               ["("; "2"; "+"; "3"; ")"; "*"; "4"]) = 20%float
  /\ error (evaluate ErrorMessages isValidCellLabel this
              ["("; "2"; "+"; "3"; ")"; "*"; "4"]) = "".
Proof.
  intros Hsym. split.
  - intros s v Hlit Hv.
    rewrite (evaluate_formula this s v Hsym Hlit Hv). split; reflexivity.
  - rewrite !(evaluate_ext ErrorMessages isValidCellLabel (fun _ => false));
      try labels_agree Hsym.
    vm_compute. repeat split.
Qed.

End Arithmetic.

Lemma evaluate_precedence_sample :
  symbolsAreNotLabels sampleIsValidCellLabel
  /\ (tokensOfSum sampleFormula
      = ["8"; "-"; "3"; "-"; "2"; "/"; "("; "0.5"; "-"; "1"; ")"]
      /\ literalsOfSum sampleFormula = true
      /\ valueOfSum sampleFormula = Some 9%float
      /\ result (evaluate sampleMessages sampleIsValidCellLabel sampleEvaluator
                   (tokensOfSum sampleFormula)) = 9%float
      /\ error (evaluate sampleMessages sampleIsValidCellLabel sampleEvaluator
                  (tokensOfSum sampleFormula)) = "")
  /\ result (evaluate sampleMessages sampleIsValidCellLabel sampleEvaluator
               ["2"; "*"; "3"; "+"; "4"]) = 10%float
  /\ error (evaluate sampleMessages sampleIsValidCellLabel sampleEvaluator
              ["2"; "*"; "3"; "+"; "4"]) = ""
  /\ result (evaluate sampleMessages sampleIsValidCellLabel sampleEvaluator
               ["("; "2"; "+"; "3"; ")"; "*"; "4"]) = 20%float
  /\ error (evaluate sampleMessages sampleIsValidCellLabel sampleEvaluator
              ["("; "2"; "+"; "3"; ")"; "*"; "4"]) = "".
Proof.
  split; [ exact symbols_sample | ].
  destruct (evaluate_precedence sampleMessages sampleIsValidCellLabel
              sampleEvaluator symbols_sample) as [Hgeneral Hexamples].
  split; [ | exact Hexamples ].
  split; [ reflexivity | ].
  split; [ vm_compute; reflexivity | ].
  split; [ vm_compute; reflexivity | ].
  exact (Hgeneral sampleFormula 9%float
           ltac:(vm_compute; reflexivity) ltac:(vm_compute; reflexivity)).
Defined.

(* ================================================================== *)
(** ** Associativity *)

Section Associativity.

Variable ErrorMessages : ErrorMessagesT.
Variable isValidCellLabel : string -> bool.

(** The scan of [a - b - c] for number tokens: when the second [-] arrives,
    the pending [-] has the same precedence and is applied first. *)
Lemma scan_subtractions this (a b c : string) :
  symbolsAreNotLabels isValidCellLabel ->
  isNumber a = true -> isNumber b = true -> isNumber c = true ->
  scan ErrorMessages isValidCellLabel this [a; "-"; b; "-"; c] None [] []
  = (this, Continue [JS.Number c; (JS.Number a - JS.Number b)%float] ["-"]).
Proof.
  intros Hsym Ha Hb Hc. cbn [scan].
  rewrite (scanToken_number _ _ this a) by (assumption || reflexivity).
  rewrite (scanToken_operator _ _ this "-") by (assumption || reflexivity).
  cbn [nextIs]. rewrite (isNumber_not_operator b Hb).
  cbn [applyWhilePrecedence push].
  rewrite (scanToken_number _ _ this b) by (assumption || reflexivity).
  rewrite (scanToken_operator _ _ this "-") by (assumption || reflexivity).
  cbn [nextIs]. rewrite (isNumber_not_operator c Hc).
  generalize (JS.Number a) (JS.Number b). intros x y.
  cbn -[PrimFloat.sub].
  rewrite (scanToken_number _ _ this c) by (assumption || reflexivity).
  reflexivity.
Qed.

(** C7.  Operators of equal precedence associate to the left.  A pending
    operator whose precedence is greater than or equal to the incoming
    operator's is applied before the incoming one is pushed; so
    [8 - 3 - 2] gives 3 (and not 7) with an empty error, and for any three
    number tokens [a - b - c] is evaluated as [(a - b) - c]. *)
Theorem evaluate_left_associative (this : FormulaEvaluator) :
  symbolsAreNotLabels isValidCellLabel ->
  (result (evaluate ErrorMessages isValidCellLabel this
             ["8"; "-"; "3"; "-"; "2"]) = 3%float
   /\ result (evaluate ErrorMessages isValidCellLabel this
                ["8"; "-"; "3"; "-"; "2"]) <> 7%float
   /\ error (evaluate ErrorMessages isValidCellLabel this
               ["8"; "-"; "3"; "-"; "2"]) = "")
  /\ (forall a b c : string,
        isNumber a = true -> isNumber b = true -> isNumber c = true ->
        result (evaluate ErrorMessages isValidCellLabel this
                  [a; "-"; b; "-"; c])
        = JS.orZero (Some (JS.Number a - JS.Number b - JS.Number c)%float)
        /\ error (evaluate ErrorMessages isValidCellLabel this
                    [a; "-"; b; "-"; c]) = "")
  /\ (forall token top rest values,
        (getOperatorPrecedence top >= getOperatorPrecedence token)%nat ->
        applyWhilePrecedence ErrorMessages this token (top :: rest) values
        = match applyOperator ErrorMessages this top values with
          | (this', Ok values') =>
              applyWhilePrecedence ErrorMessages this' token rest values'
          | (this', Throw message) => (this', Throw message)
          end).
Proof.
  intros Hsym. split; [ | split ].
  - rewrite !(evaluate_ext ErrorMessages isValidCellLabel (fun _ => false));
      try labels_agree Hsym.
    vm_compute. repeat split. discriminate.
  - intros a b c Ha Hb Hc.
    rewrite evaluate_general by discriminate.
    unfold evaluateExpression.
    rewrite (scan_subtractions _ a b c Hsym Ha Hb Hc).
    assert (Hlast : isOperatorAt (lastToken [a; "-"; b; "-"; c]) = false).
    { simpl. apply isNumber_not_operator. exact Hc. }
    unfold checked. rewrite Hlast.
    generalize (JS.Number a) (JS.Number b) (JS.Number c). intros x y z.
    cbn -[PrimFloat.sub JS.orZero]. split; reflexivity.
  - intros token top rest values Hprec. cbn [applyWhilePrecedence].
    apply Nat.leb_le in Hprec. rewrite Hprec. reflexivity.
Qed.

End Associativity.

Lemma evaluate_left_associative_sample :
  symbolsAreNotLabels sampleIsValidCellLabel
  /\ result (evaluate sampleMessages sampleIsValidCellLabel sampleEvaluator
               ["8"; "-"; "3"; "-"; "2"]) = 3%float.
Proof.
  split; [ exact symbols_sample | ].
  exact (proj1 (proj1 (evaluate_left_associative sampleMessages
                         sampleIsValidCellLabel sampleEvaluator
                         symbols_sample))).
Defined.

(* ================================================================== *)
(** ** Tolerated input *)

Lemma not_symbol (t : string) :
  ~ In t ["("; ")"; "+"; "-"; "*"; "/"] ->
  isOperator t = false /\ (t =? "(") = false /\ (t =? ")") = false.
Proof.
  intros H. repeat split.
  - destruct (isOperator t) eqn:Hop; [ | reflexivity ].
    exfalso. apply H.
    destruct (isOperator_cases t Hop) as [-> | [-> | [-> | ->]]];
      simpl; tauto.
  - apply String.eqb_neq. intros ->. apply H. simpl. tauto.
  - apply String.eqb_neq. intros ->. apply H. simpl. tauto.
Qed.

Section Tolerated.

Variable ErrorMessages : ErrorMessagesT.
Variable isValidCellLabel : string -> bool.

(** C8.  A [")"] that finds the operator stack empty raises nothing and
    does not abort: the turn leaves both stacks and the evaluator's fields
    as they were and the loop goes on.  In particular [3 )] evaluates to 3
    with an empty error. *)
Theorem closeParen_on_empty_stack (this : FormulaEvaluator) :
  symbolsAreNotLabels isValidCellLabel ->
  (forall next values,
      scanToken ErrorMessages isValidCellLabel this ")" next values []
      = (this, Continue values []))
  /\ result (evaluate ErrorMessages isValidCellLabel this ["3"; ")"]) = 3%float
  /\ error (evaluate ErrorMessages isValidCellLabel this ["3"; ")"]) = "".
Proof.
  intros Hsym. split.
  - intros next values.
    rewrite (scanToken_closeParen _ _ this next values [] Hsym). reflexivity.
  - rewrite !(evaluate_ext ErrorMessages isValidCellLabel (fun _ => false));
      try labels_agree Hsym.
    vm_compute. split; reflexivity.
Qed.

(** C10.  A token that is not a number, not a cell label and not one of
    the six symbols is skipped by the loop: its turn sets no error and
    pushes nothing.  A formula made of one such token evaluates to 0 with
    an empty error, and [3 t 4] for such a token [t] evaluates to 4 with an
    empty error. *)
Theorem unclassified_token_skipped (this : FormulaEvaluator) (t : string) :
  isNumber t = false ->
  isValidCellLabel t = false ->
  ~ In t ["("; ")"; "+"; "-"; "*"; "/"] ->
  (forall next values operators,
      scanToken ErrorMessages isValidCellLabel this t next values operators
      = (this, Continue values operators))
  /\ (result (evaluate ErrorMessages isValidCellLabel this [t]) = 0%float
      /\ error (evaluate ErrorMessages isValidCellLabel this [t]) = "")
  /\ (result (evaluate ErrorMessages isValidCellLabel this ["3"; t; "4"]) = 4%float
      /\ error (evaluate ErrorMessages isValidCellLabel this ["3"; t; "4"]) = "").
Proof.
  intros Hnum Hlabel Hsymbol.
  destruct (not_symbol t Hsymbol) as (Hop & Hopen & Hclose).
  split; [ | split ].
  - intros next values operators. apply scanToken_skipped; assumption.
  - rewrite evaluate_general by discriminate.
    unfold evaluateExpression, checked. cbn [scan lastToken isOperatorAt].
    rewrite scanToken_skipped by assumption.
    rewrite Hop. split; reflexivity.
  - rewrite evaluate_general by discriminate.
    unfold evaluateExpression, checked. cbn [scan lastToken].
    rewrite scanToken_number by (try (vm_compute; reflexivity); exact Hopen).
    rewrite scanToken_skipped by assumption.
    rewrite scanToken_number by (vm_compute; reflexivity).
    vm_compute. split; reflexivity.
Qed.

End Tolerated.

Lemma closeParen_on_empty_stack_sample :
  symbolsAreNotLabels sampleIsValidCellLabel
  /\ result (evaluate sampleMessages sampleIsValidCellLabel sampleEvaluator
               ["3"; ")"]) = 3%float
  /\ error (evaluate sampleMessages sampleIsValidCellLabel sampleEvaluator
              ["3"; ")"]) = "".
Proof.
  split; [ exact symbols_sample | ].
  exact (proj2 (closeParen_on_empty_stack sampleMessages
                  sampleIsValidCellLabel sampleEvaluator symbols_sample)).
Defined.

Lemma not_symbol_foo : ~ In "foo" ["("; ")"; "+"; "-"; "*"; "/"].
Proof.
  simpl. intros H.
  repeat (destruct H as [H | H]; [ discriminate H | ]). exact H.
Qed.

Lemma unclassified_token_skipped_foo :
  (isNumber "foo" = false
   /\ sampleIsValidCellLabel "foo" = false
   /\ ~ In "foo" ["("; ")"; "+"; "-"; "*"; "/"])
  /\ (result (evaluate sampleMessages sampleIsValidCellLabel sampleEvaluator
                ["foo"]) = 0%float
      /\ error (evaluate sampleMessages sampleIsValidCellLabel sampleEvaluator
                  ["foo"]) = "")
  /\ (result (evaluate sampleMessages sampleIsValidCellLabel sampleEvaluator
                ["3"; "foo"; "4"]) = 4%float
      /\ error (evaluate sampleMessages sampleIsValidCellLabel sampleEvaluator
                  ["3"; "foo"; "4"]) = "").
Proof.
  split.
  - split; [ vm_compute; reflexivity | ].
    split; [ reflexivity | exact not_symbol_foo ].
  - exact (proj2 (unclassified_token_skipped sampleMessages
                    sampleIsValidCellLabel sampleEvaluator "foo"
                    ltac:(vm_compute; reflexivity) eq_refl not_symbol_foo)).
Defined.

(* ================================================================== *)
(** ** Division by zero *)

Section Division.

Variable ErrorMessages : ErrorMessagesT.
Variable isValidCellLabel : string -> bool.

(** [Error("Division by zero")] is thrown by [applyOperator] exactly when
    the operator is [/] and the operand popped first, the right one, is
    [=== 0]; the two assignments come before the [throw]. *)
Lemma applyOperator_division this operator values :
  snd (applyOperator ErrorMessages this operator values) = Throw "Division by zero"
  <-> operator = "/" /\ JS.strictEqualsZero (peek values) = true.
Proof.
  unfold applyOperator.
  replace (peek values) with (fst (pop values)) by (destruct values; reflexivity).
  destruct (pop values) as [operand2 values1].
  destruct (pop values1) as [operand1 values2]. cbn [fst].
  destruct (operator =? "+") eqn:Hadd.
  { apply String.eqb_eq in Hadd. subst. simpl.
    split; [ discriminate | intros [H _]; discriminate H ]. }
  destruct (operator =? "-") eqn:Hsub.
  { apply String.eqb_eq in Hsub. subst. simpl.
    split; [ discriminate | intros [H _]; discriminate H ]. }
  destruct (operator =? "*") eqn:Hmul.
  { apply String.eqb_eq in Hmul. subst. simpl.
    split; [ discriminate | intros [H _]; discriminate H ]. }
  destruct (operator =? "/") eqn:Hdiv.
  - apply String.eqb_eq in Hdiv. subst.
    destruct (JS.strictEqualsZero operand2); simpl.
    + split; auto.
    + split; [ discriminate | intros [_ H]; discriminate H ].
  - apply String.eqb_neq in Hdiv. simpl.
    split; [ discriminate | intros [H _]; contradiction ].
Qed.

Lemma applyOperator_division_state this values :
  JS.strictEqualsZero (peek values) = true ->
  applyOperator ErrorMessages this "/" values
  = (setErrorMessage (setResult this infinity) (divideByZero ErrorMessages),
     Throw "Division by zero").
Proof.
  intros H. unfold applyOperator.
  destruct values as [ | operand2 [ | operand1 rest ] ]; simpl in *;
    try discriminate; rewrite H; reflexivity.
Qed.

(** The two-token formula [( )] never reaches a division. *)
Lemma onlyParentheses_no_division this :
  snd (evaluateExpression ErrorMessages isValidCellLabel this ["("; ")"])
  <> Throw "Division by zero".
Proof.
  unfold evaluateExpression. cbn [scan]. unfold scanToken, isCellReference.
  replace (isNumber "(") with false by (vm_compute; reflexivity).
  replace (isNumber ")") with false by (vm_compute; reflexivity).
  destruct (isValidCellLabel "(").
  - destruct (getCellValue ErrorMessages this "(") as [value1 e1].
    destruct (JS.truthyString e1); [ simpl; discriminate | ].
    destruct (isValidCellLabel ")").
    + destruct (getCellValue ErrorMessages this ")") as [value2 e2].
      destruct (JS.truthyString e2); simpl; discriminate.
    + simpl. discriminate.
  - cbn [String.eqb Ascii.eqb Bool.eqb push].
    destruct (isValidCellLabel ")").
    + destruct (getCellValue ErrorMessages this ")") as [value2 e2].
      destruct (JS.truthyString e2); simpl; discriminate.
    + simpl. discriminate.
Qed.

(** When [evaluateExpression] ends in [Error("Division by zero")],
    [evaluate] ends with the result at infinity and the error at
    [divideByZero]. *)
Lemma evaluate_after_division this formula :
  divideByZero ErrorMessages <> "" ->
  snd (evaluateExpression ErrorMessages isValidCellLabel this formula)
  = Throw "Division by zero" ->
  result (evaluate ErrorMessages isValidCellLabel this formula) = infinity
  /\ error (evaluate ErrorMessages isValidCellLabel this formula)
     = divideByZero ErrorMessages.
Proof.
  intros Hmessage Hthrow.
  assert (Hne : formula <> []).
  { intros ->. discriminate Hthrow. }
  assert (Hparen : formula <> ["("; ")"]).
  { intros ->. exact (onlyParentheses_no_division this Hthrow). }
  rewrite (evaluate_general _ _ this formula Hne Hparen).
  rewrite (evaluateExpression_outcome _ _ this (checked ErrorMessages this formula))
    in Hthrow by (symmetry; apply checked_memory).
  pose proof (evaluateExpression_effect ErrorMessages isValidCellLabel
                (checked ErrorMessages this formula) formula) as Heffect.
  destruct (evaluateExpression ErrorMessages isValidCellLabel
              (checked ErrorMessages this formula) formula) as [this' [v | m]];
    simpl in Hthrow; [ discriminate Hthrow | ].
  injection Hthrow as ->.
  inversion Heffect; subst. simpl.
  destruct (divideByZero ErrorMessages) eqn:Hdz; [ contradiction | ].
  simpl. split; reflexivity.
Qed.

(** A loop that reaches the application of [/] to a zero right operand
    ends in the [throw] of that application. *)
Ltac loop_division Happlies Hzero :=
  induction Happlies as
    [ top rest values Hcontinue
    | top rest values values' operator vs Hcontinue Hok Hlater IH ];
  intros Hdivision;
  [ subst top; simpl in Hcontinue |- *; try rewrite Hcontinue;
    rewrite (applyOperator_division_state _ _ Hzero); reflexivity
  | simpl; try rewrite Hcontinue;
    match goal with
    | |- context [applyOperator ?E ?this ?top ?values] =>
        pose proof (applyOperator_effect E this top values) as Heffect;
        destruct (applyOperator E this top values) as [this' [values1 | m]];
        simpl in Hok; [ | discriminate Hok ];
        injection Hok as ->; subst this'; exact (IH Hzero Hdivision)
    end ].

Lemma applyUntilOpenParen_division this operators values operator vs :
  loopApplies ErrorMessages (fun top => negb (top =? "("))
    this operators values operator vs ->
  JS.strictEqualsZero (peek vs) = true ->
  operator = "/" ->
  snd (applyUntilOpenParen ErrorMessages this operators values)
  = Throw "Division by zero".
Proof.
  intros Happlies Hzero. loop_division Happlies Hzero.
Qed.

Lemma applyWhilePrecedence_division this token operators values operator vs :
  loopApplies ErrorMessages
    (fun top => (getOperatorPrecedence token <=? getOperatorPrecedence top)%nat)
    this operators values operator vs ->
  JS.strictEqualsZero (peek vs) = true ->
  operator = "/" ->
  snd (applyWhilePrecedence ErrorMessages this token operators values)
  = Throw "Division by zero".
Proof.
  intros Happlies Hzero. loop_division Happlies Hzero.
Qed.

Lemma applyRemaining_division this operators values operator vs :
  loopApplies ErrorMessages (fun _ => true) this operators values operator vs ->
  JS.strictEqualsZero (peek vs) = true ->
  operator = "/" ->
  snd (applyRemaining ErrorMessages this operators values)
  = Throw "Division by zero".
Proof.
  intros Happlies Hzero. loop_division Happlies Hzero.
Qed.

(** An evaluation that reaches the application of [/] to a zero right
    operand ends there: nothing between the application and [evaluate]
    catches. *)
Lemma applies_division this formula vs :
  applies ErrorMessages isValidCellLabel this formula "/" vs ->
  JS.strictEqualsZero (peek vs) = true ->
  snd (evaluateExpression ErrorMessages isValidCellLabel this formula)
  = Throw "Division by zero".
Proof.
  intros Happlies Hzero. unfold evaluateExpression.
  destruct Happlies as
    [ pre post values operators -> Hscan Hlabel Hloop
    | pre token post values operators -> Hscan Hlabel Hop Hnext Hloop
    | values operators Hscan Hlast Hcheck Hloop ].
  - rewrite scan_app,
      (scan_reaches _ _ this this pre _ [] [] values operators Hscan eq_refl).
    cbn [scan].
    rewrite (scanToken_closeParen_unlabelled _ _ this _ values operators Hlabel).
    pose proof (applyUntilOpenParen_division this operators values "/" vs
                  Hloop Hzero eq_refl) as Hthrow.
    destruct (applyUntilOpenParen ErrorMessages this operators values)
      as [this' [[operators' values'] | m]]; simpl in Hthrow;
      [ discriminate Hthrow | ].
    injection Hthrow as ->. reflexivity.
  - rewrite scan_app,
      (scan_reaches _ _ this this pre _ [] [] values operators Hscan eq_refl).
    cbn [scan].
    rewrite (scanToken_operator_unlabelled _ _ this token _ values operators
               Hlabel Hop).
    replace (match post with [] => None | t :: _ => Some t end) with (peek post)
      by (destruct post; reflexivity).
    rewrite Hnext.
    pose proof (applyWhilePrecedence_division this token operators values "/" vs
                  Hloop Hzero eq_refl) as Hthrow.
    destruct (applyWhilePrecedence ErrorMessages this token operators values)
      as [this' [[operators' values'] | m]]; simpl in Hthrow;
      [ discriminate Hthrow | ].
    injection Hthrow as ->. reflexivity.
  - rewrite (scan_reaches _ _ this this formula _ [] [] values operators
               Hscan eq_refl).
    rewrite Hlast, Hcheck.
    pose proof (applyRemaining_division this operators values "/" vs
                  Hloop Hzero eq_refl) as Hthrow.
    destruct (applyRemaining ErrorMessages this operators values)
      as [this' [values' | m]]; simpl in Hthrow; [ discriminate Hthrow | ].
    injection Hthrow as ->. reflexivity.
Qed.

(** Conversely, [Error("Division by zero")] comes from nowhere else: an
    evaluation that ends in it has applied [/] to a zero right operand. *)
Ltac division_in_loop operators :=
  induction operators as [ | top rest IH ]; intros values Hthrow;
  simpl in Hthrow; [ discriminate Hthrow | ];
  match type of Hthrow with
  | context [if ?c then _ else _] =>
      destruct c eqn:Hcontinue; [ | discriminate Hthrow ]
  | _ => idtac
  end;
  match type of Hthrow with
  | context [applyOperator ?E ?this ?top ?values] =>
      pose proof (applyOperator_effect E this top values) as Heffect;
      pose proof (applyOperator_division this top values) as Hdivision;
      destruct (applyOperator E this top values) as [this' [values' | m]] eqn:Hcall;
      [ subst this'; destruct (IH values' Hthrow) as (vs & Hloop & Hzero);
        exists vs; split; [ | exact Hzero ];
        apply applies_next with values';
        [ assumption || reflexivity | rewrite Hcall; reflexivity | exact Hloop ]
      | simpl in Hthrow, Hdivision; injection Hthrow as ->;
        destruct (proj1 Hdivision eq_refl) as [-> Hzero];
        exists values; split; [ | exact Hzero ];
        apply applies_top; assumption || reflexivity ]
  end.

Lemma applyUntilOpenParen_thrown this operators :
  forall values,
    snd (applyUntilOpenParen ErrorMessages this operators values)
    = Throw "Division by zero" ->
    exists vs,
      loopApplies ErrorMessages (fun top => negb (top =? "("))
        this operators values "/" vs
      /\ JS.strictEqualsZero (peek vs) = true.
Proof. division_in_loop operators. Qed.

Lemma applyWhilePrecedence_thrown this token operators :
  forall values,
    snd (applyWhilePrecedence ErrorMessages this token operators values)
    = Throw "Division by zero" ->
    exists vs,
      loopApplies ErrorMessages
        (fun top => (getOperatorPrecedence token <=? getOperatorPrecedence top)%nat)
        this operators values "/" vs
      /\ JS.strictEqualsZero (peek vs) = true.
Proof. division_in_loop operators. Qed.

Lemma applyRemaining_thrown this operators :
  forall values,
    snd (applyRemaining ErrorMessages this operators values)
    = Throw "Division by zero" ->
    exists vs,
      loopApplies ErrorMessages (fun _ => true) this operators values "/" vs
      /\ JS.strictEqualsZero (peek vs) = true.
Proof. division_in_loop operators. Qed.

Lemma scan_raises this tokens after message :
  forall values0 operators0,
    snd (scan ErrorMessages isValidCellLabel this tokens after values0 operators0)
    = Raise message ->
    exists pre token post values operators,
      tokens = pre ++ token :: post
      /\ snd (scan ErrorMessages isValidCellLabel this pre (Some token)
                values0 operators0) = Continue values operators
      /\ snd (scanToken ErrorMessages isValidCellLabel this token
                (match post with [] => after | t :: _ => Some t end)
                values operators) = Raise message.
Proof.
  induction tokens as [ | token rest IH ]; intros values0 operators0 Hraise.
  - discriminate Hraise.
  - cbn [scan] in Hraise.
    pose proof (scanToken_effect ErrorMessages isValidCellLabel this token
                  (match rest with [] => after | t :: _ => Some t end)
                  values0 operators0) as Heffect.
    destruct (scanToken ErrorMessages isValidCellLabel this token
                (match rest with [] => after | t :: _ => Some t end)
                values0 operators0) as [this' [values1 operators1 | v | m]] eqn:Hturn.
    + subst this'.
      destruct (IH values1 operators1 Hraise)
        as (pre & token' & post & values & operators & -> & Hscan & Hlast).
      exists (token :: pre), token', post, values, operators.
      split; [ reflexivity | ]. split; [ | exact Hlast ].
      cbn [scan].
      replace (match pre with [] => Some token' | t :: _ => Some t end)
        with (match pre ++ token' :: post with [] => after | t :: _ => Some t end)
        by (destruct pre; reflexivity).
      rewrite Hturn. exact Hscan.
    + discriminate Hraise.
    + exists [], token, rest, values0, operators0.
      split; [ reflexivity | ]. split; [ reflexivity | ].
      rewrite Hturn. exact Hraise.
Qed.

Lemma division_applies this formula :
  snd (evaluateExpression ErrorMessages isValidCellLabel this formula)
  = Throw "Division by zero" ->
  exists vs,
    applies ErrorMessages isValidCellLabel this formula "/" vs
    /\ JS.strictEqualsZero (peek vs) = true.
Proof.
  unfold evaluateExpression. intros Hthrow.
  pose proof (scan_effect ErrorMessages isValidCellLabel this formula None [] [])
    as Heffect.
  destruct (scan ErrorMessages isValidCellLabel this formula None [] [])
    as [this' [values operators | v | m]] eqn:Hscan.
  - subst this'.
    destruct (isOperatorAt (lastToken formula)) eqn:Hlast;
      [ discriminate Hthrow | ].
    destruct ((0 <? List.length operators)%nat && _) eqn:Hcheck;
      [ discriminate Hthrow | ].
    assert (Hremaining :
              snd (applyRemaining ErrorMessages this operators values)
              = Throw "Division by zero").
    { destruct (applyRemaining ErrorMessages this operators values)
        as [this' [values' | m]]; [ discriminate Hthrow | ].
      simpl in Hthrow. injection Hthrow as ->. reflexivity. }
    destruct (applyRemaining_thrown this operators values Hremaining)
      as (vs & Hloop & Hzero).
    exists vs. split; [ | exact Hzero ].
    apply applies_remaining with values operators; try assumption.
    rewrite Hscan. reflexivity.
  - discriminate Hthrow.
  - simpl in Hthrow. injection Hthrow as ->.
    destruct (scan_raises this formula None "Division by zero" [] [])
      as (pre & token & post & values & operators & -> & Hpre & Hturn).
    { rewrite Hscan. reflexivity. }
    clear Hscan Heffect. unfold scanToken in Hturn.
    destruct (isNumber token) eqn:Hnum.
    { destruct (nextIs _ _); discriminate Hturn. }
    destruct (isCellReference isValidCellLabel token) eqn:Hlabel.
    { destruct (getCellValue ErrorMessages this token) as [value e].
      destruct (JS.truthyString e); discriminate Hturn. }
    destruct (token =? "(") eqn:Hopen; [ discriminate Hturn | ].
    destruct (token =? ")") eqn:Hclose.
    + apply String.eqb_eq in Hclose. subst token.
      assert (Hloop : snd (applyUntilOpenParen ErrorMessages this operators values)
                      = Throw "Division by zero").
      { destruct (applyUntilOpenParen ErrorMessages this operators values)
          as [this1 [[operators' values'] | m]];
          [ discriminate Hturn | ].
        simpl in Hturn. injection Hturn as ->. reflexivity. }
      destruct (applyUntilOpenParen_thrown this operators values Hloop)
        as (vs & Happlies & Hzero).
      exists vs. split; [ | exact Hzero ].
      apply applies_closing with pre post values operators; auto.
    + destruct (isOperator token) eqn:Hop; [ | discriminate Hturn ].
      destruct (nextIs isOperator _) eqn:Hnext; [ discriminate Hturn | ].
      assert (Hloop : snd (applyWhilePrecedence ErrorMessages this token
                             operators values)
                      = Throw "Division by zero").
      { destruct (applyWhilePrecedence ErrorMessages this token operators values)
          as [this1 [[operators' values'] | m]];
          [ discriminate Hturn | ].
        simpl in Hturn. injection Hturn as ->. reflexivity. }
      destruct (applyWhilePrecedence_thrown this token operators values Hloop)
        as (vs & Happlies & Hzero).
      exists vs. split; [ | exact Hzero ].
      apply applies_reducing with pre token post values operators; auto.
Qed.

(** C2.  Whenever the evaluation of a formula applies [/] to a right
    operand equal to 0, in any of its three reduction loops, [evaluate]
    leaves the result at positive infinity and the error at
    [divideByZero], and the rest of the evaluation is not carried out:
    [evaluateExpression] ends in the [Error("Division by zero")] of that
    application, its stacks dropped with it.  The message table is assumed
    to give [divideByZero] a non-empty text. *)
Theorem evaluate_division_by_zero (this : FormulaEvaluator)
  (formula : list string) (vs : list float) :
  divideByZero ErrorMessages <> "" ->
  applies ErrorMessages isValidCellLabel this formula "/" vs ->
  JS.strictEqualsZero (peek vs) = true ->
  result (evaluate ErrorMessages isValidCellLabel this formula) = infinity
  /\ error (evaluate ErrorMessages isValidCellLabel this formula)
     = divideByZero ErrorMessages
  /\ snd (evaluateExpression ErrorMessages isValidCellLabel this formula)
     = Throw "Division by zero".
Proof.
  intros Hmessage Happlies Hzero.
  pose proof (applies_division this formula vs Happlies Hzero) as Hthrow.
  destruct (evaluate_after_division this formula Hmessage Hthrow)
    as [Hresult Herror].
  repeat split; assumption.
Qed.

End Division.

Lemma evaluate_division_by_zero_sample :
  (divideByZero sampleMessages <> ""
   /\ applies sampleMessages sampleIsValidCellLabel sampleEvaluator
        ["3"; "/"; "0"] "/" [0%float; 3%float]
   /\ JS.strictEqualsZero (peek [0%float; 3%float]) = true)
  /\ result (evaluate sampleMessages sampleIsValidCellLabel sampleEvaluator
               ["3"; "/"; "0"]) = infinity
  /\ error (evaluate sampleMessages sampleIsValidCellLabel sampleEvaluator
              ["3"; "/"; "0"]) = divideByZero sampleMessages
  /\ snd (evaluateExpression sampleMessages sampleIsValidCellLabel
            sampleEvaluator ["3"; "/"; "0"]) = Throw "Division by zero".
Proof.
  assert (Happlies : applies sampleMessages sampleIsValidCellLabel
                       sampleEvaluator ["3"; "/"; "0"] "/" [0%float; 3%float]).
  { apply applies_remaining with [0%float; 3%float] ["/"].
    - vm_compute. reflexivity.
    - vm_compute. reflexivity.
    - reflexivity.
    - apply applies_top. reflexivity. }
  split.
  - split; [ discriminate | ]. split; [ exact Happlies | reflexivity ].
  - apply (evaluate_division_by_zero sampleMessages sampleIsValidCellLabel
             sampleEvaluator ["3"; "/"; "0"] [0%float; 3%float]).
    + discriminate.
    + exact Happlies.
    + reflexivity.
Defined.

(* ================================================================== *)
(** ** The stored result after a failure *)

Section Failure.

Variable ErrorMessages : ErrorMessagesT.
Variable isValidCellLabel : string -> bool.

(** C3, as amended.  When [evaluate] fails with an error other than
    [divideByZero], the stored result is the one from before the call,
    unless the failure is a soft one: [evaluateExpression] has returned a
    best-effort value with the error [invalidFormula] (a number directly
    followed by an opening parenthesis, two operators in a row, a trailing
    operator), and [evaluate] has stored that value. *)
Theorem failure_keeps_result_unless_soft (this : FormulaEvaluator)
  (formula : list string) :
  divideByZero ErrorMessages <> "" ->
  error (evaluate ErrorMessages isValidCellLabel this formula) <> "" ->
  error (evaluate ErrorMessages isValidCellLabel this formula)
  <> divideByZero ErrorMessages ->
  result (evaluate ErrorMessages isValidCellLabel this formula) = result this
  \/ (exists v,
         snd (evaluateExpression ErrorMessages isValidCellLabel this formula) = Ok v
         /\ result (evaluate ErrorMessages isValidCellLabel this formula) = v
         /\ error (evaluate ErrorMessages isValidCellLabel this formula)
            = invalidFormula ErrorMessages).
Proof.
  intros Hmessage Hfails Hother.
  destruct formula as [ | first rest ] eqn:Hformula; [ left; reflexivity | ].
  rewrite <- Hformula in *.
  assert (Hne : formula <> []) by (subst; discriminate).
  destruct (list_eq_dec string_dec formula ["("; ")"]) as [-> | Hparen];
    [ left; reflexivity | ].
  rewrite (evaluate_general _ _ this formula Hne Hparen) in *.
  pose proof (evaluateExpression_outcome ErrorMessages isValidCellLabel this
                (checked ErrorMessages this formula) formula
                (eq_sym (checked_memory ErrorMessages this formula))) as Hsame.
  pose proof (evaluateExpression_effect ErrorMessages isValidCellLabel
                (checked ErrorMessages this formula) formula) as Heffect.
  destruct (evaluateExpression ErrorMessages isValidCellLabel
              (checked ErrorMessages this formula) formula) as [this' [v | m]].
  - right. exists v. split; [ exact Hsame | ]. split; [ reflexivity | ].
    destruct Heffect as [-> | ->]; [ | reflexivity ].
    unfold checked in *. destruct (isOperatorAt (lastToken formula)).
    + reflexivity.
    + exfalso. apply Hfails. reflexivity.
  - left. inversion Heffect; subst.
    + exfalso. apply Hother.
      destruct (divideByZero ErrorMessages) eqn:Hdz; [ contradiction | ].
      reflexivity.
    + destruct (negb _); simpl; apply checked_result.
    + destruct (negb _); simpl; apply checked_result.
    + destruct (negb _); simpl; apply checked_result.
Qed.

End Failure.

(** C3 as stated fails on [3 + * 4]: the error is [invalidFormula], not
    [divideByZero], and the result stored before the call (0) is replaced
    by 3. *)
Lemma soft_failure_overwrites_result :
  error (evaluate sampleMessages sampleIsValidCellLabel sampleEvaluator
           ["3"; "+"; "*"; "4"]) = invalidFormula sampleMessages
  /\ invalidFormula sampleMessages <> ""
  /\ invalidFormula sampleMessages <> divideByZero sampleMessages
  /\ result sampleEvaluator = 0%float
  /\ result (evaluate sampleMessages sampleIsValidCellLabel sampleEvaluator
               ["3"; "+"; "*"; "4"]) = 3%float
  /\ result (evaluate sampleMessages sampleIsValidCellLabel sampleEvaluator
               ["3"; "+"; "*"; "4"]) <> result sampleEvaluator.
Proof.
  vm_compute. repeat split; discriminate.
Qed.

Lemma failure_keeps_result_sample :
  (divideByZero sampleMessages <> ""
   /\ error (evaluate sampleMessages sampleIsValidCellLabel
               (setResult sampleEvaluator 7%float) ["B2"]) <> ""
   /\ error (evaluate sampleMessages sampleIsValidCellLabel
               (setResult sampleEvaluator 7%float) ["B2"])
      <> divideByZero sampleMessages)
  /\ (result (evaluate sampleMessages sampleIsValidCellLabel
                (setResult sampleEvaluator 7%float) ["B2"]) = 7%float
      \/ exists v,
           snd (evaluateExpression sampleMessages sampleIsValidCellLabel
                  (setResult sampleEvaluator 7%float) ["B2"]) = Ok v
           /\ result (evaluate sampleMessages sampleIsValidCellLabel
                        (setResult sampleEvaluator 7%float) ["B2"]) = v
           /\ error (evaluate sampleMessages sampleIsValidCellLabel
                       (setResult sampleEvaluator 7%float) ["B2"])
              = invalidFormula sampleMessages).
Proof.
  split.
  - vm_compute. repeat split; discriminate.
  - apply (failure_keeps_result_unless_soft sampleMessages
             sampleIsValidCellLabel (setResult sampleEvaluator 7%float) ["B2"]);
      vm_compute; discriminate.
Defined.

(* ================================================================== *)
(** ** Failures met during the scan *)

Section Scan.

Variable ErrorMessages : ErrorMessagesT.
Variable isValidCellLabel : string -> bool.

(** C5, as amended.  When the scan reaches a cell-reference token whose
    cell carries a stored error that is non-empty and is not
    [emptyFormula], [evaluate] sets the error to that stored string and
    the evaluation ends there, in [Error("Invalid cell reference")]; the
    stored result is not touched.  The tokens before it must let the loop
    through: a failure on an earlier token ends the evaluation first. *)
Theorem cell_error_propagates (this : FormulaEvaluator)
  (pre : list string) (token : string) (post : list string)
  (values : list float) (operators : list string) :
  symbolsAreNotLabels isValidCellLabel ->
  isNumber token = false ->
  isCellReference isValidCellLabel token = true ->
  getError (getCellByLabel (_sheetMemory this) token) <> "" ->
  getError (getCellByLabel (_sheetMemory this) token) <> emptyFormula ErrorMessages ->
  snd (scan ErrorMessages isValidCellLabel this pre (Some token) [] [])
  = Continue values operators ->
  error (evaluate ErrorMessages isValidCellLabel this (pre ++ token :: post))
  = getError (getCellByLabel (_sheetMemory this) token)
  /\ result (evaluate ErrorMessages isValidCellLabel this (pre ++ token :: post))
     = result this
  /\ snd (evaluateExpression ErrorMessages isValidCellLabel this
            (pre ++ token :: post))
     = Throw "Invalid cell reference".
Proof.
  intros Hsym Hnum Hlabel Hstored Hempty Hscan.
  unfold isCellReference in Hlabel.
  set (formula := pre ++ token :: post).
  assert (Hne : formula <> []).
  { unfold formula. destruct pre; discriminate. }
  assert (Hparen : formula <> ["("; ")"]).
  { intros Heq.
    assert (Hin : In token ["("; ")"]).
    { rewrite <- Heq. unfold formula. apply in_or_app. right. left. reflexivity. }
    rewrite (Hsym token) in Hlabel; [ discriminate | ].
    simpl in Hin. simpl. tauto. }
  assert (Htruthy : forall this0, _sheetMemory this0 = _sheetMemory this ->
            JS.truthyString (getError (getCellByLabel (_sheetMemory this0) token)) = true).
  { intros this0 ->.
    destruct (getError (getCellByLabel (_sheetMemory this) token));
      [ contradiction | reflexivity ]. }
  assert (Hexpr : forall this0, _sheetMemory this0 = _sheetMemory this ->
            evaluateExpression ErrorMessages isValidCellLabel this0 formula
            = (setErrorMessage this0
                 (getError (getCellByLabel (_sheetMemory this) token)),
               Throw "Invalid cell reference")).
  { intros this0 Hmem. unfold evaluateExpression, formula.
    rewrite scan_app, (scan_reaches _ _ this this0 pre _ [] [] values operators Hscan Hmem).
    cbn [scan].
    rewrite scanToken_cell_error; try assumption.
    - rewrite Hmem. reflexivity.
    - apply Htruthy. exact Hmem.
    - rewrite Hmem. exact Hempty. }
  rewrite (evaluate_general _ _ this formula Hne Hparen).
  rewrite (Hexpr (checked ErrorMessages this formula))
    by apply checked_memory.
  rewrite (Hexpr this eq_refl).
  cbn [_errorMessage setErrorMessage].
  rewrite (Htruthy this eq_refl). cbn [negb].
  split; [ reflexivity | ]. split; [ apply checked_result | reflexivity ].
Qed.

(** C6, as amended.  When the scan reaches an operator token that is
    directly followed by another operator token, [evaluateExpression]
    stops at that turn and returns the value on top of the value stack,
    or 0 when the stack is empty or its top is 0 or NaN; [evaluate] stores
    that value and the error is [invalidFormula].  The tokens before the
    pair must let the loop through. *)
Theorem consecutive_operators (this : FormulaEvaluator)
  (pre : list string) (operator1 operator2 : string) (post : list string)
  (values : list float) (operators : list string) :
  symbolsAreNotLabels isValidCellLabel ->
  isOperator operator1 = true ->
  isOperator operator2 = true ->
  snd (scan ErrorMessages isValidCellLabel this pre (Some operator1) [] [])
  = Continue values operators ->
  error (evaluate ErrorMessages isValidCellLabel this
           (pre ++ operator1 :: operator2 :: post))
  = invalidFormula ErrorMessages
  /\ result (evaluate ErrorMessages isValidCellLabel this
               (pre ++ operator1 :: operator2 :: post))
     = JS.orZero (peek values)
  /\ snd (scan ErrorMessages isValidCellLabel this
            (pre ++ operator1 :: operator2 :: post) None [] [])
     = Return (JS.orZero (peek values)).
Proof.
  intros Hsym Hop1 Hop2 Hscan.
  set (formula := pre ++ operator1 :: operator2 :: post).
  assert (Hne : formula <> []).
  { unfold formula. destruct pre; discriminate. }
  assert (Hparen : formula <> ["("; ")"]).
  { intros Heq.
    assert (Hin : In operator1 ["("; ")"]).
    { rewrite <- Heq. unfold formula. apply in_or_app. right. left. reflexivity. }
    destruct (isOperator_not_paren operator1 Hop1) as [Hopen Hclose].
    apply String.eqb_neq in Hopen, Hclose.
    simpl in Hin. destruct Hin as [Hin | [Hin | []]]; congruence. }
  assert (Hloop : forall this0, _sheetMemory this0 = _sheetMemory this ->
            scan ErrorMessages isValidCellLabel this0 formula None [] []
            = (setErrorMessage this0 (invalidFormula ErrorMessages),
               Return (JS.orZero (peek values)))).
  { intros this0 Hmem. unfold formula.
    rewrite scan_app, (scan_reaches _ _ this this0 pre _ [] [] values operators Hscan Hmem).
    cbn [scan].
    rewrite (scanToken_operator _ _ this0 operator1 _ _ _ Hsym Hop1).
    cbn [nextIs]. rewrite Hop2. reflexivity. }
  rewrite (evaluate_general _ _ this formula Hne Hparen).
  unfold evaluateExpression.
  rewrite (Hloop (checked ErrorMessages this formula))
    by apply checked_memory.
  rewrite (Hloop this eq_refl).
  repeat split; reflexivity.
Qed.

End Scan.

(** C5 as stated fails on [3 ( B2 )]: the formula contains the cell
    reference [B2], whose cell carries the stored error [#CIRC], but the
    evaluation ends on the first token and the error is [invalidFormula]. *)
Lemma cell_error_not_reached :
  In "B2" ["3"; "("; "B2"; ")"]
  /\ isNumber "B2" = false
  /\ isCellReference sampleIsValidCellLabel "B2" = true
  /\ getError (getCellByLabel (_sheetMemory sampleEvaluator) "B2") = "#CIRC"
  /\ "#CIRC" <> emptyFormula sampleMessages
  /\ error (evaluate sampleMessages sampleIsValidCellLabel sampleEvaluator
              ["3"; "("; "B2"; ")"]) = invalidFormula sampleMessages
  /\ error (evaluate sampleMessages sampleIsValidCellLabel sampleEvaluator
              ["3"; "("; "B2"; ")"])
     <> getError (getCellByLabel (_sheetMemory sampleEvaluator) "B2").
Proof.
  split; [ simpl; tauto | ].
  vm_compute. repeat split; discriminate.
Qed.

Lemma cell_error_propagates_sample :
  (symbolsAreNotLabels sampleIsValidCellLabel
   /\ isNumber "B2" = false
   /\ isCellReference sampleIsValidCellLabel "B2" = true
   /\ getError (getCellByLabel (_sheetMemory sampleEvaluator) "B2") <> ""
   /\ getError (getCellByLabel (_sheetMemory sampleEvaluator) "B2")
      <> emptyFormula sampleMessages
   /\ snd (scan sampleMessages sampleIsValidCellLabel sampleEvaluator
             ["3"; "+"] (Some "B2") [] [])
      = Continue [3%float] ["+"])
  /\ error (evaluate sampleMessages sampleIsValidCellLabel sampleEvaluator
              ["3"; "+"; "B2"; "*"; "2"]) = "#CIRC"
  /\ result (evaluate sampleMessages sampleIsValidCellLabel sampleEvaluator
               ["3"; "+"; "B2"; "*"; "2"]) = result sampleEvaluator
  /\ snd (evaluateExpression sampleMessages sampleIsValidCellLabel
            sampleEvaluator ["3"; "+"; "B2"; "*"; "2"])
     = Throw "Invalid cell reference".
Proof.
  split.
  - split; [ exact symbols_sample | ].
    vm_compute. repeat split; discriminate.
  - apply (cell_error_propagates sampleMessages sampleIsValidCellLabel
             sampleEvaluator ["3"; "+"] "B2" ["*"; "2"] [3%float] ["+"]).
    + exact symbols_sample.
    + vm_compute. reflexivity.
    + reflexivity.
    + vm_compute. discriminate.
    + vm_compute. discriminate.
    + vm_compute. reflexivity.
Defined.

(** C6 as stated fails on [1 / 0 + 2 + * 3]: the formula has [+] directly
    followed by [*], but the division by zero is met first, so the error
    is [divideByZero] and the result is infinity, not the last value. *)
Lemma consecutive_operators_not_reached :
  isOperator "+" = true /\ isOperator "*" = true
  /\ error (evaluate sampleMessages sampleIsValidCellLabel sampleEvaluator
              ["1"; "/"; "0"; "+"; "2"; "+"; "*"; "3"])
     = divideByZero sampleMessages
  /\ divideByZero sampleMessages <> invalidFormula sampleMessages
  /\ result (evaluate sampleMessages sampleIsValidCellLabel sampleEvaluator
               ["1"; "/"; "0"; "+"; "2"; "+"; "*"; "3"]) = infinity.
Proof.
  vm_compute. repeat split; discriminate.
Qed.

Lemma consecutive_operators_sample :
  (symbolsAreNotLabels sampleIsValidCellLabel
   /\ isOperator "+" = true /\ isOperator "*" = true
   /\ snd (scan sampleMessages sampleIsValidCellLabel sampleEvaluator
             ["3"] (Some "+") [] [])
      = Continue [3%float] [])
  /\ error (evaluate sampleMessages sampleIsValidCellLabel sampleEvaluator
              ["3"; "+"; "*"; "4"]) = invalidFormula sampleMessages
  /\ result (evaluate sampleMessages sampleIsValidCellLabel sampleEvaluator
               ["3"; "+"; "*"; "4"]) = 3%float.
Proof.
  split.
  - split; [ exact symbols_sample | ].
    vm_compute. repeat split.
  - pose proof (consecutive_operators sampleMessages sampleIsValidCellLabel
                  sampleEvaluator ["3"] "+" "*" ["4"] [3%float] []
                  symbols_sample eq_refl eq_refl
                  ltac:(vm_compute; reflexivity)) as (Herror & Hresult & _).
    split; [ exact Herror | ].
    etransitivity; [ exact Hresult | vm_compute; reflexivity ].
Defined.

(* ================================================================== *)
(** ** Operands missing from the value stack *)

Section Deficient.

Variable ErrorMessages : ErrorMessagesT.
Variable isValidCellLabel : string -> bool.

(** C9, as amended.  [applyOperator] pops two operands whatever the size
    of the value stack: on a stack of one value the left operand is
    [undefined] and the sum pushed is [NaN + right].  On [( + 3 )] the
    closing parenthesis finds the single value 3 under a pending [+], the
    application pushes NaN, and [evaluate] completes with an empty error;
    the result it reports is 0, because the final [values.pop() || 0]
    replaces NaN by 0. *)
Theorem deficient_stack_reports_zero (this : FormulaEvaluator) :
  symbolsAreNotLabels isValidCellLabel ->
  (forall right : float,
      applyOperator ErrorMessages this "+" [right]
      = (this, Ok [(nan + right)%float]))
  /\ snd (scan ErrorMessages isValidCellLabel this ["("; "+"; "3"] (Some ")") [] [])
     = Continue [3%float] ["+"; "("]
  /\ scanToken ErrorMessages isValidCellLabel this ")" None [3%float] ["+"; "("]
     = (this, Continue [nan] [])
  /\ JS.isNaN nan = true
  /\ result (evaluate ErrorMessages isValidCellLabel this ["("; "+"; "3"; ")"])
     = 0%float
  /\ error (evaluate ErrorMessages isValidCellLabel this ["("; "+"; "3"; ")"]) = "".
Proof.
  intros Hsym. split; [ | split; [ | split; [ | split ] ] ].
  - intros right. reflexivity.
  - rewrite (scan_ext ErrorMessages isValidCellLabel (fun _ => false))
      by labels_agree Hsym.
    vm_compute. reflexivity.
  - rewrite (scanToken_ext ErrorMessages isValidCellLabel (fun _ => false))
      by (intros _; apply Hsym; simpl; tauto).
    vm_compute. reflexivity.
  - reflexivity.
  - rewrite !(evaluate_ext ErrorMessages isValidCellLabel (fun _ => false));
      try labels_agree Hsym.
    vm_compute. split; reflexivity.
Qed.

End Deficient.

(** C9 as stated fails on its own example: the result reported for
    [( + 3 )] is 0, which is not NaN. *)
Lemma deficient_stack_result_is_not_NaN :
  error (evaluate sampleMessages sampleIsValidCellLabel sampleEvaluator
           ["("; "+"; "3"; ")"]) = ""
  /\ result (evaluate sampleMessages sampleIsValidCellLabel sampleEvaluator
               ["("; "+"; "3"; ")"]) = 0%float
  /\ JS.isNaN (result (evaluate sampleMessages sampleIsValidCellLabel
                         sampleEvaluator ["("; "+"; "3"; ")"])) = false.
Proof.
  vm_compute. repeat split.
Qed.

Lemma deficient_stack_reports_zero_sample :
  symbolsAreNotLabels sampleIsValidCellLabel
  /\ result (evaluate sampleMessages sampleIsValidCellLabel sampleEvaluator
               ["("; "+"; "3"; ")"]) = 0%float
  /\ error (evaluate sampleMessages sampleIsValidCellLabel sampleEvaluator
              ["("; "+"; "3"; ")"]) = "".
Proof.
  split; [ exact symbols_sample | ].
  exact (proj2 (proj2 (proj2 (proj2
           (deficient_stack_reports_zero sampleMessages
              sampleIsValidCellLabel sampleEvaluator symbols_sample))))).
Defined.

(* ================================================================== *)
(** ** What [evaluate] resets *)

(** C4.  [evaluate] starts by resetting the error message only; the
    stored result is not reset.  After [7] has been evaluated, the call on
    the empty formula ends with the error [emptyFormula] and the result
    still 7; and on every evaluator the call on the empty formula leaves
    the stored result as it found it. *)
Theorem evaluate_keeps_previous_result :
  result (evaluate sampleMessages sampleIsValidCellLabel sampleEvaluator ["7"])
  = 7%float
  /\ result (evaluate sampleMessages sampleIsValidCellLabel
               (evaluate sampleMessages sampleIsValidCellLabel
                  sampleEvaluator ["7"]) [])
     = 7%float
  /\ error (evaluate sampleMessages sampleIsValidCellLabel
              (evaluate sampleMessages sampleIsValidCellLabel
                 sampleEvaluator ["7"]) [])
     = emptyFormula sampleMessages
  /\ (forall ErrorMessages isValidCellLabel this,
         result (evaluate ErrorMessages isValidCellLabel this []) = result this
         /\ error (evaluate ErrorMessages isValidCellLabel this [])
            = emptyFormula ErrorMessages).
Proof.
  split; [ vm_compute; reflexivity | ].
  split; [ vm_compute; reflexivity | ].
  split; [ vm_compute; reflexivity | ].
  intros ErrorMessages isValidCellLabel this. split; reflexivity.
Qed.

(* ================================================================== *)
(** ** What an evaluation depends on *)

Section Updates.

Variable ErrorMessages : ErrorMessagesT.
Variable isValidCellLabel : string -> bool.

Lemma applyUpdate_memory u this :
  _sheetMemory (applyUpdate u this) = _sheetMemory this.
Proof. destruct u; reflexivity. Qed.

(** The writes and the completion of [applyOperator] are the same on
    every evaluator, and a call that returns writes nothing. *)
Lemma applyOperator_update operator values :
  exists u o,
    (forall this,
        applyOperator ErrorMessages this operator values = (applyUpdate u this, o))
    /\ (forall values', o = Ok values' -> u = Keep).
Proof.
  unfold applyOperator.
  destruct (pop values) as [operand2 values1].
  destruct (pop values1) as [operand1 values2].
  destruct (operator =? "+").
  { eexists Keep, _. split; [ reflexivity | reflexivity ]. }
  destruct (operator =? "-").
  { eexists Keep, _. split; [ reflexivity | reflexivity ]. }
  destruct (operator =? "*").
  { eexists Keep, _. split; [ reflexivity | reflexivity ]. }
  destruct (operator =? "/").
  - destruct (JS.strictEqualsZero operand2).
    + eexists (SetInfinity _), _. split; [ reflexivity | discriminate ].
    + eexists Keep, _. split; [ reflexivity | reflexivity ].
  - eexists (SetError _), _. split; [ reflexivity | discriminate ].
Qed.

Ltac loop_update operators :=
  induction operators as [ | top rest IH ]; intros values; simpl;
  [ eexists Keep, _; split; [ reflexivity | reflexivity ] | ];
  try match goal with
      | |- context [if ?c then _ else _] =>
          destruct c;
          [ | eexists Keep, _; split; [ reflexivity | reflexivity ] ]
      end;
  match goal with
  | |- context [applyOperator ?E _ ?top ?values] =>
      destruct (applyOperator_update top values) as (u1 & o1 & Hcall & Hkeep);
      destruct o1 as [values1 | m];
      [ rewrite (Hkeep values1 eq_refl) in Hcall;
        destruct (IH values1) as (u2 & o2 & Hrest & Hkeep2);
        exists u2, o2; split;
        [ intros this; rewrite Hcall; apply Hrest | exact Hkeep2 ]
      | exists u1, (Throw m); split;
        [ intros this; rewrite Hcall; reflexivity | discriminate ] ]
  end.

Lemma applyUntilOpenParen_update operators :
  forall values,
  exists u o,
    (forall this,
        applyUntilOpenParen ErrorMessages this operators values
        = (applyUpdate u this, o))
    /\ (forall r, o = Ok r -> u = Keep).
Proof. loop_update operators. Qed.

Lemma applyWhilePrecedence_update token operators :
  forall values,
  exists u o,
    (forall this,
        applyWhilePrecedence ErrorMessages this token operators values
        = (applyUpdate u this, o))
    /\ (forall r, o = Ok r -> u = Keep).
Proof. loop_update operators. Qed.

Lemma applyRemaining_update operators :
  forall values,
  exists u o,
    (forall this,
        applyRemaining ErrorMessages this operators values
        = (applyUpdate u this, o))
    /\ (forall r, o = Ok r -> u = Keep).
Proof. loop_update operators. Qed.

Lemma scanToken_update (memory : SheetMemory) token next values operators :
  exists u c,
    (forall this, _sheetMemory this = memory ->
        scanToken ErrorMessages isValidCellLabel this token next values operators
        = (applyUpdate u this, c))
    /\ (forall values' operators', c = Continue values' operators' -> u = Keep).
Proof.
  unfold scanToken.
  destruct (isNumber token).
  { destruct (nextIs _ next).
    - eexists (SetError _), _. split; [ reflexivity | discriminate ].
    - eexists Keep, _. split; [ reflexivity | reflexivity ]. }
  destruct (isCellReference isValidCellLabel token).
  { unfold getCellValue.
    set (cell := getCellByLabel memory token).
    destruct (JS.truthyString (getError cell)
              && negb (getError cell =? emptyFormula ErrorMessages)) eqn:Hstored;
      [ | destruct (List.length (getFormula cell) =? 0)%nat eqn:Hempty ].
    - destruct (JS.truthyString (getError cell)) eqn:Htruthy;
        [ | discriminate Hstored ].
      eexists (SetError _), _. split;
        [ intros this ->; fold cell; rewrite Htruthy, Hstored, Htruthy;
          reflexivity
        | discriminate ].
    - destruct (JS.truthyString (invalidCell ErrorMessages)) eqn:Htruthy.
      + eexists (SetError _), _. split;
          [ intros this ->; fold cell; rewrite Hstored, Hempty, Htruthy;
            reflexivity
          | discriminate ].
      + eexists Keep, _. split;
          [ intros this ->; fold cell; rewrite Hstored, Hempty, Htruthy;
            reflexivity
          | reflexivity ].
    - eexists Keep, _. split;
        [ intros this ->; fold cell; rewrite Hstored, Hempty; reflexivity
        | reflexivity ]. }
  destruct (token =? "(").
  { eexists Keep, _. split; [ reflexivity | reflexivity ]. }
  destruct (token =? ")").
  { destruct (applyUntilOpenParen_update operators values)
      as (u & o & Hloop & Hkeep).
    destruct o as [[operators' values'] | m].
    - eexists u, _. split.
      + intros this _. rewrite Hloop. reflexivity.
      + intros ? ? _. exact (Hkeep _ eq_refl).
    - eexists u, _. split;
        [ intros this _; rewrite Hloop; reflexivity | discriminate ]. }
  destruct (isOperator token).
  - destruct (nextIs isOperator next).
    { eexists (SetError _), _. split; [ reflexivity | discriminate ]. }
    destruct (applyWhilePrecedence_update token operators values)
      as (u & o & Hloop & Hkeep).
    destruct o as [[operators' values'] | m].
    + eexists u, _. split.
      * intros this _. rewrite Hloop. reflexivity.
      * intros ? ? _. exact (Hkeep _ eq_refl).
    + eexists u, _. split;
        [ intros this _; rewrite Hloop; reflexivity | discriminate ].
  - eexists Keep, _. split; [ reflexivity | reflexivity ].
Qed.

Lemma scan_update (memory : SheetMemory) tokens after :
  forall values operators,
  exists u c,
    (forall this, _sheetMemory this = memory ->
        scan ErrorMessages isValidCellLabel this tokens after values operators
        = (applyUpdate u this, c))
    /\ (forall values' operators', c = Continue values' operators' -> u = Keep).
Proof.
  induction tokens as [ | token rest IH ]; intros values operators.
  - eexists Keep, _. split; [ reflexivity | reflexivity ].
  - cbn [scan].
    destruct (scanToken_update memory token
                (match rest with [] => after | t :: _ => Some t end)
                values operators) as (u1 & c1 & Hturn & Hkeep1).
    destruct c1 as [values1 operators1 | v | m].
    + rewrite (Hkeep1 _ _ eq_refl) in Hturn.
      destruct (IH values1 operators1) as (u2 & c2 & Hrest & Hkeep2).
      exists u2, c2. split; [ | exact Hkeep2 ].
      intros this Hmem. rewrite (Hturn this Hmem). apply Hrest. exact Hmem.
    + exists u1, (Return v). split; [ | discriminate ].
      intros this Hmem. rewrite (Hturn this Hmem). reflexivity.
    + exists u1, (Raise m). split; [ | discriminate ].
      intros this Hmem. rewrite (Hturn this Hmem). reflexivity.
Qed.

Lemma evaluateExpression_update (memory : SheetMemory) tokens :
  exists u o,
    forall this, _sheetMemory this = memory ->
      evaluateExpression ErrorMessages isValidCellLabel this tokens
      = (applyUpdate u this, o).
Proof.
  unfold evaluateExpression.
  destruct (scan_update memory tokens None [] []) as (u & c & Hscan & Hkeep).
  destruct c as [values operators | v | m].
  - rewrite (Hkeep _ _ eq_refl) in Hscan.
    destruct (isOperatorAt (lastToken tokens)) eqn:Hlast.
    { eexists (SetError _), _. intros this Hmem.
      rewrite (Hscan this Hmem). reflexivity. }
    destruct ((0 <? List.length operators)%nat
              && (negb (isOperatorAt (peek operators))
                  || (List.length values <? 2)%nat)) eqn:Hcheck.
    { eexists (SetError _), _. intros this Hmem.
      rewrite (Hscan this Hmem), Hcheck. reflexivity. }
    destruct (applyRemaining_update operators values)
      as (u2 & o2 & Hloop & _).
    destruct o2 as [values' | m]; eexists u2, _; intros this Hmem;
      rewrite (Hscan this Hmem), Hcheck; cbn [applyUpdate]; rewrite Hloop;
      reflexivity.
  - eexists u, _. intros this Hmem. rewrite (Hscan this Hmem). reflexivity.
  - eexists u, _. intros this Hmem. rewrite (Hscan this Hmem). reflexivity.
Qed.

(** What [evaluate] leaves in the fields is read off the formula and the
    sheet memory alone. *)
Lemma evaluate_update (memory : SheetMemory) formula :
  exists message stored,
    forall this, _sheetMemory this = memory ->
      evaluate ErrorMessages isValidCellLabel this formula
      = evaluated this message stored.
Proof.
  destruct formula as [ | first rest ] eqn:Hformula.
  { exists (emptyFormula ErrorMessages), None. intros this _. reflexivity. }
  rewrite <- Hformula.
  assert (Hne : formula <> []) by (subst; discriminate).
  clear Hformula first rest.
  destruct (list_eq_dec string_dec formula ["("; ")"]) as [-> | Hparen].
  { exists (missingParentheses ErrorMessages), None. intros this _. reflexivity. }
  destruct (evaluateExpression_update memory formula) as (u & o & Hexpr).
  set (start := if isOperatorAt (lastToken formula)
                then invalidFormula ErrorMessages else "").
  assert (Hchecked : forall this,
            checked ErrorMessages this formula = setErrorMessage this start).
  { intros this. unfold checked, start.
    destruct (isOperatorAt (lastToken formula)); reflexivity. }
  assert (Hrun : forall this, _sheetMemory this = memory ->
            evaluate ErrorMessages isValidCellLabel this formula
            = match o with
              | Ok result =>
                  setResult (applyUpdate u (setErrorMessage this start)) result
              | Throw _ =>
                  if negb (JS.truthyString
                             (_errorMessage
                                (applyUpdate u (setErrorMessage this start))))
                  then setErrorMessage
                         (applyUpdate u (setErrorMessage this start))
                         (invalidFormula ErrorMessages)
                  else applyUpdate u (setErrorMessage this start)
              end).
  { intros this Hmem.
    rewrite (evaluate_general _ _ this formula Hne Hparen), Hchecked.
    rewrite (Hexpr (setErrorMessage this start)) by exact Hmem.
    destruct o; reflexivity. }
  destruct o as [v | m].
  - destruct u as [ | e | e ].
    + exists start, (Some v). intros this Hmem. rewrite (Hrun this Hmem). reflexivity.
    + exists e, (Some v). intros this Hmem. rewrite (Hrun this Hmem). reflexivity.
    + exists e, (Some v). intros this Hmem. rewrite (Hrun this Hmem). reflexivity.
  - destruct u as [ | e | e ].
    + destruct (JS.truthyString start) eqn:Hstart.
      * exists start, None. intros this Hmem. rewrite (Hrun this Hmem).
        cbn. rewrite Hstart. reflexivity.
      * exists (invalidFormula ErrorMessages), None.
        intros this Hmem. rewrite (Hrun this Hmem).
        cbn. rewrite Hstart. reflexivity.
    + destruct (JS.truthyString e) eqn:He.
      * exists e, None. intros this Hmem. rewrite (Hrun this Hmem).
        cbn. rewrite He. reflexivity.
      * exists (invalidFormula ErrorMessages), None.
        intros this Hmem. rewrite (Hrun this Hmem).
        cbn. rewrite He. reflexivity.
    + destruct (JS.truthyString e) eqn:He.
      * exists e, (Some infinity). intros this Hmem. rewrite (Hrun this Hmem).
        cbn. rewrite He. reflexivity.
      * exists (invalidFormula ErrorMessages), (Some infinity).
        intros this Hmem. rewrite (Hrun this Hmem).
        cbn. rewrite He. reflexivity.
Qed.

(** X1.  What [evaluate] reports depends on the formula and the sheet
    memory only, never on what the evaluator held before: two evaluators
    on the same memory end with the same error, and with the same result
    unless the call has stored none, in which case each keeps its own.
    The memory field is not written. *)
Theorem evaluate_reads_formula_and_memory (this1 this2 : FormulaEvaluator)
  (formula : list string) :
  _sheetMemory this1 = _sheetMemory this2 ->
  error (evaluate ErrorMessages isValidCellLabel this1 formula)
  = error (evaluate ErrorMessages isValidCellLabel this2 formula)
  /\ _sheetMemory (evaluate ErrorMessages isValidCellLabel this1 formula)
     = _sheetMemory this1
  /\ (result (evaluate ErrorMessages isValidCellLabel this1 formula)
      = result (evaluate ErrorMessages isValidCellLabel this2 formula)
      \/ (result (evaluate ErrorMessages isValidCellLabel this1 formula)
          = result this1
          /\ result (evaluate ErrorMessages isValidCellLabel this2 formula)
             = result this2)).
Proof.
  intros Hmem.
  destruct (evaluate_update (_sheetMemory this1) formula)
    as (message & stored & Hupdate).
  rewrite (Hupdate this1 eq_refl), (Hupdate this2 (eq_sym Hmem)).
  split; [ reflexivity | ]. split; [ reflexivity | ].
  destruct stored as [v | ]; [ left | right; split ]; reflexivity.
Qed.

(** X2.  [evaluate] is idempotent: a second call on the same formula,
    the sheet unchanged, leaves the evaluator as the first call left it. *)
Theorem evaluate_idempotent (this : FormulaEvaluator) (formula : list string) :
  evaluate ErrorMessages isValidCellLabel
    (evaluate ErrorMessages isValidCellLabel this formula) formula
  = evaluate ErrorMessages isValidCellLabel this formula.
Proof.
  destruct (evaluate_update (_sheetMemory this) formula)
    as (message & stored & Hupdate).
  rewrite (Hupdate this eq_refl).
  rewrite (Hupdate (evaluated this message stored) eq_refl).
  unfold evaluated. destruct stored; reflexivity.
Qed.

End Updates.

Lemma evaluate_reads_formula_and_memory_sample :
  _sheetMemory sampleEvaluator
  = _sheetMemory (setErrorMessage (setResult sampleEvaluator 7%float) "stale")
  /\ error (evaluate sampleMessages sampleIsValidCellLabel sampleEvaluator
              ["A1"; "+"; "B2"])
     = error (evaluate sampleMessages sampleIsValidCellLabel
                (setErrorMessage (setResult sampleEvaluator 7%float) "stale")
                ["A1"; "+"; "B2"])
  /\ result (evaluate sampleMessages sampleIsValidCellLabel sampleEvaluator
               ["A1"; "+"; "B2"]) = 0%float
  /\ result (evaluate sampleMessages sampleIsValidCellLabel
               (setErrorMessage (setResult sampleEvaluator 7%float) "stale")
               ["A1"; "+"; "B2"]) = 7%float.
Proof.
  split; [ reflexivity | ].
  split.
  - exact (proj1 (evaluate_reads_formula_and_memory sampleMessages
                    sampleIsValidCellLabel sampleEvaluator
                    (setErrorMessage (setResult sampleEvaluator 7%float) "stale")
                    ["A1"; "+"; "B2"] eq_refl)).
  - vm_compute. split; reflexivity.
Defined.

(* ================================================================== *)
(** ** When an evaluation succeeds *)

Lemma orZero_not_NaN (x : JS.operand) : JS.isNaN (JS.orZero x) = false.
Proof.
  destruct x as [v | ]; [ | reflexivity ].
  unfold JS.orZero, JS.truthy, JS.isNaN.
  destruct (PrimFloat.eqb v zero); [ reflexivity | ].
  destruct (PrimFloat.is_nan v) eqn:Hnan; [ reflexivity | exact Hnan ].
Qed.

Section Success.

Variable ErrorMessages : ErrorMessagesT.
Variable isValidCellLabel : string -> bool.

Lemma lastToken_operator_general (formula : list string) :
  isOperatorAt (lastToken formula) = true ->
  formula <> [] /\ formula <> ["("; ")"].
Proof.
  intros Hlast. split; intros ->; discriminate Hlast.
Qed.

Lemma evaluate_trailing_operator (this : FormulaEvaluator)
  (formula : list string) :
  invalidFormula ErrorMessages <> "" ->
  isOperatorAt (lastToken formula) = true ->
  error (evaluate ErrorMessages isValidCellLabel this formula) <> ""
  /\ (forall v,
         snd (evaluateExpression ErrorMessages isValidCellLabel this formula)
         = Ok v ->
         error (evaluate ErrorMessages isValidCellLabel this formula)
         = invalidFormula ErrorMessages
         /\ result (evaluate ErrorMessages isValidCellLabel this formula) = v).
Proof.
  intros Hmessage Hlast.
  destruct (lastToken_operator_general formula Hlast) as [Hne Hparen].
  rewrite (evaluate_general _ _ this formula Hne Hparen).
  pose proof (evaluateExpression_outcome ErrorMessages isValidCellLabel this
                (checked ErrorMessages this formula) formula
                (eq_sym (checked_memory ErrorMessages this formula))) as Hsame.
  pose proof (evaluateExpression_effect ErrorMessages isValidCellLabel
                (checked ErrorMessages this formula) formula) as Heffect.
  destruct (evaluateExpression ErrorMessages isValidCellLabel
              (checked ErrorMessages this formula) formula) as [this' [v | m]].
  - assert (Herror : _errorMessage this' = invalidFormula ErrorMessages).
    { destruct Heffect as [-> | ->]; [ | reflexivity ].
      unfold checked. rewrite Hlast. reflexivity. }
    split.
    + unfold error. cbn [setResult _errorMessage]. rewrite Herror. exact Hmessage.
    + intros v' Hv. rewrite Hv in Hsame. simpl in Hsame.
      injection Hsame as ->. split; [ exact Herror | reflexivity ].
  - split; [ | intros v Hv; rewrite Hv in Hsame; discriminate Hsame ].
    unfold error.
    destruct (JS.truthyString (_errorMessage this')) eqn:Htruthy; cbn [negb].
    + intros Hempty. rewrite Hempty in Htruthy. discriminate Htruthy.
    + exact Hmessage.
Qed.

(** X3.  A formula whose last token is an operator never evaluates
    successfully: the error is set when [evaluate] returns, and it is
    [invalidFormula] whenever [evaluateExpression] has returned a value,
    which [evaluate] stores.  The table is assumed to give
    [invalidFormula] a non-empty text. *)
Theorem trailing_operator_fails (this : FormulaEvaluator)
  (formula : list string) :
  invalidFormula ErrorMessages <> "" ->
  isOperatorAt (lastToken formula) = true ->
  error (evaluate ErrorMessages isValidCellLabel this formula) <> ""
  /\ (forall v,
         snd (evaluateExpression ErrorMessages isValidCellLabel this formula)
         = Ok v ->
         error (evaluate ErrorMessages isValidCellLabel this formula)
         = invalidFormula ErrorMessages
         /\ result (evaluate ErrorMessages isValidCellLabel this formula) = v).
Proof.
  apply evaluate_trailing_operator.
Qed.

(** X4.  An empty error after [evaluate] means that the evaluation went
    all the way: the loop scanned every token without returning or
    throwing, the last token is not an operator, and the result is the
    value [evaluateExpression] returned.  The table is assumed to give
    [emptyFormula], [missingParentheses] and [invalidFormula] non-empty
    texts. *)
Theorem empty_error_means_success (this : FormulaEvaluator)
  (formula : list string) :
  emptyFormula ErrorMessages <> "" ->
  missingParentheses ErrorMessages <> "" ->
  invalidFormula ErrorMessages <> "" ->
  error (evaluate ErrorMessages isValidCellLabel this formula) = "" ->
  (exists values operators,
      snd (scan ErrorMessages isValidCellLabel this formula None [] [])
      = Continue values operators)
  /\ isOperatorAt (lastToken formula) = false
  /\ snd (evaluateExpression ErrorMessages isValidCellLabel this formula)
     = Ok (result (evaluate ErrorMessages isValidCellLabel this formula)).
Proof.
  intros Hempty Hparens Hinvalid Herror.
  destruct formula as [ | first rest ] eqn:Hformula; [ contradiction | ].
  rewrite <- Hformula in *.
  assert (Hne : formula <> []) by (subst; discriminate).
  clear Hformula first rest.
  destruct (list_eq_dec string_dec formula ["("; ")"]) as [-> | Hparen];
    [ contradiction | ].
  destruct (isOperatorAt (lastToken formula)) eqn:Hlast.
  { destruct (evaluate_trailing_operator this formula Hinvalid Hlast)
      as [Hfails _].
    contradiction. }
  rewrite (evaluate_general _ _ this formula Hne Hparen) in *.
  pose proof (evaluateExpression_outcome ErrorMessages isValidCellLabel this
                (checked ErrorMessages this formula) formula
                (eq_sym (checked_memory ErrorMessages this formula))) as Hsame.
  pose proof (scan_outcome ErrorMessages isValidCellLabel this
                (checked ErrorMessages this formula) formula None [] []
                (eq_sym (checked_memory ErrorMessages this formula))) as Hscans.
  unfold evaluateExpression in Herror.
  unfold evaluateExpression at 2 in Hsame.
  unfold evaluateExpression at 2.
  pose proof (scan_effect ErrorMessages isValidCellLabel
                (checked ErrorMessages this formula) formula None [] []) as Heffect.
  destruct (scan ErrorMessages isValidCellLabel
              (checked ErrorMessages this formula) formula None [] [])
    as [this' [values operators | v | m]].
  - subst this'. split; [ exists values, operators; exact Hscans | ].
    split; [ reflexivity | ].
    rewrite Hlast in Herror, Hsame |- *.
    destruct ((0 <? List.length operators)%nat
              && (negb (isOperatorAt (peek operators))
                  || (List.length values <? 2)%nat)).
    { exfalso. cbn in Herror.
      destruct (invalidFormula ErrorMessages); [ contradiction | discriminate ]. }
    pose proof (applyRemaining_effect ErrorMessages
                  (checked ErrorMessages this formula) operators values) as Hloop.
    destruct (applyRemaining ErrorMessages (checked ErrorMessages this formula)
                operators values) as [this' [values' | m]].
    + exact Hsame.
    + exfalso. unfold error in Herror.
      destruct (JS.truthyString (_errorMessage this')) eqn:Htruthy;
        cbn [negb] in Herror.
      * rewrite Herror in Htruthy. discriminate Htruthy.
      * apply Hinvalid. exact Herror.
  - exfalso. subst this'. apply Hinvalid. exact Herror.
  - exfalso. unfold error in Herror.
    destruct (JS.truthyString (_errorMessage this')) eqn:Htruthy;
      cbn [negb] in Herror.
    + rewrite Herror in Htruthy. discriminate Htruthy.
    + apply Hinvalid. exact Herror.
Qed.

End Success.

Lemma trailing_operator_fails_sample :
  (invalidFormula sampleMessages <> ""
   /\ isOperatorAt (lastToken ["3"; "+"]) = true)
  /\ error (evaluate sampleMessages sampleIsValidCellLabel sampleEvaluator
              ["3"; "+"]) <> "".
Proof.
  split.
  - split; [ discriminate | reflexivity ].
  - exact (proj1 (trailing_operator_fails sampleMessages sampleIsValidCellLabel
                    sampleEvaluator ["3"; "+"]
                    ltac:(discriminate) eq_refl)).
Defined.

Lemma empty_error_means_success_sample :
  (emptyFormula sampleMessages <> ""
   /\ missingParentheses sampleMessages <> ""
   /\ invalidFormula sampleMessages <> ""
   /\ error (evaluate sampleMessages sampleIsValidCellLabel sampleEvaluator
               ["2"; "*"; "A1"]) = "")
  /\ snd (evaluateExpression sampleMessages sampleIsValidCellLabel
            sampleEvaluator ["2"; "*"; "A1"])
     = Ok (result (evaluate sampleMessages sampleIsValidCellLabel
                     sampleEvaluator ["2"; "*"; "A1"])).
Proof.
  split.
  - split; [ discriminate | ]. split; [ discriminate | ].
    split; [ discriminate | vm_compute; reflexivity ].
  - exact (proj2 (proj2 (empty_error_means_success sampleMessages
                           sampleIsValidCellLabel sampleEvaluator
                           ["2"; "*"; "A1"]
                           ltac:(discriminate) ltac:(discriminate)
                           ltac:(discriminate)
                           ltac:(vm_compute; reflexivity)))).
Defined.

(* ================================================================== *)
(** ** The stored result is a number *)

Section Numeric.

Variable ErrorMessages : ErrorMessagesT.
Variable isValidCellLabel : string -> bool.

Lemma scanToken_returns_number this token next values operators v :
  snd (scanToken ErrorMessages isValidCellLabel this token next values operators)
  = Return v ->
  JS.isNaN v = false.
Proof.
  unfold scanToken.
  destruct (isNumber token) eqn:Hnum.
  { destruct (nextIs _ next); [ | discriminate ].
    simpl. intros [= <-]. unfold isNumber in Hnum.
    apply negb_true_iff in Hnum. exact Hnum. }
  destruct (isCellReference isValidCellLabel token).
  { destruct (getCellValue ErrorMessages this token) as [value e].
    destruct (JS.truthyString e); discriminate. }
  destruct (token =? "("); [ discriminate | ].
  destruct (token =? ")").
  { destruct (applyUntilOpenParen ErrorMessages this operators values)
      as [this' [[operators' values'] | m]]; discriminate. }
  destruct (isOperator token); [ | discriminate ].
  destruct (nextIs isOperator next).
  - simpl. intros [= <-]. apply orZero_not_NaN.
  - destruct (applyWhilePrecedence ErrorMessages this token operators values)
      as [this' [[operators' values'] | m]]; discriminate.
Qed.

Lemma scan_returns_number tokens after v :
  forall this values operators,
    snd (scan ErrorMessages isValidCellLabel this tokens after values operators)
    = Return v ->
    JS.isNaN v = false.
Proof.
  induction tokens as [ | token rest IH ]; intros this values operators.
  - discriminate.
  - cbn [scan].
    pose proof (scanToken_returns_number this token
                  (match rest with [] => after | t :: _ => Some t end)
                  values operators v) as Hturn.
    destruct (scanToken ErrorMessages isValidCellLabel this token
                (match rest with [] => after | t :: _ => Some t end)
                values operators) as [this' [values' operators' | v' | m]].
    + apply IH.
    + exact Hturn.
    + discriminate.
Qed.

Lemma evaluateExpression_returns_number this tokens v :
  snd (evaluateExpression ErrorMessages isValidCellLabel this tokens) = Ok v ->
  JS.isNaN v = false.
Proof.
  unfold evaluateExpression.
  pose proof (scan_returns_number tokens None v this [] []) as Hscan.
  destruct (scan ErrorMessages isValidCellLabel this tokens None [] [])
    as [this' [values operators | v' | m]].
  - destruct (isOperatorAt (lastToken tokens)).
    { simpl. intros [= <-]. apply orZero_not_NaN. }
    destruct ((0 <? List.length operators)%nat && _); [ discriminate | ].
    destruct (applyRemaining ErrorMessages this' operators values)
      as [this'' [values' | m]]; [ | discriminate ].
    simpl. intros [= <-]. apply orZero_not_NaN.
  - simpl in *. intros [= <-]. apply Hscan. reflexivity.
  - discriminate.
Qed.

Lemma evaluate_keeps_number this formula :
  JS.isNaN (result this) = false ->
  JS.isNaN (result (evaluate ErrorMessages isValidCellLabel this formula)) = false.
Proof.
  intros Hnumber.
  destruct formula as [ | first rest ] eqn:Hformula; [ exact Hnumber | ].
  rewrite <- Hformula.
  assert (Hne : formula <> []) by (subst; discriminate).
  clear Hformula first rest.
  destruct (list_eq_dec string_dec formula ["("; ")"]) as [-> | Hparen];
    [ exact Hnumber | ].
  rewrite (evaluate_general _ _ this formula Hne Hparen).
  pose proof (evaluateExpression_returns_number
                (checked ErrorMessages this formula) formula) as Hreturned.
  pose proof (evaluateExpression_effect ErrorMessages isValidCellLabel
                (checked ErrorMessages this formula) formula) as Heffect.
  destruct (evaluateExpression ErrorMessages isValidCellLabel
              (checked ErrorMessages this formula) formula) as [this' [v | m]].
  - apply Hreturned. reflexivity.
  - assert (Hkept : JS.isNaN (_result this') = false).
    { inversion Heffect; subst; try reflexivity;
        cbn [setErrorMessage _result]; rewrite checked_result; exact Hnumber. }
    destruct (negb _); exact Hkept.
Qed.

(** X5.  The stored result is never NaN: [evaluate] keeps a result that is
    a number a number, so an evaluator made by the constructor reports a
    number after any sequence of evaluations, also of formulas on which the
    arithmetic has produced NaN on the way. *)
Theorem result_is_never_NaN :
  (forall this formula,
      JS.isNaN (result this) = false ->
      JS.isNaN (result (evaluate ErrorMessages isValidCellLabel this formula))
      = false)
  /\ (forall memory formulas,
         JS.isNaN
           (result (fold_left (evaluate ErrorMessages isValidCellLabel)
                      formulas (constructor memory)))
         = false).
Proof.
  split; [ exact evaluate_keeps_number | ].
  intros memory formulas.
  assert (Hstart : JS.isNaN (result (constructor memory)) = false)
    by reflexivity.
  revert Hstart. generalize (constructor memory).
  induction formulas as [ | formula rest IH ]; intros this Hnumber.
  - exact Hnumber.
  - cbn [fold_left]. apply IH. apply evaluate_keeps_number. exact Hnumber.
Qed.

End Numeric.

(* ================================================================== *)
(** ** More failures met during the scan, and cell references *)

Section Cells.

Variable ErrorMessages : ErrorMessagesT.
Variable isValidCellLabel : string -> bool.

Lemma number_formula_general pre token post :
  isNumber token = true ->
  pre ++ token :: "(" :: post <> [] /\ pre ++ token :: "(" :: post <> ["("; ")"].
Proof.
  intros Hnum. split.
  - destruct pre; discriminate.
  - destruct pre as [ | a [ | b pre' ] ]; simpl; intros Heq.
    + injection Heq as -> _. vm_compute in Hnum. discriminate Hnum.
    + injection Heq as _ _ Heq. discriminate Heq.
    + injection Heq as _ _ Heq. destruct pre'; discriminate Heq.
Qed.

Lemma label_formula_general pre token post :
  symbolsAreNotLabels isValidCellLabel ->
  isCellReference isValidCellLabel token = true ->
  pre ++ token :: post <> [] /\ pre ++ token :: post <> ["("; ")"].
Proof.
  intros Hsym Hlabel. split.
  - destruct pre; discriminate.
  - intros Heq.
    assert (Hin : In token ["("; ")"]).
    { rewrite <- Heq. apply in_or_app. right. left. reflexivity. }
    unfold isCellReference in Hlabel.
    rewrite (Hsym token) in Hlabel; [ discriminate | ].
    simpl in Hin. simpl. tauto.
Qed.

(** X6.  When the scan reaches a number token that is directly followed by
    an opening parenthesis, [evaluateExpression] returns at that token: the
    error is [invalidFormula] and the result is the number. *)
Theorem number_before_parenthesis (this : FormulaEvaluator)
  (pre : list string) (token : string) (post : list string)
  (values : list float) (operators : list string) :
  isNumber token = true ->
  snd (scan ErrorMessages isValidCellLabel this pre (Some token) [] [])
  = Continue values operators ->
  error (evaluate ErrorMessages isValidCellLabel this
           (pre ++ token :: "(" :: post))
  = invalidFormula ErrorMessages
  /\ result (evaluate ErrorMessages isValidCellLabel this
               (pre ++ token :: "(" :: post))
     = JS.Number token
  /\ snd (scan ErrorMessages isValidCellLabel this
            (pre ++ token :: "(" :: post) None [] [])
     = Return (JS.Number token).
Proof.
  intros Hnum Hscan.
  destruct (number_formula_general pre token post Hnum) as [Hne Hparen].
  assert (Hloop : forall this0, _sheetMemory this0 = _sheetMemory this ->
            scan ErrorMessages isValidCellLabel this0
              (pre ++ token :: "(" :: post) None [] []
            = (setErrorMessage this0 (invalidFormula ErrorMessages),
               Return (JS.Number token))).
  { intros this0 Hmem.
    rewrite scan_app,
      (scan_reaches _ _ this this0 pre _ [] [] values operators Hscan Hmem).
    cbn [scan]. rewrite scanToken_number_paren by exact Hnum. reflexivity. }
  rewrite (evaluate_general _ _ this _ Hne Hparen).
  unfold evaluateExpression.
  rewrite (Hloop (checked ErrorMessages this _)) by apply checked_memory.
  rewrite (Hloop this eq_refl).
  repeat split; reflexivity.
Qed.

(** The turn of a cell reference, by what the cell holds. *)
Lemma getCellValue_empty this token :
  (getError (getCellByLabel (_sheetMemory this) token) = ""
   \/ getError (getCellByLabel (_sheetMemory this) token)
      = emptyFormula ErrorMessages) ->
  getCellValue ErrorMessages this token
  = if (List.length (getFormula (getCellByLabel (_sheetMemory this) token)) =? 0)%nat
    then (zero, invalidCell ErrorMessages)
    else (getValue (getCellByLabel (_sheetMemory this) token), "").
Proof.
  intros Hstored. unfold getCellValue.
  destruct Hstored as [-> | ->]; [ reflexivity | ].
  rewrite String.eqb_refl, andb_false_r. reflexivity.
Qed.

(** X7.  When the scan reaches a reference to a cell whose formula is empty
    and whose stored error is empty or [emptyFormula], the evaluation ends
    there in [Error("Invalid cell reference")]: the error is [invalidCell]
    and the stored result is not touched.  The table is assumed to give
    [invalidCell] a non-empty text. *)
Theorem empty_cell_is_invalid (this : FormulaEvaluator)
  (pre : list string) (token : string) (post : list string)
  (values : list float) (operators : list string) :
  symbolsAreNotLabels isValidCellLabel ->
  invalidCell ErrorMessages <> "" ->
  isNumber token = false ->
  isCellReference isValidCellLabel token = true ->
  getFormula (getCellByLabel (_sheetMemory this) token) = [] ->
  (getError (getCellByLabel (_sheetMemory this) token) = ""
   \/ getError (getCellByLabel (_sheetMemory this) token)
      = emptyFormula ErrorMessages) ->
  snd (scan ErrorMessages isValidCellLabel this pre (Some token) [] [])
  = Continue values operators ->
  error (evaluate ErrorMessages isValidCellLabel this (pre ++ token :: post))
  = invalidCell ErrorMessages
  /\ result (evaluate ErrorMessages isValidCellLabel this (pre ++ token :: post))
     = result this
  /\ snd (evaluateExpression ErrorMessages isValidCellLabel this
            (pre ++ token :: post))
     = Throw "Invalid cell reference".
Proof.
  intros Hsym Hmessage Hnum Hlabel Hformula Hstored Hscan.
  destruct (label_formula_general pre token post Hsym Hlabel) as [Hne Hparen].
  assert (Htruthy : JS.truthyString (invalidCell ErrorMessages) = true).
  { destruct (invalidCell ErrorMessages); [ contradiction | reflexivity ]. }
  assert (Hexpr : forall this0, _sheetMemory this0 = _sheetMemory this ->
            evaluateExpression ErrorMessages isValidCellLabel this0
              (pre ++ token :: post)
            = (setErrorMessage this0 (invalidCell ErrorMessages),
               Throw "Invalid cell reference")).
  { intros this0 Hmem. unfold evaluateExpression.
    rewrite scan_app,
      (scan_reaches _ _ this this0 pre _ [] [] values operators Hscan Hmem).
    cbn [scan]. unfold scanToken. rewrite Hnum, Hlabel.
    rewrite getCellValue_empty by (rewrite Hmem; exact Hstored).
    rewrite Hmem, Hformula. cbn [List.length Nat.eqb].
    rewrite Htruthy. reflexivity. }
  rewrite (evaluate_general _ _ this _ Hne Hparen).
  rewrite (Hexpr (checked ErrorMessages this _)) by apply checked_memory.
  rewrite (Hexpr this eq_refl).
  cbn [_errorMessage setErrorMessage]. rewrite Htruthy. cbn [negb].
  split; [ reflexivity | ]. split; [ apply checked_result | reflexivity ].
Qed.

(** X8.  A reference to a cell that has a formula and whose stored error is
    empty or [emptyFormula] stands for the cell's value: its turn pushes
    [getValue()] and changes nothing else, and the formula made of that one
    reference evaluates to the value (0 for a value that is 0 or NaN) with
    an empty error. *)
Theorem cell_reference_value (this : FormulaEvaluator) (token : string) :
  symbolsAreNotLabels isValidCellLabel ->
  isNumber token = false ->
  isCellReference isValidCellLabel token = true ->
  getFormula (getCellByLabel (_sheetMemory this) token) <> [] ->
  (getError (getCellByLabel (_sheetMemory this) token) = ""
   \/ getError (getCellByLabel (_sheetMemory this) token)
      = emptyFormula ErrorMessages) ->
  (forall next values operators,
      scanToken ErrorMessages isValidCellLabel this token next values operators
      = (this,
         Continue (getValue (getCellByLabel (_sheetMemory this) token) :: values)
           operators))
  /\ result (evaluate ErrorMessages isValidCellLabel this [token])
     = JS.orZero (Some (getValue (getCellByLabel (_sheetMemory this) token)))
  /\ error (evaluate ErrorMessages isValidCellLabel this [token]) = "".
Proof.
  intros Hsym Hnum Hlabel Hformula Hstored.
  assert (Hturn : forall this0 next values operators,
            _sheetMemory this0 = _sheetMemory this ->
            scanToken ErrorMessages isValidCellLabel this0 token next values operators
            = (this0,
               Continue (getValue (getCellByLabel (_sheetMemory this) token)
                         :: values) operators)).
  { intros this0 next values operators Hmem. unfold scanToken.
    rewrite Hnum, Hlabel.
    rewrite getCellValue_empty by (rewrite Hmem; exact Hstored).
    rewrite Hmem.
    destruct (getFormula (getCellByLabel (_sheetMemory this) token));
      [ contradiction | reflexivity ]. }
  split; [ intros next values operators; apply Hturn; reflexivity | ].
  assert (Hop : isOperator token = false).
  { destruct (isOperator token) eqn:Hop; [ | reflexivity ].
    unfold isCellReference in Hlabel.
    rewrite (operator_not_label isValidCellLabel token Hsym Hop) in Hlabel.
    discriminate Hlabel. }
  rewrite evaluate_general by discriminate.
  unfold evaluateExpression, checked. cbn [scan lastToken isOperatorAt].
  rewrite Hop, Hturn by reflexivity.
  split; reflexivity.
Qed.

End Cells.

Lemma number_before_parenthesis_sample :
  (isNumber "3" = true
   /\ snd (scan sampleMessages sampleIsValidCellLabel sampleEvaluator
             ["2"; "*"] (Some "3") [] [])
      = Continue [2%float] ["*"])
  /\ error (evaluate sampleMessages sampleIsValidCellLabel sampleEvaluator
              ["2"; "*"; "3"; "("; "4"; ")"])
     = invalidFormula sampleMessages
  /\ result (evaluate sampleMessages sampleIsValidCellLabel sampleEvaluator
               ["2"; "*"; "3"; "("; "4"; ")"])
     = 3%float.
Proof.
  split.
  - split; vm_compute; reflexivity.
  - pose proof (number_before_parenthesis sampleMessages sampleIsValidCellLabel
                  sampleEvaluator ["2"; "*"] "3" ["4"; ")"] [2%float] ["*"]
                  ltac:(vm_compute; reflexivity)
                  ltac:(vm_compute; reflexivity)) as (Herror & Hresult & _).
    split; [ exact Herror | ].
    etransitivity; [ exact Hresult | vm_compute; reflexivity ].
Defined.

Lemma empty_cell_is_invalid_sample :
  (symbolsAreNotLabels sampleIsValidCellLabel
   /\ invalidCell sampleMessages <> ""
   /\ isNumber "C3" = false
   /\ isCellReference sampleIsValidCellLabel "C3" = true
   /\ getFormula (getCellByLabel (_sheetMemory sampleEvaluator) "C3") = []
   /\ getError (getCellByLabel (_sheetMemory sampleEvaluator) "C3")
      = emptyFormula sampleMessages
   /\ snd (scan sampleMessages sampleIsValidCellLabel sampleEvaluator
             ["1"; "+"] (Some "C3") [] [])
      = Continue [1%float] ["+"])
  /\ error (evaluate sampleMessages sampleIsValidCellLabel sampleEvaluator
              ["1"; "+"; "C3"]) = invalidCell sampleMessages
  /\ result (evaluate sampleMessages sampleIsValidCellLabel sampleEvaluator
               ["1"; "+"; "C3"]) = result sampleEvaluator.
Proof.
  split.
  - split; [ exact symbols_sample | ].
    split; [ discriminate | ].
    vm_compute. repeat split.
  - pose proof (empty_cell_is_invalid sampleMessages sampleIsValidCellLabel
                  sampleEvaluator ["1"; "+"] "C3" [] [1%float] ["+"]
                  symbols_sample ltac:(discriminate)
                  ltac:(vm_compute; reflexivity) eq_refl eq_refl
                  (or_intror eq_refl)
                  ltac:(vm_compute; reflexivity)) as (Herror & Hresult & _).
    split; [ exact Herror | exact Hresult ].
Defined.

Lemma cell_reference_value_sample :
  (symbolsAreNotLabels sampleIsValidCellLabel
   /\ isNumber "A1" = false
   /\ isCellReference sampleIsValidCellLabel "A1" = true
   /\ getFormula (getCellByLabel (_sheetMemory sampleEvaluator) "A1") <> []
   /\ getError (getCellByLabel (_sheetMemory sampleEvaluator) "A1") = "")
  /\ result (evaluate sampleMessages sampleIsValidCellLabel sampleEvaluator
               ["A1"]) = 5%float
  /\ error (evaluate sampleMessages sampleIsValidCellLabel sampleEvaluator
              ["A1"]) = "".
Proof.
  split.
  - split; [ exact symbols_sample | ].
    split; [ vm_compute; reflexivity | ].
    split; [ reflexivity | ].
    split; [ discriminate | reflexivity ].
  - exact (proj2 (cell_reference_value sampleMessages sampleIsValidCellLabel
                    sampleEvaluator "A1" symbols_sample
                    ltac:(vm_compute; reflexivity) eq_refl
                    ltac:(discriminate) (or_introl eq_refl))).
Defined.

(* ================================================================== *)
(** ** Formulas with a division by zero, and malformed variants *)

Combined Scheme formula_mutual from sum_mutual, term_mutual, factor_mutual.

Section Formulas.

Variable ErrorMessages : ErrorMessagesT.
Variable isValidCellLabel : string -> bool.

Lemma applyRemaining_returns this waiting values r :
  snd (applyRemaining ErrorMessages this waiting values) = Ok r ->
  applyRemaining ErrorMessages this waiting values = (this, Ok r).
Proof.
  intros Hsnd.
  pose proof (applyRemaining_effect ErrorMessages this waiting values) as Heffect.
  destruct (applyRemaining ErrorMessages this waiting values) as [this' o].
  simpl in Hsnd. subst o. subst this'. reflexivity.
Qed.

Lemma scan_continues this tokens after values0 operators0 values operators :
  snd (scan ErrorMessages isValidCellLabel this tokens after values0 operators0)
  = Continue values operators ->
  scan ErrorMessages isValidCellLabel this tokens after values0 operators0
  = (this, Continue values operators).
Proof.
  intros Hsnd.
  exact (scan_reaches _ _ this this tokens after values0 operators0
           values operators Hsnd eq_refl).
Qed.

(** A waiting operator that throws makes the loop that applies it throw. *)
Lemma applyWhilePrecedence_throws this token waiting operators message :
  Forall (fun o => isOperator o = true
                   /\ (getOperatorPrecedence token <= getOperatorPrecedence o)%nat)
    waiting ->
  forall values,
    snd (applyRemaining ErrorMessages this waiting values) = Throw message ->
    snd (applyWhilePrecedence ErrorMessages this token (waiting ++ operators) values)
    = Throw message.
Proof.
  intros Hall.
  induction Hall as [ | o waiting [_ Ho] Hall IH ]; intros values Hthrow.
  - discriminate Hthrow.
  - cbn [app applyWhilePrecedence applyRemaining] in *.
    apply Nat.leb_le in Ho. rewrite Ho.
    pose proof (applyOperator_effect ErrorMessages this o values) as Heffect.
    destruct (applyOperator ErrorMessages this o values) as [this' [values' | m]].
    + subst this'. apply IH. exact Hthrow.
    + simpl in Hthrow. injection Hthrow as ->. reflexivity.
Qed.

Lemma applyUntilOpenParen_throws this (p : nat) waiting operators message :
  Forall (fun o => isOperator o = true
                   /\ (p <= getOperatorPrecedence o)%nat) waiting ->
  forall values,
    snd (applyRemaining ErrorMessages this waiting values) = Throw message ->
    snd (applyUntilOpenParen ErrorMessages this (waiting ++ operators) values)
    = Throw message.
Proof.
  intros Hall.
  induction Hall as [ | o waiting [Ho _] Hall IH ]; intros values Hthrow.
  - discriminate Hthrow.
  - cbn [app applyUntilOpenParen applyRemaining] in *.
    destruct (isOperator_not_paren o Ho) as [-> _]. cbn [negb].
    pose proof (applyOperator_effect ErrorMessages this o values) as Heffect.
    destruct (applyOperator ErrorMessages this o values) as [this' [values' | m]].
    + subst this'. apply IH. exact Hthrow.
    + simpl in Hthrow. injection Hthrow as ->. reflexivity.
Qed.

Lemma scansTo_weaken (p q : nat) (tokens : list string) (r : option float) :
  (p <= q)%nat ->
  scansTo ErrorMessages isValidCellLabel q tokens r ->
  scansTo ErrorMessages isValidCellLabel p tokens r.
Proof.
  intros Hle Hscans this after values operators Hafter Hstop.
  destruct (Hscans this after values operators Hafter) as
    [Hraise | (values' & waiting & Hscan & Hall & Hreduce & Hlength)].
  { destruct operators as [ | top rest ]; simpl in *; [ exact I | lia ]. }
  - left. exact Hraise.
  - right. exists values', waiting. split; [ exact Hscan | ].
    split; [ | split; assumption ].
    eapply Forall_impl; [ | exact Hall ].
    intros o [Ho Hq]. split; [ exact Ho | lia ].
Qed.

(** [left op right] when either side, or the operation itself, may divide
    by zero. *)
Lemma scansTo_binary (p : nat) (left right : list string) (op : string)
  (rl rr : option float) (f : float -> float -> option float) :
  symbolsAreNotLabels isValidCellLabel ->
  isOperator op = true ->
  getOperatorPrecedence op = p ->
  scansTo ErrorMessages isValidCellLabel p left rl ->
  scansTo ErrorMessages isValidCellLabel (S p) right rr ->
  (exists first rest, right = first :: rest /\ isOperator first = false) ->
  (forall this x y values,
      snd (applyOperator ErrorMessages this op (y :: x :: values))
      = match f x y with
        | Some r => Ok (r :: values)
        | None => Throw "Division by zero"
        end) ->
  scansTo ErrorMessages isValidCellLabel p (left ++ op :: right)
    (match rl, rr with
     | Some x, Some y => f x y
     | _, _ => None
     end).
Proof.
  intros Hsym Hop Hprec Hleft Hright (first & rest & Hhead & Hfirst) Happly.
  intros this after values operators Hafter Hstop.
  assert (Hnext : nextIs isOperator
                    (match right with [] => after | t :: _ => Some t end)
                  = false).
  { rewrite Hhead. exact Hfirst. }
  rewrite scan_app.
  destruct (Hleft this (Some op) values operators) as
    [[Hnone Hraise] | (values1 & waiting1 & Hscan1 & Hall1 & Hreduce1 & Hlength1)].
  { cbn [nextIs]. apply (isOperator_not_paren op Hop). }
  { exact Hstop. }
  { left. rewrite Hnone. split; [ reflexivity | ].
    destruct (scan ErrorMessages isValidCellLabel this left (Some op)
                values operators) as [this' c].
    simpl in Hraise. subst c. reflexivity. }
  rewrite (scan_continues _ _ _ _ _ _ _ Hscan1). cbn [scan].
  rewrite (scanToken_operator _ _ this op _ _ _ Hsym Hop), Hnext.
  destruct rl as [x | ].
  - rewrite (applyWhilePrecedence_waiting _ this op waiting1 operators values1
               (x :: values)).
    2:{ rewrite Hprec. exact Hall1. }
    2:{ rewrite Hprec. exact Hstop. }
    2:{ apply applyRemaining_returns. apply Hreduce1. }
    unfold push.
    destruct (Hright this after (x :: values) (op :: operators) Hafter) as
      [[Hnone Hraise]
      | (values2 & waiting2 & Hscan2 & Hall2 & Hreduce2 & Hlength2)].
    { cbn [stopsBelow]. rewrite Hprec. apply Nat.lt_succ_diag_r. }
    { left. rewrite Hnone. split; [ reflexivity | exact Hraise ]. }
    right. exists values2, (waiting2 ++ [op]). split.
    { rewrite Hscan2, <- app_assoc. reflexivity. }
    split; [ | split ].
    + apply Forall_app. split.
      * eapply Forall_impl; [ | exact Hall2 ].
        intros o [Ho Hle]. split; [ exact Ho | ].
        apply Nat.le_trans with (S p); [ apply Nat.le_succ_diag_r | exact Hle ].
      * constructor; [ | constructor ]. split; [ exact Hop | ].
        rewrite Hprec. apply Nat.le_refl.
    + intros this0. rewrite applyRemaining_app.
      specialize (Hreduce2 this0).
      destruct rr as [y | ].
      * rewrite (applyRemaining_returns _ _ _ _ Hreduce2).
        cbn [applyRemaining].
        pose proof (Happly this0 x y values) as Hcall.
        pose proof (applyOperator_effect ErrorMessages this0 op
                      (y :: x :: values)) as Heffect.
        destruct (applyOperator ErrorMessages this0 op (y :: x :: values))
          as [this' [values' | m]]; simpl in Hcall.
        -- destruct (f x y); [ | discriminate Hcall ].
           injection Hcall as ->. reflexivity.
        -- destruct (f x y); [ discriminate Hcall | exact Hcall ].
      * destruct (applyRemaining ErrorMessages this0 waiting2 values2)
          as [this' [values' | m]]; simpl in Hreduce2;
          [ discriminate Hreduce2 | exact Hreduce2 ].
    + rewrite Hlength2, length_app. simpl. lia.
  - left. split; [ reflexivity | ].
    pose proof (applyWhilePrecedence_throws this op waiting1 operators
                  "Division by zero") as Hloop.
    rewrite Hprec in Hloop. specialize (Hloop Hall1 values1 (Hreduce1 this)).
    destruct (applyWhilePrecedence ErrorMessages this op
                (waiting1 ++ operators) values1)
      as [this' [[operators' values'] | m]]; simpl in Hloop;
      [ discriminate Hloop | ].
    injection Hloop as ->. reflexivity.
Qed.

(** The scan of a formula, of a term and of a factor, whatever their
    values. *)
Lemma scansTo_formula :
  symbolsAreNotLabels isValidCellLabel ->
  (forall s, literalsOfSum s = true ->
             scansTo ErrorMessages isValidCellLabel 1 (tokensOfSum s)
               (valueOfSum s))
  /\ (forall t, literalsOfTerm t = true ->
                scansTo ErrorMessages isValidCellLabel 2 (tokensOfTerm t)
                  (valueOfTerm t))
  /\ (forall f, literalsOfFactor f = true ->
                scansTo ErrorMessages isValidCellLabel 3 (tokensOfFactor f)
                  (valueOfFactor f)).
Proof.
  intros Hsym.
  apply (formula_mutual
    (fun s => literalsOfSum s = true ->
              scansTo ErrorMessages isValidCellLabel 1 (tokensOfSum s)
                (valueOfSum s))
    (fun t => literalsOfTerm t = true ->
              scansTo ErrorMessages isValidCellLabel 2 (tokensOfTerm t)
                (valueOfTerm t))
    (fun f => literalsOfFactor f = true ->
              scansTo ErrorMessages isValidCellLabel 3 (tokensOfFactor f)
                (valueOfFactor f))).
  - (* Term *)
    intros t IHt Hlit. apply scansTo_weaken with 2; [ lia | ].
    apply IHt. exact Hlit.
  - (* Add *)
    intros s IHs t IHt Hlit. simpl in Hlit.
    apply andb_true_iff in Hlit. destruct Hlit as [Hs Ht].
    apply (scansTo_binary 1 (tokensOfSum s) (tokensOfTerm t) "+"
             (valueOfSum s) (valueOfTerm t)
             (fun x y => Some (x + y)%float)); auto.
    apply tokensOfTerm_head. exact Ht.
  - (* Sub *)
    intros s IHs t IHt Hlit. simpl in Hlit.
    apply andb_true_iff in Hlit. destruct Hlit as [Hs Ht].
    apply (scansTo_binary 1 (tokensOfSum s) (tokensOfTerm t) "-"
             (valueOfSum s) (valueOfTerm t)
             (fun x y => Some (x - y)%float)); auto.
    apply tokensOfTerm_head. exact Ht.
  - (* Factor *)
    intros f IHf Hlit. apply scansTo_weaken with 3; [ lia | ].
    apply IHf. exact Hlit.
  - (* Mul *)
    intros t IHt f IHf Hlit. simpl in Hlit.
    apply andb_true_iff in Hlit. destruct Hlit as [Ht Hf].
    apply (scansTo_binary 2 (tokensOfTerm t) (tokensOfFactor f) "*"
             (valueOfTerm t) (valueOfFactor f)
             (fun x y => Some (x * y)%float)); auto.
    apply tokensOfFactor_head. exact Hf.
  - (* Div *)
    intros t IHt f IHf Hlit. simpl in Hlit.
    apply andb_true_iff in Hlit. destruct Hlit as [Ht Hf].
    apply (scansTo_binary 2 (tokensOfTerm t) (tokensOfFactor f) "/"
             (valueOfTerm t) (valueOfFactor f)
             (fun x y => if PrimFloat.eqb y zero then None
                         else Some (x / y)%float)); auto.
    + apply tokensOfFactor_head. exact Hf.
    + intros this x y values. unfold applyOperator.
      cbn [pop String.eqb Ascii.eqb Bool.eqb JS.strictEqualsZero].
      destruct (PrimFloat.eqb y zero); reflexivity.
  - (* Literal *)
    intros token Hlit. simpl in Hlit.
    intros this after values operators Hafter _.
    right. exists (JS.Number token :: values), []. split.
    + cbn [tokensOfFactor scan].
      rewrite scanToken_number by assumption. reflexivity.
    + split; [ constructor | ]. split; [ reflexivity | simpl; lia ].
  - (* Parenthesized *)
    intros s IHs Hlit. simpl in Hlit.
    intros this after values operators _ _.
    cbn [tokensOfFactor valueOfFactor scan].
    rewrite (scanToken_openParen _ _ this _ values operators Hsym), scan_app.
    destruct (IHs Hlit this (Some ")") values ("(" :: operators)) as
      [[Hnone Hraise]
      | (values1 & waiting1 & Hscan1 & Hall1 & Hreduce1 & Hlength1)].
    { reflexivity. }
    { change (0 < 1)%nat. lia. }
    { left. split; [ exact Hnone | ].
      destruct (scan ErrorMessages isValidCellLabel this (tokensOfSum s)
                  (Some ")") values ("(" :: operators)) as [this' c].
      simpl in Hraise. subst c. reflexivity. }
    rewrite (scan_continues _ _ _ _ _ _ _ Hscan1). cbn [scan].
    rewrite (scanToken_closeParen _ _ this after _ _ Hsym).
    destruct (valueOfSum s) as [v | ].
    + right. exists (v :: values), []. split.
      * rewrite (applyUntilOpenParen_waiting _ this 1 waiting1 operators values1
                   (v :: values) Hall1
                   (applyRemaining_returns _ _ _ _ (Hreduce1 this))).
        reflexivity.
      * split; [ constructor | ]. split; [ reflexivity | simpl; lia ].
    + left. split; [ reflexivity | ].
      pose proof (applyUntilOpenParen_throws this 1 waiting1 ("(" :: operators)
                    "Division by zero" Hall1 values1 (Hreduce1 this)) as Hloop.
      destruct (applyUntilOpenParen ErrorMessages this
                  (waiting1 ++ "(" :: operators) values1)
        as [this' [[operators' values'] | m]]; simpl in Hloop;
        [ discriminate Hloop | ].
      injection Hloop as ->. reflexivity.
Qed.

Lemma waits_shape (p : nat) values0 r values waiting :
  waits ErrorMessages p values0 r values waiting ->
  (waiting = [] -> exists v, r = Some v /\ values = v :: values0)
  /\ (waiting <> [] ->
      isOperatorAt (peek waiting) = true
      /\ (List.length values <? 2)%nat = false).
Proof.
  intros (Hall & Hreduce & Hlength). split.
  - intros ->. specialize (Hreduce (constructor {| getCellByLabel := fun _ =>
      {| getFormula := []; getError := ""; getValue := zero |} |})).
    simpl in Hreduce. destruct r as [v | ]; [ | discriminate Hreduce ].
    injection Hreduce as ->. exists v. split; reflexivity.
  - intros Hne. destruct waiting as [ | o waiting' ]; [ contradiction | ].
    inversion Hall as [ | ? ? [Ho _] ? ]; subst.
    split; [ exact Ho | ].
    apply Nat.ltb_ge. simpl in Hlength. lia.
Qed.

(** X9.  A well-formed arithmetic formula in which some division has a
    divisor equal to 0 evaluates to the division-by-zero outcome: the
    result is positive infinity and the error is [divideByZero], wherever
    that division stands in the formula.  The table is assumed to give
    [divideByZero] a non-empty text. *)
Theorem formula_with_zero_divisor (this : FormulaEvaluator) (s : sum) :
  symbolsAreNotLabels isValidCellLabel ->
  divideByZero ErrorMessages <> "" ->
  literalsOfSum s = true ->
  valueOfSum s = None ->
  result (evaluate ErrorMessages isValidCellLabel this (tokensOfSum s))
  = infinity
  /\ error (evaluate ErrorMessages isValidCellLabel this (tokensOfSum s))
     = divideByZero ErrorMessages.
Proof.
  intros Hsym Hmessage Hlit Hnone.
  apply evaluate_after_division; [ exact Hmessage | ].
  destruct (proj1 (scansTo_formula Hsym) s Hlit this None [] [] eq_refl I)
    as [[_ Hraise] | (values & waiting & Hscan & Hwaits)].
  - unfold evaluateExpression.
    destruct (scan ErrorMessages isValidCellLabel this (tokensOfSum s) None [] [])
      as [this' c].
    simpl in Hraise. subst c. reflexivity.
  - rewrite Hnone in Hwaits. rewrite app_nil_r in Hscan.
    unfold evaluateExpression.
    rewrite (scan_continues _ _ _ _ _ _ _ Hscan).
    rewrite (tokensOfSum_last s Hlit).
    destruct (waits_shape 1 [] None values waiting Hwaits) as [Hnil Hcons].
    destruct waiting as [ | o waiting' ].
    { destruct (Hnil eq_refl) as (v & Hv & _). discriminate Hv. }
    destruct (Hcons ltac:(discriminate)) as [Htop Hsize].
    rewrite Htop, Hsize. cbn [List.length Nat.ltb Nat.leb negb orb andb].
    destruct Hwaits as (_ & Hreduce & _). specialize (Hreduce this).
    destruct (applyRemaining ErrorMessages this (o :: waiting') values)
      as [this' [values' | m]]; simpl in Hreduce;
      [ discriminate Hreduce | ].
    injection Hreduce as ->. reflexivity.
Qed.

End Formulas.

Lemma formula_with_zero_divisor_sample :
  (symbolsAreNotLabels sampleIsValidCellLabel
   /\ divideByZero sampleMessages <> ""
   /\ tokensOfSum (Add (Term (Factor (Literal "1")))
                     (Div (Factor (Literal "2"))
                          (Parenthesized
                             (Sub (Term (Factor (Literal "3")))
                                  (Factor (Literal "3"))))))
      = ["1"; "+"; "2"; "/"; "("; "3"; "-"; "3"; ")"]
   /\ literalsOfSum (Add (Term (Factor (Literal "1")))
                       (Div (Factor (Literal "2"))
                            (Parenthesized
                               (Sub (Term (Factor (Literal "3")))
                                    (Factor (Literal "3"))))))
      = true
   /\ valueOfSum (Add (Term (Factor (Literal "1")))
                    (Div (Factor (Literal "2"))
                         (Parenthesized
                            (Sub (Term (Factor (Literal "3")))
                                 (Factor (Literal "3"))))))
      = None)
  /\ result (evaluate sampleMessages sampleIsValidCellLabel sampleEvaluator
               ["1"; "+"; "2"; "/"; "("; "3"; "-"; "3"; ")"]) = infinity
  /\ error (evaluate sampleMessages sampleIsValidCellLabel sampleEvaluator
              ["1"; "+"; "2"; "/"; "("; "3"; "-"; "3"; ")"])
     = divideByZero sampleMessages.
Proof.
  split.
  - split; [ exact symbols_sample | ].
    split; [ discriminate | ].
    split; [ reflexivity | ].
    split; vm_compute; reflexivity.
  - exact (formula_with_zero_divisor sampleMessages sampleIsValidCellLabel
             sampleEvaluator
             (Add (Term (Factor (Literal "1")))
                  (Div (Factor (Literal "2"))
                       (Parenthesized
                          (Sub (Term (Factor (Literal "3")))
                               (Factor (Literal "3"))))))
             symbols_sample ltac:(discriminate)
             ltac:(vm_compute; reflexivity) ltac:(vm_compute; reflexivity)).
Defined.

(* ================================================================== *)
(** ** Parentheses and operands that do not match *)

Lemma number_token_general (formula : list string) (t : string) :
  In t formula -> isNumber t = true ->
  formula <> [] /\ formula <> ["("; ")"].
Proof.
  intros Hin Hnum. split; intros ->; simpl in Hin.
  - contradiction.
  - destruct Hin as [<- | [<- | []]]; vm_compute in Hnum; discriminate Hnum.
Qed.

Lemma formula_has_number :
  (forall s, literalsOfSum s = true ->
             exists t, In t (tokensOfSum s) /\ isNumber t = true)
  /\ (forall t, literalsOfTerm t = true ->
                exists n, In n (tokensOfTerm t) /\ isNumber n = true)
  /\ (forall f, literalsOfFactor f = true ->
                exists n, In n (tokensOfFactor f) /\ isNumber n = true).
Proof.
  apply (formula_mutual
    (fun s => literalsOfSum s = true ->
              exists t, In t (tokensOfSum s) /\ isNumber t = true)
    (fun t => literalsOfTerm t = true ->
              exists n, In n (tokensOfTerm t) /\ isNumber n = true)
    (fun f => literalsOfFactor f = true ->
              exists n, In n (tokensOfFactor f) /\ isNumber n = true));
    simpl; intros.
  - auto.
  - apply andb_true_iff in H1. destruct (H (proj1 H1)) as (n & Hin & Hnum).
    exists n. split; [ apply in_or_app; left; exact Hin | exact Hnum ].
  - apply andb_true_iff in H1. destruct (H (proj1 H1)) as (n & Hin & Hnum).
    exists n. split; [ apply in_or_app; left; exact Hin | exact Hnum ].
  - auto.
  - apply andb_true_iff in H1. destruct (H (proj1 H1)) as (n & Hin & Hnum).
    exists n. split; [ apply in_or_app; left; exact Hin | exact Hnum ].
  - apply andb_true_iff in H1. destruct (H (proj1 H1)) as (n & Hin & Hnum).
    exists n. split; [ apply in_or_app; left; exact Hin | exact Hnum ].
  - exists token. split; [ left; reflexivity | assumption ].
  - destruct (H H0) as (n & Hin & Hnum).
    exists n. split; [ | exact Hnum ].
    right. apply in_or_app. left. exact Hin.
Qed.

Lemma getOperatorPrecedence_bound (t : string) :
  (getOperatorPrecedence t <= 2)%nat.
Proof.
  unfold getOperatorPrecedence.
  destruct ((t =? "+") || (t =? "-")); [ lia | ].
  destruct ((t =? "*") || (t =? "/")); lia.
Qed.

Lemma isOperator_precedence (t : string) :
  isOperator t = true -> (1 <= getOperatorPrecedence t)%nat.
Proof.
  intros H.
  destruct (isOperator_cases t H) as [-> | [-> | [-> | ->]]];
    vm_compute; lia.
Qed.

Section Malformed.

Variable ErrorMessages : ErrorMessagesT.
Variable isValidCellLabel : string -> bool.

Lemma applyUntilOpenParen_all this (p : nat) waiting values r :
  Forall (fun o => isOperator o = true
                   /\ (p <= getOperatorPrecedence o)%nat) waiting ->
  applyRemaining ErrorMessages this waiting values = (this, Ok r) ->
  applyUntilOpenParen ErrorMessages this waiting values = (this, Ok ([], r)).
Proof.
  intros Hall. revert values.
  induction Hall as [ | o waiting [Ho _] Hall IH ]; intros values Hremaining.
  - simpl in *. injection Hremaining as ->. reflexivity.
  - cbn [applyUntilOpenParen applyRemaining] in *.
    destruct (isOperator_not_paren o Ho) as [-> _]. cbn [negb].
    pose proof (applyOperator_effect ErrorMessages this o values) as Heffect.
    destruct (applyOperator ErrorMessages this o values) as [this' [values' | m]].
    + subst this'. apply IH. exact Hremaining.
    + discriminate Hremaining.
Qed.


Lemma scan_closing this (n : nat) values :
  symbolsAreNotLabels isValidCellLabel ->
  scan ErrorMessages isValidCellLabel this (repeat ")" n) None values []
  = (this, Continue values []).
Proof.
  intros Hsym. induction n as [ | n IH ]; [ reflexivity | ].
  cbn [repeat scan].
  rewrite (scanToken_closeParen _ _ this _ values [] Hsym). exact IH.
Qed.

(** The evaluation of a formula that the scan gets through with a stack of
    operators that the final check refuses or that the final loop cannot
    apply. *)
Lemma evaluate_throws this formula message e :
  formula <> [] -> formula <> ["("; ")"] ->
  (forall this0, _sheetMemory this0 = _sheetMemory this ->
     evaluateExpression ErrorMessages isValidCellLabel this0 formula
     = (setErrorMessage this0 e, Throw message)) ->
  result (evaluate ErrorMessages isValidCellLabel this formula) = result this
  /\ (error (evaluate ErrorMessages isValidCellLabel this formula) = e
      \/ error (evaluate ErrorMessages isValidCellLabel this formula)
         = invalidFormula ErrorMessages)
  /\ snd (evaluateExpression ErrorMessages isValidCellLabel this formula)
     = Throw message.
Proof.
  intros Hne Hparen Hexpr.
  rewrite (evaluate_general _ _ this formula Hne Hparen).
  rewrite (Hexpr (checked ErrorMessages this formula))
    by apply checked_memory.
  rewrite (Hexpr this eq_refl). cbn [_errorMessage setErrorMessage].
  destruct (JS.truthyString e); cbn [negb].
  - split; [ apply checked_result | ]. split; [ left | ]; reflexivity.
  - split; [ apply checked_result | ]. split; [ right | ]; reflexivity.
Qed.


(** X11.  Closing parentheses that nothing has opened, after a well-formed
    formula, are ignored: the formula followed by any number of them
    evaluates as the formula alone, to its value with an empty error. *)
Theorem stray_closing_parentheses (this : FormulaEvaluator)
  (s : sum) (v : float) (n : nat) :
  symbolsAreNotLabels isValidCellLabel ->
  literalsOfSum s = true ->
  valueOfSum s = Some v ->
  result (evaluate ErrorMessages isValidCellLabel this
            (tokensOfSum s ++ repeat ")" n))
  = JS.orZero (Some v)
  /\ error (evaluate ErrorMessages isValidCellLabel this
              (tokensOfSum s ++ repeat ")" n)) = "".
Proof.
  intros Hsym Hlit Hv.
  destruct n as [ | n ].
  { cbn [repeat]. rewrite app_nil_r.
    rewrite (evaluate_formula ErrorMessages isValidCellLabel this s v Hsym Hlit Hv).
    split; reflexivity. }
  set (formula := tokensOfSum s ++ repeat ")" (S n)).
  destruct (proj1 formula_has_number s Hlit) as (t & Hin & Hnum).
  destruct (number_token_general formula t) as [Hne Hparen]; [ | exact Hnum | ].
  { unfold formula. apply in_or_app. left. exact Hin. }
  assert (Hlast : isOperatorAt (lastToken formula) = false).
  { unfold formula. cbn [repeat]. rewrite lastToken_app.
    clear. induction n as [ | n IH ]; [ reflexivity | ].
    cbn [repeat]. rewrite lastToken_cons. exact IH. }
  assert (Hexpr : forall this0,
            evaluateExpression ErrorMessages isValidCellLabel this0 formula
            = (this0, Ok (JS.orZero (Some v)))).
  { intros this0. unfold evaluateExpression, formula.
    destruct (scans_formula ErrorMessages isValidCellLabel Hsym s Hlit v Hv
                this0 (Some ")") [] [] eq_refl I)
      as (values & waiting & Hs & Hall & Hreduce & Hlength).
    rewrite app_nil_r in Hs.
    fold formula. rewrite Hlast. unfold formula.
    rewrite scan_app. cbn [repeat]. rewrite Hs. cbn [scan].
    rewrite (scanToken_closeParen _ _ this0 _ values waiting Hsym).
    rewrite (applyUntilOpenParen_all this0 1 waiting values [v] Hall (Hreduce this0)).
    cbn [pop snd]. rewrite (scan_closing this0 n [v] Hsym). reflexivity. }
  rewrite (evaluate_general _ _ this formula Hne Hparen), Hexpr.
  unfold checked. rewrite Hlast. split; reflexivity.
Qed.

(** X12.  An operator with nothing before it, followed by a single number
    or parenthesised formula, is refused by the check after the scan, for
    lack of a second operand: the error is [invalidFormula] and the stored
    result is left as it was. *)
Theorem missing_left_operand (this : FormulaEvaluator)
  (operator : string) (f : factor) (v : float) :
  symbolsAreNotLabels isValidCellLabel ->
  isOperator operator = true ->
  literalsOfFactor f = true ->
  valueOfFactor f = Some v ->
  result (evaluate ErrorMessages isValidCellLabel this
            (operator :: tokensOfFactor f))
  = result this
  /\ error (evaluate ErrorMessages isValidCellLabel this
              (operator :: tokensOfFactor f))
     = invalidFormula ErrorMessages
  /\ snd (evaluateExpression ErrorMessages isValidCellLabel this
            (operator :: tokensOfFactor f))
     = Throw "Invalid formula".
Proof.
  intros Hsym Hop Hlit Hv.
  set (formula := operator :: tokensOfFactor f).
  destruct (proj2 (proj2 formula_has_number) f Hlit) as (t & Hin & Hnum).
  destruct (number_token_general formula t) as [Hne Hparen]; [ | exact Hnum | ].
  { right. exact Hin. }
  destruct (tokensOfFactor_head f Hlit) as (first & rest & Hhead & Hfirst).
  assert (Hlast : isOperatorAt (lastToken formula) = false).
  { unfold formula. rewrite Hhead, lastToken_cons, <- Hhead.
    apply tokensOfFactor_last. exact Hlit. }
  destruct (evaluate_throws this formula "Invalid formula"
              (invalidFormula ErrorMessages) Hne Hparen)
    as (Hresult & Herror & Hthrow).
  { intros this0 Hmem. unfold evaluateExpression, formula.
    cbn [scan].
    rewrite (scanToken_operator _ _ this0 operator _ _ _ Hsym Hop).
    rewrite Hhead at 1. cbn [nextIs]. rewrite Hfirst.
    cbn [applyWhilePrecedence]. unfold push.
    destruct (proj2 (proj2 (scansTo_formula ErrorMessages isValidCellLabel Hsym))
                f Hlit this0 None [] [operator] eq_refl)
      as [[Hnone _] | (values & waiting & Hs & Hwaits)].
    { cbn [stopsBelow].
      pose proof (getOperatorPrecedence_bound operator). lia. }
    { rewrite Hv in Hnone. discriminate Hnone. }
    rewrite (scan_continues _ _ _ _ _ _ _ _ _ Hs).
    fold formula. rewrite Hlast.
    destruct waiting as [ | o waiting' ].
    - destruct (proj1 (waits_shape ErrorMessages 3 [] _ values [] Hwaits) eq_refl)
        as (v' & _ & ->).
      cbn [app peek isOperatorAt List.length]. rewrite Hop. reflexivity.
    - exfalso. destruct Hwaits as (Hall & _ & _).
      inversion Hall as [ | ? ? [_ Hprec] ? ]; subst.
      pose proof (getOperatorPrecedence_bound o). lia. }
  split; [ exact Hresult | ]. split; [ | exact Hthrow ].
  destruct Herror as [Herror | Herror]; exact Herror.
Qed.

End Malformed.


Lemma stray_closing_parentheses_sample :
  (symbolsAreNotLabels sampleIsValidCellLabel
   /\ literalsOfSum sampleFormula = true
   /\ valueOfSum sampleFormula = Some 9%float)
  /\ result (evaluate sampleMessages sampleIsValidCellLabel sampleEvaluator
               ["8"; "-"; "3"; "-"; "2"; "/"; "("; "0.5"; "-"; "1"; ")";
                ")"; ")"]) = 9%float
  /\ error (evaluate sampleMessages sampleIsValidCellLabel sampleEvaluator
              ["8"; "-"; "3"; "-"; "2"; "/"; "("; "0.5"; "-"; "1"; ")";
               ")"; ")"]) = "".
Proof.
  split.
  - split; [ exact symbols_sample | ]. split; vm_compute; reflexivity.
  - exact (stray_closing_parentheses sampleMessages sampleIsValidCellLabel
             sampleEvaluator sampleFormula 9%float 2 symbols_sample
             ltac:(vm_compute; reflexivity) ltac:(vm_compute; reflexivity)).
Defined.

Lemma missing_left_operand_sample :
  (symbolsAreNotLabels sampleIsValidCellLabel
   /\ isOperator "-" = true
   /\ literalsOfFactor (Literal "3") = true
   /\ valueOfFactor (Literal "3") = Some 3%float)
  /\ result (evaluate sampleMessages sampleIsValidCellLabel sampleEvaluator
               ["-"; "3"]) = result sampleEvaluator
  /\ error (evaluate sampleMessages sampleIsValidCellLabel sampleEvaluator
              ["-"; "3"]) = invalidFormula sampleMessages.
Proof.
  split.
  - split; [ exact symbols_sample | ].
    split; [ reflexivity | ]. split; vm_compute; reflexivity.
  - pose proof (missing_left_operand sampleMessages sampleIsValidCellLabel
                  sampleEvaluator "-" (Literal "3") 3%float symbols_sample
                  eq_refl ltac:(vm_compute; reflexivity)
                  ltac:(vm_compute; reflexivity)) as (Hresult & Herror & _).
    split; [ exact Hresult | exact Herror ].
Defined.

(* ================================================================== *)
(** ** What the operator stack holds *)

Section Stack.

Variable ErrorMessages : ErrorMessagesT.
Variable isValidCellLabel : string -> bool.

Lemma applyOperator_invalid this operator values :
  snd (applyOperator ErrorMessages this operator values)
  = Throw "Invalid operator" ->
  isOperator operator = false.
Proof.
  unfold applyOperator, isOperator.
  destruct (pop values) as [operand2 values1].
  destruct (pop values1) as [operand1 values2]. cbn [existsb].
  destruct (operator =? "+"); [ discriminate | ].
  destruct (operator =? "-"); [ discriminate | ].
  destruct (operator =? "*"); [ discriminate | ].
  destruct (operator =? "/"); [ | reflexivity ].
  destruct (JS.strictEqualsZero operand2); discriminate.
Qed.

Ltac stack_loop operators :=
  induction operators as [ | top rest IH ]; intros this values Hstacked;
  [ split; [ intros ? ? [= <- _]; exact Hstacked | discriminate ] | ];
  simpl;
  try match goal with
      | |- context [if ?c then _ else _] =>
          destruct c;
          [ | split; [ intros ? ? [= <- _]; exact Hstacked | discriminate ] ]
      end;
  inversion Hstacked as [ | ? ? Htop Hrest ]; subst;
  match goal with
  | |- context [applyOperator ?E ?this ?top ?values] =>
      pose proof (applyOperator_invalid this top values) as Hinvalid;
      destruct (applyOperator E this top values) as [this' [values' | m]];
      [ apply IH; exact Hrest
      | split; [ discriminate | ];
        simpl; intros [= ->];
        destruct Htop as [Hop | [_ Hin]]; [ | exact Hin ];
        rewrite (Hinvalid eq_refl) in Hop; discriminate Hop ]
  end.

Lemma applyUntilOpenParen_stack formula operators :
  forall this values,
    stacked formula operators ->
    (forall operators' values',
        snd (applyUntilOpenParen ErrorMessages this operators values)
        = Ok (operators', values') ->
        stacked formula operators')
    /\ (snd (applyUntilOpenParen ErrorMessages this operators values)
        = Throw "Invalid operator" ->
        In "(" formula).
Proof. stack_loop operators. Qed.

Lemma applyWhilePrecedence_stack formula token operators :
  forall this values,
    stacked formula operators ->
    (forall operators' values',
        snd (applyWhilePrecedence ErrorMessages this token operators values)
        = Ok (operators', values') ->
        stacked formula operators')
    /\ (snd (applyWhilePrecedence ErrorMessages this token operators values)
        = Throw "Invalid operator" ->
        In "(" formula).
Proof. stack_loop operators. Qed.

Lemma applyRemaining_stack formula operators :
  forall this values,
    stacked formula operators ->
    snd (applyRemaining ErrorMessages this operators values)
    = Throw "Invalid operator" ->
    In "(" formula.
Proof.
  induction operators as [ | top rest IH ]; intros this values Hstacked;
    [ discriminate | ].
  simpl. inversion Hstacked as [ | ? ? Htop Hrest ]; subst.
  pose proof (applyOperator_invalid this top values) as Hinvalid.
  destruct (applyOperator ErrorMessages this top values) as [this' [values' | m]].
  - apply IH. exact Hrest.
  - simpl. intros [= ->].
    destruct Htop as [Hop | [_ Hin]]; [ | exact Hin ].
    rewrite (Hinvalid eq_refl) in Hop. discriminate Hop.
Qed.

Lemma scanToken_stack formula this token next values operators :
  In token formula ->
  stacked formula operators ->
  (forall values' operators',
      snd (scanToken ErrorMessages isValidCellLabel this token next values operators)
      = Continue values' operators' ->
      stacked formula operators')
  /\ (snd (scanToken ErrorMessages isValidCellLabel this token next values operators)
      = Raise "Invalid operator" ->
      In "(" formula).
Proof.
  intros Hin Hstacked. unfold scanToken.
  destruct (isNumber token).
  { destruct (nextIs _ next); split; try discriminate.
    intros ? ? [= _ <-]. exact Hstacked. }
  destruct (isCellReference isValidCellLabel token).
  { destruct (getCellValue ErrorMessages this token) as [value e].
    destruct (JS.truthyString e); split; try discriminate.
    intros ? ? [= _ <-]. exact Hstacked. }
  destruct (token =? "(") eqn:Hopen.
  { apply String.eqb_eq in Hopen. subst token.
    split; [ | discriminate ].
    intros ? ? [= _ <-]. constructor; [ right; split; [ reflexivity | exact Hin ] | ].
    exact Hstacked. }
  destruct (token =? ")").
  { destruct (applyUntilOpenParen_stack formula operators this values Hstacked)
      as [Hok Hthrow].
    destruct (applyUntilOpenParen ErrorMessages this operators values)
      as [this' [[operators1 values1] | m]]; split; try discriminate.
    - intros ? ? [= _ <-].
      specialize (Hok operators1 values1 eq_refl).
      destruct operators1 as [ | top rest ]; [ exact Hok | ].
      inversion Hok; subst. assumption.
    - simpl in *. intros [= ->]. apply Hthrow. reflexivity. }
  destruct (isOperator token) eqn:Hop.
  - destruct (nextIs isOperator next); [ split; discriminate | ].
    destruct (applyWhilePrecedence_stack formula token operators this values
                Hstacked) as [Hok Hthrow].
    destruct (applyWhilePrecedence ErrorMessages this token operators values)
      as [this' [[operators1 values1] | m]]; split; try discriminate.
    + intros ? ? [= _ <-]. constructor; [ left; exact Hop | ].
      exact (Hok operators1 values1 eq_refl).
    + simpl in *. intros [= ->]. apply Hthrow. reflexivity.
  - split; [ | discriminate ]. intros ? ? [= _ <-]. exact Hstacked.
Qed.

Lemma scan_stack formula this tokens after :
  forall values operators,
    incl tokens formula ->
    stacked formula operators ->
    (forall values' operators',
        snd (scan ErrorMessages isValidCellLabel this tokens after values operators)
        = Continue values' operators' ->
        stacked formula operators')
    /\ (snd (scan ErrorMessages isValidCellLabel this tokens after values operators)
        = Raise "Invalid operator" ->
        In "(" formula).
Proof.
  revert this.
  induction tokens as [ | token rest IH ];
    intros this values operators Hincl Hstacked.
  - split; [ | discriminate ]. intros ? ? [= _ <-]. exact Hstacked.
  - cbn [scan].
    destruct (scanToken_stack formula this token
                (match rest with [] => after | t :: _ => Some t end)
                values operators) as [Hok Hthrow];
      [ apply Hincl; left; reflexivity | exact Hstacked | ].
    destruct (scanToken ErrorMessages isValidCellLabel this token
                (match rest with [] => after | t :: _ => Some t end)
                values operators) as [this' [values1 operators1 | v | m]].
    + apply IH.
      * intros t Ht. apply Hincl. right. exact Ht.
      * exact (Hok values1 operators1 eq_refl).
    + split; discriminate.
    + split; [ discriminate | exact Hthrow ].
Qed.

(** X13.  [Error("Invalid operator")] is only ever thrown for a formula
    that has an opening parenthesis: the operator stack holds operators
    and opening parentheses only, and the parenthesis is the one entry
    that [applyOperator] does not know. *)
Theorem invalid_operator_needs_parenthesis (this : FormulaEvaluator)
  (formula : list string) :
  snd (evaluateExpression ErrorMessages isValidCellLabel this formula)
  = Throw "Invalid operator" ->
  In "(" formula.
Proof.
  unfold evaluateExpression.
  destruct (scan_stack formula this formula None [] [])
    as [Hok Hthrow]; [ apply incl_refl | constructor | ].
  destruct (scan ErrorMessages isValidCellLabel this formula None [] [])
    as [this' [values operators | v | m]].
  - destruct (isOperatorAt (lastToken formula)); [ discriminate | ].
    destruct ((0 <? List.length operators)%nat && _); [ discriminate | ].
    pose proof (applyRemaining_stack formula operators this' values
                  (Hok values operators eq_refl)) as Hloop.
    destruct (applyRemaining ErrorMessages this' operators values)
      as [this'' [values' | m]]; [ discriminate | ].
    simpl in *. intros [= ->]. apply Hloop. reflexivity.
  - discriminate.
  - simpl in *. intros [= ->]. apply Hthrow. reflexivity.
Qed.

End Stack.

Lemma invalid_operator_needs_parenthesis_sample :
  snd (evaluateExpression sampleMessages sampleIsValidCellLabel sampleEvaluator
         ["("; "1"; "+"; "2"])
  = Throw "Invalid operator"
  /\ In "(" ["("; "1"; "+"; "2"].
Proof.
  split; [ vm_compute; reflexivity | ].
  apply (invalid_operator_needs_parenthesis sampleMessages
           sampleIsValidCellLabel sampleEvaluator).
  vm_compute. reflexivity.
Defined.

(* ================================================================== *)
(** ** Token classes, and operands without an operator *)

(** X14.  The token classes do not overlap and agree with the precedence
    table: a token is an operator exactly when its precedence is 1 or 2,
    every other token has precedence 0, and no operator or parenthesis is
    taken for a number by [isNumber]. *)
Theorem token_classes (t : string) :
  (isOperator t = true <-> (1 <= getOperatorPrecedence t)%nat)
  /\ (isOperator t = false <-> getOperatorPrecedence t = 0%nat)
  /\ (getOperatorPrecedence t <= 2)%nat
  /\ (In t ["("; ")"; "+"; "-"; "*"; "/"] -> isNumber t = false).
Proof.
  assert (Hpositive : isOperator t = true <-> (1 <= getOperatorPrecedence t)%nat).
  { split; [ apply isOperator_precedence | ].
    unfold getOperatorPrecedence, isOperator. cbn [existsb].
    destruct (t =? "+"), (t =? "-"), (t =? "*"), (t =? "/");
      cbn; intros H; try reflexivity; lia. }
  split; [ exact Hpositive | ]. split; [ | split ].
  - split.
    + intros Hop. destruct (getOperatorPrecedence t) eqn:Hprec; [ reflexivity | ].
      assert (Htrue : isOperator t = true) by (apply Hpositive; lia).
      rewrite Htrue in Hop. discriminate Hop.
    + intros Hzero. destruct (isOperator t) eqn:Hop; [ | reflexivity ].
      apply isOperator_precedence in Hop. lia.
  - apply getOperatorPrecedence_bound.
  - intros Hin. simpl in Hin.
    repeat (destruct Hin as [<- | Hin]; [ vm_compute; reflexivity | ]).
    contradiction.
Qed.

Section Operands.

Variable ErrorMessages : ErrorMessagesT.
Variable isValidCellLabel : string -> bool.

Lemma scan_numbers this (numbers : list string) :
  Forall (fun t => isNumber t = true) numbers ->
  forall values,
    scan ErrorMessages isValidCellLabel this numbers None values []
    = (this, Continue (rev (map JS.Number numbers) ++ values) []).
Proof.
  intros Hall.
  induction Hall as [ | t rest Ht Hall IH ]; intros values; [ reflexivity | ].
  cbn [scan]. rewrite scanToken_number.
  - rewrite IH. cbn [map rev]. rewrite <- app_assoc. reflexivity.
  - exact Ht.
  - destruct Hall as [ | t' rest' Ht' _ ]; [ reflexivity | ].
    cbn [nextIs]. apply String.eqb_neq. intros ->.
    vm_compute in Ht'. discriminate Ht'.
Qed.

Lemma lastToken_numbers (numbers : list string) (t : string) :
  rev (map JS.Number (numbers ++ [t]))
  = JS.Number t :: rev (map JS.Number numbers)
  /\ lastToken (numbers ++ [t]) = Some t.
Proof.
  split.
  - rewrite map_app, rev_app_distr. reflexivity.
  - rewrite lastToken_app. reflexivity.
Qed.

(** X15.  Operands written side by side, with no operator between them,
    are not detected: a formula made of number tokens only evaluates with
    an empty error, and its result is the last of the numbers (0 when that
    number is 0). *)
Theorem adjacent_numbers (this : FormulaEvaluator)
  (numbers : list string) (t : string) :
  Forall (fun n => isNumber n = true) (numbers ++ [t]) ->
  result (evaluate ErrorMessages isValidCellLabel this (numbers ++ [t]))
  = JS.orZero (Some (JS.Number t))
  /\ error (evaluate ErrorMessages isValidCellLabel this (numbers ++ [t])) = "".
Proof.
  intros Hall.
  assert (Ht : isNumber t = true).
  { rewrite Forall_forall in Hall. apply Hall.
    apply in_or_app. right. left. reflexivity. }
  destruct (number_token_general (numbers ++ [t]) t) as [Hne Hparen];
    [ apply in_or_app; right; left; reflexivity | exact Ht | ].
  destruct (lastToken_numbers numbers t) as [Hvalues Hlast].
  rewrite (evaluate_general _ _ this _ Hne Hparen).
  unfold evaluateExpression.
  rewrite (scan_numbers _ _ Hall []), Hlast, Hvalues.
  cbn [isOperatorAt]. rewrite (isNumber_not_operator t Ht).
  unfold checked. rewrite Hlast. cbn [isOperatorAt].
  rewrite (isNumber_not_operator t Ht).
  split; reflexivity.
Qed.

End Operands.

Lemma adjacent_numbers_sample :
  Forall (fun n => isNumber n = true) (["3"; "4"] ++ ["5"])
  /\ result (evaluate sampleMessages sampleIsValidCellLabel sampleEvaluator
               ["3"; "4"; "5"]) = 5%float
  /\ error (evaluate sampleMessages sampleIsValidCellLabel sampleEvaluator
              ["3"; "4"; "5"]) = "".
Proof.
  assert (Hall : Forall (fun n => isNumber n = true) (["3"; "4"] ++ ["5"])).
  { repeat constructor. }
  split; [ exact Hall | ].
  exact (adjacent_numbers sampleMessages sampleIsValidCellLabel sampleEvaluator
           ["3"; "4"] "5" Hall).
Defined.
